(** * Quadcopter simulation: rigid-body integrator, cascaded PID, simulator

    A shallow embedding of [Quadcopter.py], [pid_controller.py] and
    [simulator.py].  Python floats are read as real numbers (exact
    arithmetic, [math.pi] as [PI]); Python objects are records, and a method
    that mutates its object is a computation in a state-and-exception monad
    over that record.  The only exception the code can raise is
    [ZeroDivisionError], from the float division operator. *)

From Stdlib Require Import Reals Lra Lia ZArith List Bool PeanoNat RNsatz.
Import ListNotations.
Local Open Scope R_scope.

(** ** Python semantics used by the sources *)

Inductive exn : Type := ZeroDivisionError.

Inductive outcome (A : Type) : Type :=
| Returned (a : A)
| Raised (e : exn).
Arguments Returned {A} a.
Arguments Raised {A} e.

(** A method body: it runs on the object [S], returns or raises, and leaves
    the object as mutated up to that point. *)
Definition Py (S A : Type) : Type := S -> outcome A * S.

Definition ret {S A : Type} (a : A) : Py S A := fun s => (Returned a, s).

Definition raise {S A : Type} (e : exn) : Py S A := fun s => (Raised e, s).

Definition bind {S A B : Type} (m : Py S A) (k : A -> Py S B) : Py S B :=
  fun s =>
    match m s with
    | (Returned a, s') => k a s'
    | (Raised e, s') => (Raised e, s')
    end.

Definition get {S : Type} : Py S S := fun s => (Returned s, s).

(** [self.f = e], with [e] read on the current object. *)
Definition assign {S V : Type} (setter : V -> S -> S) (e : S -> V) : Py S unit :=
  fun s => (Returned tt, setter (e s) s).

(** A method call on the attribute read by [proj] and written back by [inj]. *)
Definition on_attr {S T A : Type} (proj : S -> T) (inj : T -> S -> S)
    (m : Py T A) : Py S A :=
  fun s => let (r, t') := m (proj s) in (r, inj t' s).

Declare Scope py_scope.
Delimit Scope py_scope with py.
Notation "x <- m ;; k" := (bind m (fun x => k))
  (at level 61, m at next level, right associativity) : py_scope.
Notation "m ;; k" := (bind m (fun _ => k))
  (at level 61, right associativity) : py_scope.
Local Open Scope py_scope.

(** Float division [a / b]: raises on a zero divisor. *)
Definition fdiv {S : Type} (a b : R) : Py S R :=
  if Req_dec_T b 0 then raise ZeroDivisionError else ret (a / b).

(** Python's [max(a, b)] and [min(a, b)]: the first argument unless the
    second is strictly greater (smaller). *)
Definition py_max (a b : R) : R := if Rlt_dec a b then b else a.
Definition py_min (a b : R) : R := if Rlt_dec b a then b else a.

Definition gtb (a b : R) : bool := if Rlt_dec b a then true else false.
Definition ltb (a b : R) : bool := if Rlt_dec a b then true else false.

(** [while cond(self): body], unrolled at most [fuel] times. *)
Fixpoint while {S : Type} (fuel : nat) (cond : S -> bool) (body : Py S unit)
    : Py S unit :=
  match fuel with
  | O => ret tt
  | S fuel' =>
      self <- get ;;
      if cond self then body ;; while fuel' cond body else ret tt
  end.

(** ** pid_controller.py: class PID *)

Module PID.

Record t : Type := mk {
  kp : R;
  ki : R;
  kd : R;
  integrator_limit : option R;
  derivative_filter_tau : R;
  integral : R;
  prev_error : R;
  filtered_derivative : R;
  first_call : bool
}.

Definition set_integral (v : R) (self : t) : t :=
  mk (kp self) (ki self) (kd self) (integrator_limit self)
     (derivative_filter_tau self) v (prev_error self)
     (filtered_derivative self) (first_call self).

Definition set_prev_error (v : R) (self : t) : t :=
  mk (kp self) (ki self) (kd self) (integrator_limit self)
     (derivative_filter_tau self) (integral self) v
     (filtered_derivative self) (first_call self).

Definition set_filtered_derivative (v : R) (self : t) : t :=
  mk (kp self) (ki self) (kd self) (integrator_limit self)
     (derivative_filter_tau self) (integral self) (prev_error self)
     v (first_call self).

Definition set_first_call (v : bool) (self : t) : t :=
  mk (kp self) (ki self) (kd self) (integrator_limit self)
     (derivative_filter_tau self) (integral self) (prev_error self)
     (filtered_derivative self) v.

(** [PID.__init__] *)
Definition init (kp ki kd : R) (integrator_limit : option R)
    (derivative_filter_tau : R) : t :=
  mk kp ki kd integrator_limit derivative_filter_tau 0 0 0 true.

(** [PID.reset] *)
Definition reset (self : t) : t :=
  set_first_call true
    (set_filtered_derivative 0 (set_prev_error 0 (set_integral 0 self))).

(** The derivative branch of [PID.update] (lines 64-77): the value of
    [d_term]. *)
Definition d_term (error dt : R) : Py t R :=
  self <- get ;;
  if first_call self then
    assign set_first_call (fun _ => false) ;;
    ret 0
  else
    raw_derivative <-
      (if Rlt_dec 0 dt then fdiv (error - prev_error self) dt else ret 0) ;;
    if Rlt_dec 0 (derivative_filter_tau self) then
      alpha <- fdiv dt (dt + derivative_filter_tau self) ;;
      assign set_filtered_derivative
        (fun self => alpha * raw_derivative
                     + (1 - alpha) * filtered_derivative self) ;;
      self <- get ;;
      ret (kd self * filtered_derivative self)
    else
      ret (kd self * raw_derivative).

(** [PID.update] *)
Definition update (error dt : R) : Py t R :=
  self <- get ;;
  let p_term := kp self * error in
  assign set_integral (fun self => integral self + error * dt) ;;
  self <- get ;;
  match integrator_limit self with
  | Some limit =>
      assign set_integral
        (fun self => py_max (- limit) (py_min limit (integral self)))
  | None => ret tt
  end ;;
  self <- get ;;
  let i_term := ki self * integral self in
  d <- d_term error dt ;;
  assign set_prev_error (fun _ => error) ;;
  ret (p_term + i_term + d).

End PID.

(** ** pid_controller.py: class CascadedController *)

Module CascadedController.

Record t : Type := mk {
  alt_pid : PID.t;
  roll_pid : PID.t;
  pitch_pid : PID.t;
  yaw_pid : PID.t
}.

Definition set_alt_pid (v : PID.t) (self : t) : t :=
  mk v (roll_pid self) (pitch_pid self) (yaw_pid self).
Definition set_roll_pid (v : PID.t) (self : t) : t :=
  mk (alt_pid self) v (pitch_pid self) (yaw_pid self).
Definition set_pitch_pid (v : PID.t) (self : t) : t :=
  mk (alt_pid self) (roll_pid self) v (yaw_pid self).
Definition set_yaw_pid (v : PID.t) (self : t) : t :=
  mk (alt_pid self) (roll_pid self) (pitch_pid self) v.

(** [CascadedController.__init__] *)
Definition init : t :=
  mk (PID.init 10 2 5 (Some 2.5) 0.02)
     (PID.init 2 0.1 1 (Some 0.1) 0.08)
     (PID.init 2 0.1 1 (Some 0.1) 0.08)
     (PID.init 1 0.05 0.5 (Some 0.05) 0.08).

(** [CascadedController.reset] *)
Definition reset (self : t) : t :=
  mk (PID.reset (alt_pid self)) (PID.reset (roll_pid self))
     (PID.reset (pitch_pid self)) (PID.reset (yaw_pid self)).

(** [CascadedController.update_altitude] *)
Definition update_altitude (z_ref z_actual vz_actual mass g dt : R) : Py t R :=
  let z_err := z_ref - z_actual in
  alt_cmd <- on_attr alt_pid set_alt_pid
               (PID.update (z_err - 0.2 * vz_actual) dt) ;;
  let thrust := mass * g + alt_cmd in
  ret thrust.

(** [CascadedController.update_attitude] *)
Definition update_attitude
    (roll_ref pitch_ref yaw_ref roll_actual pitch_actual yaw_actual dt : R)
    : Py t (R * R * R) :=
  let roll_err := roll_ref - roll_actual in
  let pitch_err := pitch_ref - pitch_actual in
  let yaw_err := yaw_ref - yaw_actual in
  torque_roll <- on_attr roll_pid set_roll_pid (PID.update roll_err dt) ;;
  torque_pitch <- on_attr pitch_pid set_pitch_pid (PID.update pitch_err dt) ;;
  torque_yaw <- on_attr yaw_pid set_yaw_pid (PID.update yaw_err dt) ;;
  ret (torque_roll, torque_pitch, torque_yaw).

End CascadedController.

(** ** Quadcopter.py *)

(** The dictionary [get_state] returns: a fresh record at every call. *)
Module VehicleState.

Record t : Type := mk {
  x : R; y : R; z : R;
  vx : R; vy : R; vz : R;
  roll : R; pitch : R; yaw : R;
  p : R; q : R; r : R;
  thrust : R;
  torque_roll : R;
  torque_pitch : R;
  torque_yaw : R
}.

End VehicleState.

Module Quadcopter.

Record t : Type := mk {
  mass : R;
  length : R;
  g : R;
  Ix : R;
  Iy : R;
  Iz : R;
  x : R;
  y : R;
  z : R;
  vx : R;
  vy : R;
  vz : R;
  roll : R;
  pitch : R;
  yaw : R;
  p : R;
  q : R;
  r : R;
  torque_roll : R;
  torque_pitch : R;
  torque_yaw : R;
  thrust : R;
  MAX_ANGLE : R;
  MAX_VEL : R;
  MAX_POS : R;
  history : list VehicleState.t
}.

Definition set_x (v : R) (self : t) : t :=
  mk (mass self) (length self) (g self) (Ix self) (Iy self) (Iz self) v
     (y self) (z self) (vx self) (vy self) (vz self) (roll self)
     (pitch self) (yaw self) (p self) (q self) (r self) (torque_roll self)
     (torque_pitch self) (torque_yaw self) (thrust self) (MAX_ANGLE self)
     (MAX_VEL self) (MAX_POS self) (history self).

Definition set_y (v : R) (self : t) : t :=
  mk (mass self) (length self) (g self) (Ix self) (Iy self) (Iz self)
     (x self) v (z self) (vx self) (vy self) (vz self) (roll self)
     (pitch self) (yaw self) (p self) (q self) (r self) (torque_roll self)
     (torque_pitch self) (torque_yaw self) (thrust self) (MAX_ANGLE self)
     (MAX_VEL self) (MAX_POS self) (history self).

Definition set_z (v : R) (self : t) : t :=
  mk (mass self) (length self) (g self) (Ix self) (Iy self) (Iz self)
     (x self) (y self) v (vx self) (vy self) (vz self) (roll self)
     (pitch self) (yaw self) (p self) (q self) (r self) (torque_roll self)
     (torque_pitch self) (torque_yaw self) (thrust self) (MAX_ANGLE self)
     (MAX_VEL self) (MAX_POS self) (history self).

Definition set_vx (v : R) (self : t) : t :=
  mk (mass self) (length self) (g self) (Ix self) (Iy self) (Iz self)
     (x self) (y self) (z self) v (vy self) (vz self) (roll self)
     (pitch self) (yaw self) (p self) (q self) (r self) (torque_roll self)
     (torque_pitch self) (torque_yaw self) (thrust self) (MAX_ANGLE self)
     (MAX_VEL self) (MAX_POS self) (history self).

Definition set_vy (v : R) (self : t) : t :=
  mk (mass self) (length self) (g self) (Ix self) (Iy self) (Iz self)
     (x self) (y self) (z self) (vx self) v (vz self) (roll self)
     (pitch self) (yaw self) (p self) (q self) (r self) (torque_roll self)
     (torque_pitch self) (torque_yaw self) (thrust self) (MAX_ANGLE self)
     (MAX_VEL self) (MAX_POS self) (history self).

Definition set_vz (v : R) (self : t) : t :=
  mk (mass self) (length self) (g self) (Ix self) (Iy self) (Iz self)
     (x self) (y self) (z self) (vx self) (vy self) v (roll self)
     (pitch self) (yaw self) (p self) (q self) (r self) (torque_roll self)
     (torque_pitch self) (torque_yaw self) (thrust self) (MAX_ANGLE self)
     (MAX_VEL self) (MAX_POS self) (history self).

Definition set_roll (v : R) (self : t) : t :=
  mk (mass self) (length self) (g self) (Ix self) (Iy self) (Iz self)
     (x self) (y self) (z self) (vx self) (vy self) (vz self) v (pitch self)
     (yaw self) (p self) (q self) (r self) (torque_roll self)
     (torque_pitch self) (torque_yaw self) (thrust self) (MAX_ANGLE self)
     (MAX_VEL self) (MAX_POS self) (history self).

Definition set_pitch (v : R) (self : t) : t :=
  mk (mass self) (length self) (g self) (Ix self) (Iy self) (Iz self)
     (x self) (y self) (z self) (vx self) (vy self) (vz self) (roll self) v
     (yaw self) (p self) (q self) (r self) (torque_roll self)
     (torque_pitch self) (torque_yaw self) (thrust self) (MAX_ANGLE self)
     (MAX_VEL self) (MAX_POS self) (history self).

Definition set_yaw (v : R) (self : t) : t :=
  mk (mass self) (length self) (g self) (Ix self) (Iy self) (Iz self)
     (x self) (y self) (z self) (vx self) (vy self) (vz self) (roll self)
     (pitch self) v (p self) (q self) (r self) (torque_roll self)
     (torque_pitch self) (torque_yaw self) (thrust self) (MAX_ANGLE self)
     (MAX_VEL self) (MAX_POS self) (history self).

Definition set_p (v : R) (self : t) : t :=
  mk (mass self) (length self) (g self) (Ix self) (Iy self) (Iz self)
     (x self) (y self) (z self) (vx self) (vy self) (vz self) (roll self)
     (pitch self) (yaw self) v (q self) (r self) (torque_roll self)
     (torque_pitch self) (torque_yaw self) (thrust self) (MAX_ANGLE self)
     (MAX_VEL self) (MAX_POS self) (history self).

Definition set_q (v : R) (self : t) : t :=
  mk (mass self) (length self) (g self) (Ix self) (Iy self) (Iz self)
     (x self) (y self) (z self) (vx self) (vy self) (vz self) (roll self)
     (pitch self) (yaw self) (p self) v (r self) (torque_roll self)
     (torque_pitch self) (torque_yaw self) (thrust self) (MAX_ANGLE self)
     (MAX_VEL self) (MAX_POS self) (history self).

Definition set_r (v : R) (self : t) : t :=
  mk (mass self) (length self) (g self) (Ix self) (Iy self) (Iz self)
     (x self) (y self) (z self) (vx self) (vy self) (vz self) (roll self)
     (pitch self) (yaw self) (p self) (q self) v (torque_roll self)
     (torque_pitch self) (torque_yaw self) (thrust self) (MAX_ANGLE self)
     (MAX_VEL self) (MAX_POS self) (history self).

Definition set_torque_roll (v : R) (self : t) : t :=
  mk (mass self) (length self) (g self) (Ix self) (Iy self) (Iz self)
     (x self) (y self) (z self) (vx self) (vy self) (vz self) (roll self)
     (pitch self) (yaw self) (p self) (q self) (r self) v
     (torque_pitch self) (torque_yaw self) (thrust self) (MAX_ANGLE self)
     (MAX_VEL self) (MAX_POS self) (history self).

Definition set_torque_pitch (v : R) (self : t) : t :=
  mk (mass self) (length self) (g self) (Ix self) (Iy self) (Iz self)
     (x self) (y self) (z self) (vx self) (vy self) (vz self) (roll self)
     (pitch self) (yaw self) (p self) (q self) (r self) (torque_roll self) v
     (torque_yaw self) (thrust self) (MAX_ANGLE self) (MAX_VEL self)
     (MAX_POS self) (history self).

Definition set_torque_yaw (v : R) (self : t) : t :=
  mk (mass self) (length self) (g self) (Ix self) (Iy self) (Iz self)
     (x self) (y self) (z self) (vx self) (vy self) (vz self) (roll self)
     (pitch self) (yaw self) (p self) (q self) (r self) (torque_roll self)
     (torque_pitch self) v (thrust self) (MAX_ANGLE self) (MAX_VEL self)
     (MAX_POS self) (history self).

Definition set_thrust (v : R) (self : t) : t :=
  mk (mass self) (length self) (g self) (Ix self) (Iy self) (Iz self)
     (x self) (y self) (z self) (vx self) (vy self) (vz self) (roll self)
     (pitch self) (yaw self) (p self) (q self) (r self) (torque_roll self)
     (torque_pitch self) (torque_yaw self) v (MAX_ANGLE self) (MAX_VEL self)
     (MAX_POS self) (history self).

Definition set_history (v : list VehicleState.t) (self : t) : t :=
  mk (mass self) (length self) (g self) (Ix self) (Iy self) (Iz self)
     (x self) (y self) (z self) (vx self) (vy self) (vz self) (roll self)
     (pitch self) (yaw self) (p self) (q self) (r self) (torque_roll self)
     (torque_pitch self) (torque_yaw self) (thrust self) (MAX_ANGLE self)
     (MAX_VEL self) (MAX_POS self) v.

(** [Quadcopter.__init__]: the object once the body has run. *)
Definition init (mass length Ixx Iyy Izz : R) : t :=
  mk mass length 9.81 Ixx Iyy Izz
     0 0 2.5
     0 0 0
     0 0 0
     0 0 0
     0 0 0 0
     1.57 50 500
     [].

(** The call [Quadcopter(mass, length, Ixx, Iyy, Izz)]: the body of
    [__init__] has no [raise] and no operation that can raise. *)
Definition new (mass length Ixx Iyy Izz : R) : outcome t :=
  Returned (init mass length Ixx Iyy Izz).

(** [Quadcopter.set_control] *)
Definition set_control (torque_roll torque_pitch torque_yaw thrust : R)
    (self : t) : t :=
  set_thrust (py_max 0 thrust)
    (set_torque_yaw torque_yaw
       (set_torque_pitch torque_pitch
          (set_torque_roll torque_roll self))).

(** Iterations granted to the two yaw loops of [step]; [yaw_loops_exit]
    below shows that both loops have left by their own test within it.
    This is the loop on real numbers.  On binary64 the loops move as long
    as the magnitude of [yaw] is at most [2 ^ 56]; above it
    [yaw - 2 * math.pi] returns [yaw] and the source loop does not end, so
    the statements about the exit of the loops are made for magnitudes up
    to [yaw_loop_range] only. *)
Definition yaw_fuel (yaw : R) : nat := Z.to_nat (up (Rabs yaw / (2 * PI))).

(** [Quadcopter.step] *)
Definition step (dt : R) : Py t unit :=
  self <- get ;;
  pdot <- fdiv (torque_roll self) (Ix self) ;;
  qdot <- fdiv (torque_pitch self) (Iy self) ;;
  rdot <- fdiv (torque_yaw self) (Iz self) ;;
  assign set_p (fun self => p self + pdot * dt) ;;
  assign set_q (fun self => q self + qdot * dt) ;;
  assign set_r (fun self => r self + rdot * dt) ;;
  assign set_roll (fun self => roll self + p self * dt) ;;
  assign set_pitch (fun self => pitch self + q self * dt) ;;
  assign set_yaw (fun self => yaw self + r self * dt) ;;
  assign set_roll
    (fun self => py_max (- MAX_ANGLE self) (py_min (MAX_ANGLE self) (roll self))) ;;
  assign set_pitch
    (fun self => py_max (- MAX_ANGLE self) (py_min (MAX_ANGLE self) (pitch self))) ;;
  self <- get ;;
  while (yaw_fuel (yaw self)) (fun self => gtb (yaw self) PI)
    (assign set_yaw (fun self => yaw self - 2 * PI)) ;;
  self <- get ;;
  while (yaw_fuel (yaw self)) (fun self => ltb (yaw self) (- PI))
    (assign set_yaw (fun self => yaw self + 2 * PI)) ;;
  self <- get ;;
  let cr := cos (roll self) in
  let sr := sin (roll self) in
  let cp := cos (pitch self) in
  let sp := sin (pitch self) in
  let cy := cos (yaw self) in
  let sy := sin (yaw self) in
  let r11 := cy * cp in
  let r12 := cy * sp * sr - sy * cr in
  let r13 := cy * sp * cr + sy * sr in
  let r21 := sy * cp in
  let r22 := sy * sp * sr + cy * cr in
  let r23 := sy * sp * cr - cy * sr in
  let r31 := - sp in
  let r32 := cp * sr in
  let r33 := cp * cr in
  let fx := thrust self * r13 in
  let fy := thrust self * r23 in
  let fz := thrust self * r33 - mass self * g self in
  ax <- fdiv fx (mass self) ;;
  ay <- fdiv fy (mass self) ;;
  az <- fdiv fz (mass self) ;;
  assign set_vx (fun self => vx self + ax * dt) ;;
  assign set_vy (fun self => vy self + ay * dt) ;;
  assign set_vz (fun self => vz self + az * dt) ;;
  assign set_vx
    (fun self => py_max (- MAX_VEL self) (py_min (MAX_VEL self) (vx self))) ;;
  assign set_vy
    (fun self => py_max (- MAX_VEL self) (py_min (MAX_VEL self) (vy self))) ;;
  assign set_vz
    (fun self => py_max (- MAX_VEL self) (py_min (MAX_VEL self) (vz self))) ;;
  assign set_x (fun self => x self + vx self * dt) ;;
  assign set_y (fun self => y self + vy self * dt) ;;
  assign set_z (fun self => z self + vz self * dt) ;;
  self <- get ;;
  (if Rlt_dec (z self) 0 then
     assign set_z (fun _ => 0) ;;
     assign set_vz (fun _ => 0)
   else ret tt) ;;
  assign set_x
    (fun self => py_max (- MAX_POS self) (py_min (MAX_POS self) (x self))) ;;
  assign set_y
    (fun self => py_max (- MAX_POS self) (py_min (MAX_POS self) (y self))) ;;
  assign set_z (fun self => py_max 0 (py_min (MAX_POS self) (z self))).

(** [Quadcopter.get_state] *)
Definition get_state (self : t) : VehicleState.t :=
  VehicleState.mk (x self) (y self) (z self)
    (vx self) (vy self) (vz self)
    (roll self) (pitch self) (yaw self)
    (p self) (q self) (r self)
    (thrust self) (torque_roll self) (torque_pitch self) (torque_yaw self).

(** [Quadcopter.reset] *)
Definition reset (self : t) : t :=
  set_history []
    (set_r 0 (set_q 0 (set_p 0
       (set_yaw 0 (set_pitch 0 (set_roll 0
          (set_vz 0 (set_vy 0 (set_vx 0
             (set_z 2.5 (set_y 0 (set_x 0 self)))))))))))).

End Quadcopter.

(** ** simulator.py *)

Module QuadcopterSimulator.

Record t : Type := mk {
  quad : Quadcopter.t;
  controller : CascadedController.t;
  z_ref : R;
  roll_ref : R;
  pitch_ref : R;
  yaw_ref : R;
  sim_time : R;
  step_count : Z;
  logged_states : list (R * VehicleState.t)
}.

Definition set_quad (v : Quadcopter.t) (self : t) : t :=
  mk v (controller self) (z_ref self) (roll_ref self) (pitch_ref self)
     (yaw_ref self) (sim_time self) (step_count self) (logged_states self).

Definition set_controller (v : CascadedController.t) (self : t) : t :=
  mk (quad self) v (z_ref self) (roll_ref self) (pitch_ref self)
     (yaw_ref self) (sim_time self) (step_count self) (logged_states self).

Definition set_z_ref (v : R) (self : t) : t :=
  mk (quad self) (controller self) v (roll_ref self) (pitch_ref self)
     (yaw_ref self) (sim_time self) (step_count self) (logged_states self).

Definition set_roll_ref (v : R) (self : t) : t :=
  mk (quad self) (controller self) (z_ref self) v (pitch_ref self)
     (yaw_ref self) (sim_time self) (step_count self) (logged_states self).

Definition set_pitch_ref (v : R) (self : t) : t :=
  mk (quad self) (controller self) (z_ref self) (roll_ref self) v
     (yaw_ref self) (sim_time self) (step_count self) (logged_states self).

Definition set_yaw_ref (v : R) (self : t) : t :=
  mk (quad self) (controller self) (z_ref self) (roll_ref self)
     (pitch_ref self) v (sim_time self) (step_count self)
     (logged_states self).

Definition set_sim_time (v : R) (self : t) : t :=
  mk (quad self) (controller self) (z_ref self) (roll_ref self)
     (pitch_ref self) (yaw_ref self) v (step_count self)
     (logged_states self).

Definition set_step_count (v : Z) (self : t) : t :=
  mk (quad self) (controller self) (z_ref self) (roll_ref self)
     (pitch_ref self) (yaw_ref self) (sim_time self) v
     (logged_states self).

Definition set_logged_states (v : list (R * VehicleState.t)) (self : t) : t :=
  mk (quad self) (controller self) (z_ref self) (roll_ref self)
     (pitch_ref self) (yaw_ref self) (sim_time self) (step_count self) v.

(** [QuadcopterSimulator.__init__] *)
Definition init (mass length Ixx Iyy Izz : R) : t :=
  mk (Quadcopter.init mass length Ixx Iyy Izz)
     CascadedController.init
     2.5 0 0 0
     0 0%Z
     [].

(** [QuadcopterSimulator.set_references] *)
Definition set_references (roll_ref pitch_ref yaw_ref z_ref : R) (self : t)
    : t :=
  set_z_ref z_ref
    (set_yaw_ref yaw_ref (set_pitch_ref pitch_ref (set_roll_ref roll_ref self))).

(** [QuadcopterSimulator.step].  [logged_states.pop(0)] runs on a list of
    more than 5000 entries, where it removes the head. *)
Definition step (dt : R) : Py t VehicleState.t :=
  self <- get ;;
  let state := Quadcopter.get_state (quad self) in
  thrust <- on_attr controller set_controller
              (CascadedController.update_altitude
                 (z_ref self) (VehicleState.z state) (VehicleState.vz state)
                 (Quadcopter.mass (quad self)) (Quadcopter.g (quad self)) dt) ;;
  self <- get ;;
  torques <- on_attr controller set_controller
               (CascadedController.update_attitude
                  (roll_ref self) (pitch_ref self) (yaw_ref self)
                  (VehicleState.roll state) (VehicleState.pitch state)
                  (VehicleState.yaw state) dt) ;;
  let '(torque_roll, torque_pitch, torque_yaw) := torques in
  assign set_quad
    (fun self =>
       Quadcopter.set_control torque_roll torque_pitch torque_yaw thrust
         (quad self)) ;;
  on_attr quad set_quad (Quadcopter.step dt) ;;
  assign set_sim_time (fun self => sim_time self + dt) ;;
  assign set_step_count (fun self => (step_count self + 1)%Z) ;;
  self <- get ;;
  (if (step_count self mod 4 =? 0)%Z then
     assign set_logged_states
       (fun self =>
          logged_states self
          ++ [(sim_time self, Quadcopter.get_state (quad self))]) ;;
     self <- get ;;
     if (5000 <? Z.of_nat (List.length (logged_states self)))%Z then
       assign set_logged_states (fun self => tl (logged_states self))
     else ret tt
   else ret tt) ;;
  self <- get ;;
  ret (Quadcopter.get_state (quad self)).

(** [QuadcopterSimulator.reset] *)
Definition reset (self : t) : t :=
  set_logged_states []
    (set_step_count 0%Z
       (set_sim_time 0
          (set_controller (CascadedController.reset (controller self))
             (set_quad (Quadcopter.reset (quad self)) self)))).

(** Python's [l[start:]]: a negative [start] counts from the end, and
    either way it is brought into the list's bounds. *)
Definition py_slice_from {A : Type} (start : Z) (l : list A) : list A :=
  let len := Z.of_nat (List.length l) in
  let first :=
    if (start <? 0)%Z then Z.max (start + len) 0 else Z.min start len in
  skipn (Z.to_nat first) l.

(** The dictionary [get_extended_state] returns. *)
Record extended_state : Type := mk_extended_state {
  base : VehicleState.t;
  state_z_ref : R;
  state_roll_ref : R;
  state_pitch_ref : R;
  state_yaw_ref : R;
  z_err : R;
  roll_err : R;
  pitch_err : R;
  yaw_err : R;
  state_sim_time : R;
  state_step_count : Z
}.

(** [QuadcopterSimulator.get_extended_state] *)
Definition get_extended_state (self : t) : extended_state :=
  let state := Quadcopter.get_state (quad self) in
  mk_extended_state state
    (z_ref self) (roll_ref self) (pitch_ref self) (yaw_ref self)
    (z_ref self - VehicleState.z state)
    (roll_ref self - VehicleState.roll state)
    (pitch_ref self - VehicleState.pitch state)
    (yaw_ref self - VehicleState.yaw state)
    (sim_time self) (step_count self).

(** [QuadcopterSimulator.get_log_entries]: [logged_states[-num_entries:]] *)
Definition get_log_entries (num_entries : Z) (self : t)
    : list (R * VehicleState.t) :=
  py_slice_from (- num_entries) (logged_states self).

End QuadcopterSimulator.

(** ** Call sequences

    A client drives an object by a sequence of method calls.  A call that
    raises leaves the object as mutated up to the raise, and the client may
    go on calling it. *)

Inductive quad_call : Type :=
| QSetControl (torque_roll torque_pitch torque_yaw thrust : R)
| QStep (dt : R)
| QReset.

Definition quad_apply (self : Quadcopter.t) (c : quad_call) : Quadcopter.t :=
  match c with
  | QSetControl torque_roll torque_pitch torque_yaw thrust =>
      Quadcopter.set_control torque_roll torque_pitch torque_yaw thrust self
  | QStep dt => snd (Quadcopter.step dt self)
  | QReset => Quadcopter.reset self
  end.

Definition quad_run (calls : list quad_call) (self : Quadcopter.t)
    : Quadcopter.t :=
  fold_left quad_apply calls self.

Inductive sim_call : Type :=
| SSetReferences (roll_ref pitch_ref yaw_ref z_ref : R)
| SStep (dt : R)
| SReset.

Definition sim_apply (self : QuadcopterSimulator.t) (c : sim_call)
    : QuadcopterSimulator.t :=
  match c with
  | SSetReferences roll_ref pitch_ref yaw_ref z_ref =>
      QuadcopterSimulator.set_references roll_ref pitch_ref yaw_ref z_ref self
  | SStep dt => snd (QuadcopterSimulator.step dt self)
  | SReset => QuadcopterSimulator.reset self
  end.

Definition sim_run (calls : list sim_call) (self : QuadcopterSimulator.t)
    : QuadcopterSimulator.t :=
  fold_left sim_apply calls self.

(** ** math_utils.py *)

Module MathUtils.

(** A 3x3 numpy array, indexed [R[i, j]]. *)
Record mat3 : Type := mk_mat3 {
  r00 : R; r01 : R; r02 : R;
  r10 : R; r11 : R; r12 : R;
  r20 : R; r21 : R; r22 : R
}.

Definition set_r20 (v : R) (M : mat3) : mat3 :=
  mk_mat3 (r00 M) (r01 M) (r02 M) (r10 M) (r11 M) (r12 M) v (r21 M) (r22 M).

Definition vec3 : Type := R * R * R.

Definition quat : Type := R * R * R * R.

(** [euler_to_rotation_matrix] *)
Definition euler_to_rotation_matrix (roll pitch yaw : R) : mat3 :=
  let cr := cos roll in
  let sr := sin roll in
  let cp := cos pitch in
  let sp := sin pitch in
  let cy := cos yaw in
  let sy := sin yaw in
  mk_mat3
    (cy * cp) (cy * sp * sr - sy * cr) (cy * sp * cr + sy * sr)
    (sy * cp) (sy * sp * sr + cy * cr) (sy * sp * cr - cy * sr)
    (- sp)    (cp * sr)                (cp * cr).

(** The matrix-vector product [R @ v]. *)
Definition matvec (M : mat3) (v : vec3) : vec3 :=
  let '(v0, v1, v2) := v in
  (r00 M * v0 + r01 M * v1 + r02 M * v2,
   r10 M * v0 + r11 M * v1 + r12 M * v2,
   r20 M * v0 + r21 M * v1 + r22 M * v2).

(** [body_to_world_frame] *)
Definition body_to_world_frame (body_vector : vec3) (roll pitch yaw : R)
    : vec3 :=
  let M := euler_to_rotation_matrix roll pitch yaw in
  let world_vector := matvec M body_vector in
  world_vector.

(** [math.asin]: outside [-1, 1] it raises [ValueError], here [None]. *)
Definition math_asin (x : R) : option R :=
  if Rlt_dec x (-1) then None
  else if Rlt_dec 1 x then None
  else Some (asin x).

(** [rotation_matrix_to_euler].  It writes the clamped entry back into the
    caller's array, so the array is returned with the angles.  [atan2] is
    [math.atan2], of Python's library, which never raises. *)
Definition rotation_matrix_to_euler (atan2 : R -> R -> R) (M : mat3)
    : option (R * R * R) * mat3 :=
  let M :=
    if Rlt_dec (r20 M) (-1) then set_r20 (-1) M
    else if Rlt_dec 1 (r20 M) then set_r20 1 M
    else M in
  match math_asin (r20 M) with
  | None => (None, M)
  | Some a =>
      let pitch := - a in
      let roll := atan2 (r21 M) (r22 M) in
      let yaw := atan2 (r10 M) (r00 M) in
      (Some (roll, pitch, yaw), M)
  end.

(** [quaternion_normalize], on real numbers: the only error is the
    division by a zero norm.  On binary64 a square above about [1.8e308]
    raises [OverflowError] and squares below about [5e-324] count as zero,
    so the statements about it are made for [quat_in_range] only. *)
Definition quaternion_normalize (q : quat) : outcome quat :=
  let '(q0, q1, q2, q3) := q in
  let norm := sqrt (q0 ^ 2 + q1 ^ 2 + q2 ^ 2 + q3 ^ 2) in
  fst ((n0 <- fdiv q0 norm ;;
        n1 <- fdiv q1 norm ;;
        n2 <- fdiv q2 norm ;;
        n3 <- fdiv q3 norm ;;
        ret (n0, n1, n2, n3)) tt).

(** [quaternion_multiply] *)
Definition quaternion_multiply (q1 q2 : quat) : quat :=
  let '(w1, x1, y1, z1) := q1 in
  let '(w2, x2, y2, z2) := q2 in
  let w := w1 * w2 - x1 * x2 - y1 * y2 - z1 * z2 in
  let x := w1 * x2 + x1 * w2 + y1 * z2 - z1 * y2 in
  let y := w1 * y2 - x1 * z2 + y1 * w2 + z1 * x2 in
  let z := w1 * z2 + x1 * y2 - y1 * x2 + z1 * w2 in
  (w, x, y, z).

End MathUtils.

(** ** controller.py *)

Module ManualController.

(** What [pygame.key.get_pressed()] holds for the keys the controller
    reads. *)
Record keys : Type := mk_keys {
  K_SPACE : bool;
  K_LSHIFT : bool;
  K_RSHIFT : bool;
  K_w : bool;
  K_s : bool;
  K_a : bool;
  K_d : bool;
  K_q : bool;
  K_e : bool
}.

Record t : Type := mk {
  z_ref : R;
  roll_ref : R;
  pitch_ref : R;
  yaw_ref : R;
  alt_step : R;
  angle_step : R;
  MAX_ANGLE : R;
  MIN_Z : R;
  MAX_Z : R;
  control_active : bool
}.

Definition set_z_ref (v : R) (self : t) : t :=
  mk v (roll_ref self) (pitch_ref self) (yaw_ref self) (alt_step self)
     (angle_step self) (MAX_ANGLE self) (MIN_Z self) (MAX_Z self)
     (control_active self).

Definition set_roll_ref (v : R) (self : t) : t :=
  mk (z_ref self) v (pitch_ref self) (yaw_ref self) (alt_step self)
     (angle_step self) (MAX_ANGLE self) (MIN_Z self) (MAX_Z self)
     (control_active self).

Definition set_pitch_ref (v : R) (self : t) : t :=
  mk (z_ref self) (roll_ref self) v (yaw_ref self) (alt_step self)
     (angle_step self) (MAX_ANGLE self) (MIN_Z self) (MAX_Z self)
     (control_active self).

Definition set_yaw_ref (v : R) (self : t) : t :=
  mk (z_ref self) (roll_ref self) (pitch_ref self) v (alt_step self)
     (angle_step self) (MAX_ANGLE self) (MIN_Z self) (MAX_Z self)
     (control_active self).

Definition set_control_active (v : bool) (self : t) : t :=
  mk (z_ref self) (roll_ref self) (pitch_ref self) (yaw_ref self)
     (alt_step self) (angle_step self) (MAX_ANGLE self) (MIN_Z self)
     (MAX_Z self) v.

(** [ManualController.__init__] *)
Definition init : t := mk 2.5 0 0 0 0.1 0.08 0.6 0.5 10 true.

(** [ManualController.update_from_keyboard], on the keys pressed.  The
    two yaw loops get the iterations [Quadcopter.yaw_fuel] grants. *)
Definition update_from_keyboard (pressed : keys) : Py t (R * R * R * R) :=
  self <- get ;;
  if negb (control_active self) then
    ret (roll_ref self, pitch_ref self, yaw_ref self, z_ref self)
  else
    (if K_SPACE pressed then
       assign set_z_ref
         (fun self => py_min (z_ref self + alt_step self * 10) (MAX_Z self))
     else if K_LSHIFT pressed || K_RSHIFT pressed then
       assign set_z_ref
         (fun self => py_max (z_ref self - alt_step self * 10) (MIN_Z self))
     else ret tt) ;;
    (if K_w pressed then
       assign set_pitch_ref
         (fun self => py_min (pitch_ref self + angle_step self) (MAX_ANGLE self))
     else if K_s pressed then
       assign set_pitch_ref
         (fun self =>
            py_max (pitch_ref self - angle_step self) (- MAX_ANGLE self))
     else assign set_pitch_ref (fun _ => 0)) ;;
    (if K_a pressed then
       assign set_roll_ref
         (fun self => py_min (roll_ref self + angle_step self) (MAX_ANGLE self))
     else if K_d pressed then
       assign set_roll_ref
         (fun self =>
            py_max (roll_ref self - angle_step self) (- MAX_ANGLE self))
     else assign set_roll_ref (fun _ => 0)) ;;
    (if K_q pressed then
       assign set_yaw_ref (fun self => yaw_ref self + angle_step self)
     else if K_e pressed then
       assign set_yaw_ref (fun self => yaw_ref self - angle_step self)
     else assign set_yaw_ref (fun _ => 0)) ;;
    self <- get ;;
    while (Quadcopter.yaw_fuel (yaw_ref self))
      (fun self => gtb (yaw_ref self) PI)
      (assign set_yaw_ref (fun self => yaw_ref self - 2 * PI)) ;;
    self <- get ;;
    while (Quadcopter.yaw_fuel (yaw_ref self))
      (fun self => ltb (yaw_ref self) (- PI))
      (assign set_yaw_ref (fun self => yaw_ref self + 2 * PI)) ;;
    self <- get ;;
    ret (roll_ref self, pitch_ref self, yaw_ref self, z_ref self).

(** [ManualController.reset] *)
Definition reset (self : t) : t :=
  set_yaw_ref 0 (set_pitch_ref 0 (set_roll_ref 0 (set_z_ref 2.5 self))).

(** [ManualController.toggle_control] *)
Definition toggle_control (self : t) : t :=
  set_control_active (negb (control_active self)) self.

End ManualController.

(** ** ui.py: the event handling of class UserInterface *)

Module UserInterface.

Inductive key : Type := K_ESCAPE | K_p | K_r | K_F1 | K_other.

(** An event of [pygame.event.get()]: its type, and the key of a
    [KEYDOWN]. *)
Inductive event : Type :=
| QUIT
| KEYDOWN (k : key)
| OTHER.

(** The flags of the object that [handle_events] and the accessors use;
    the display, clock, fonts and colours are left out. *)
Record t : Type := mk {
  running : bool;
  show_debug_info : bool;
  paused : bool;
  reset_requested : bool
}.

(** The dictionary [handle_events] returns. *)
Record changes : Type := mk_changes {
  pause_toggle : bool;
  reset : bool;
  quit : bool;
  debug_toggle : bool
}.

(** [UserInterface.__init__], for the flags. *)
Definition init : t := mk true false false false.

(** The body of the loop of [handle_events], for one event. *)
Definition handle_event (acc : changes * t) (e : event) : changes * t :=
  let (ch, self) := acc in
  match e with
  | QUIT =>
      (mk_changes (pause_toggle ch) (reset ch) true (debug_toggle ch),
       mk false (show_debug_info self) (paused self) (reset_requested self))
  | KEYDOWN K_ESCAPE =>
      (mk_changes (pause_toggle ch) (reset ch) true (debug_toggle ch),
       mk false (show_debug_info self) (paused self) (reset_requested self))
  | KEYDOWN K_p =>
      (mk_changes true (reset ch) (quit ch) (debug_toggle ch),
       mk (running self) (show_debug_info self) (negb (paused self))
          (reset_requested self))
  | KEYDOWN K_r =>
      (mk_changes (pause_toggle ch) true (quit ch) (debug_toggle ch), self)
  | KEYDOWN K_F1 =>
      (mk_changes (pause_toggle ch) (reset ch) (quit ch) true,
       mk (running self) (negb (show_debug_info self)) (paused self)
          (reset_requested self))
  | KEYDOWN K_other => (ch, self)
  | OTHER => (ch, self)
  end.

(** [UserInterface.handle_events], on the events [pygame.event.get()]
    returned. *)
Definition handle_events (events : list event) (self : t) : changes * t :=
  fold_left handle_event events (mk_changes false false false false, self).

(** [UserInterface.is_running] *)
Definition is_running (self : t) : bool := running self.

(** [UserInterface.is_paused] *)
Definition is_paused (self : t) : bool := paused self.

(** [UserInterface.toggle_pause] *)
Definition toggle_pause (self : t) : t :=
  mk (running self) (show_debug_info self) (negb (paused self))
     (reset_requested self).

End UserInterface.

(** ** Quantities the statements below are about *)

(** The accumulator [PID.update] stores: the running sum, clamped when a
    limit is configured (lines 57-60). *)
Definition accumulate (self : PID.t) (error dt : R) : R :=
  match PID.integrator_limit self with
  | Some limit => py_max (- limit) (py_min limit (PID.integral self + error * dt))
  | None => PID.integral self + error * dt
  end.

(** [py_max (- limit) (py_min limit v)], the saturation [step] applies to
    angles, velocities and horizontal position. *)
Definition clamp (limit v : R) : R := py_max (- limit) (py_min limit v).

(** The value a loop [while cond(yaw): yaw = f(yaw)] leaves in [yaw]. *)
Fixpoint iter_while (fuel : nat) (cond : R -> bool) (f : R -> R) (y : R) : R :=
  match fuel with
  | O => y
  | S fuel' => if cond y then iter_while fuel' cond f (f y) else y
  end.

(** Lines 101-104 of [Quadcopter.step] on the value of [yaw]. *)
Definition normalize_yaw (y : R) : R :=
  let y1 := iter_while (Quadcopter.yaw_fuel y)
              (fun y => gtb y PI) (fun y => y - 2 * PI) y in
  iter_while (Quadcopter.yaw_fuel y1)
    (fun y => ltb y (- PI)) (fun y => y + 2 * PI) y1.

(** The object at line 105 of [Quadcopter.step], the angular part done. *)
Definition after_attitude (dt : R) (self : Quadcopter.t) : Quadcopter.t :=
  let p' := Quadcopter.p self
            + Quadcopter.torque_roll self / Quadcopter.Ix self * dt in
  let q' := Quadcopter.q self
            + Quadcopter.torque_pitch self / Quadcopter.Iy self * dt in
  let r' := Quadcopter.r self
            + Quadcopter.torque_yaw self / Quadcopter.Iz self * dt in
  Quadcopter.set_yaw (normalize_yaw (Quadcopter.yaw self + r' * dt))
    (Quadcopter.set_pitch
       (clamp (Quadcopter.MAX_ANGLE self) (Quadcopter.pitch self + q' * dt))
       (Quadcopter.set_roll
          (clamp (Quadcopter.MAX_ANGLE self) (Quadcopter.roll self + p' * dt))
          (Quadcopter.set_r r' (Quadcopter.set_q q' (Quadcopter.set_p p' self))))).

(** The object a returning [Quadcopter.step] leaves, from the object at
    line 105. *)
Definition after_translation (dt : R) (a : Quadcopter.t) : Quadcopter.t :=
  let cr := cos (Quadcopter.roll a) in
  let sr := sin (Quadcopter.roll a) in
  let cp := cos (Quadcopter.pitch a) in
  let sp := sin (Quadcopter.pitch a) in
  let cy := cos (Quadcopter.yaw a) in
  let sy := sin (Quadcopter.yaw a) in
  let ax := Quadcopter.thrust a * (cy * sp * cr + sy * sr) / Quadcopter.mass a in
  let ay := Quadcopter.thrust a * (sy * sp * cr - cy * sr) / Quadcopter.mass a in
  let az := (Quadcopter.thrust a * (cp * cr)
             - Quadcopter.mass a * Quadcopter.g a) / Quadcopter.mass a in
  let vx' := clamp (Quadcopter.MAX_VEL a) (Quadcopter.vx a + ax * dt) in
  let vy' := clamp (Quadcopter.MAX_VEL a) (Quadcopter.vy a + ay * dt) in
  let vz' := clamp (Quadcopter.MAX_VEL a) (Quadcopter.vz a + az * dt) in
  let x' := Quadcopter.x a + vx' * dt in
  let y' := Quadcopter.y a + vy' * dt in
  let z' := Quadcopter.z a + vz' * dt in
  let grounded := ltb z' 0 in
  Quadcopter.set_z
    (py_max 0 (py_min (Quadcopter.MAX_POS a) (if grounded then 0 else z')))
    (Quadcopter.set_y (clamp (Quadcopter.MAX_POS a) y')
       (Quadcopter.set_x (clamp (Quadcopter.MAX_POS a) x')
          (Quadcopter.set_vz (if grounded then 0 else vz')
             (Quadcopter.set_vy vy' (Quadcopter.set_vx vx' a))))).

(** The saturation limits of [step], with the closed yaw interval its two
    loops leave. *)
Definition within_limits (s : Quadcopter.t) : Prop :=
  Quadcopter.MAX_ANGLE s = 1.57
  /\ Quadcopter.MAX_VEL s = 50
  /\ Quadcopter.MAX_POS s = 500
  /\ - Quadcopter.MAX_ANGLE s <= Quadcopter.roll s <= Quadcopter.MAX_ANGLE s
  /\ - Quadcopter.MAX_ANGLE s <= Quadcopter.pitch s <= Quadcopter.MAX_ANGLE s
  /\ - PI <= Quadcopter.yaw s <= PI
  /\ - Quadcopter.MAX_VEL s <= Quadcopter.vx s <= Quadcopter.MAX_VEL s
  /\ - Quadcopter.MAX_VEL s <= Quadcopter.vy s <= Quadcopter.MAX_VEL s
  /\ - Quadcopter.MAX_VEL s <= Quadcopter.vz s <= Quadcopter.MAX_VEL s
  /\ - Quadcopter.MAX_POS s <= Quadcopter.x s <= Quadcopter.MAX_POS s
  /\ - Quadcopter.MAX_POS s <= Quadcopter.y s <= Quadcopter.MAX_POS s
  /\ 0 <= Quadcopter.z s <= Quadcopter.MAX_POS s.

(** The control inputs an object holds: the three torques and the thrust. *)
Definition controls (s : Quadcopter.t) : R * R * R * R :=
  (Quadcopter.torque_roll s, Quadcopter.torque_pitch s,
   Quadcopter.torque_yaw s, Quadcopter.thrust s).

(** The control inputs a call sequence leaves: those of its last
    [set_control], the thrust floored at zero; [start] if it has none. *)
Definition last_control (calls : list quad_call) (start : R * R * R * R)
    : R * R * R * R :=
  fold_left
    (fun acc c =>
       match c with
       | QSetControl torque_roll torque_pitch torque_yaw thrust =>
           (torque_roll, torque_pitch, torque_yaw, py_max 0 thrust)
       | _ => acc
       end)
    calls start.

(** What [n] steps of free fall leave of a vehicle that was at rest at
    altitude [h]: the parameters and the zero thrust as they were, a
    vertical speed between [- MAX_VEL] and 0, and, for [h] up to 127 m,
    the vertical state either on the parabola or at rest on the ground. *)
Definition falling (mass Ixx Iyy Izz dt h : R) (n : nat) (s : Quadcopter.t)
    : Prop :=
  Quadcopter.thrust s = 0
  /\ Quadcopter.mass s = mass
  /\ Quadcopter.g s = 9.81
  /\ Quadcopter.Ix s = Ixx /\ Quadcopter.Iy s = Iyy /\ Quadcopter.Iz s = Izz
  /\ Quadcopter.MAX_VEL s = 50
  /\ Quadcopter.MAX_POS s = 500
  /\ - 50 <= Quadcopter.vz s <= 0
  /\ 0 <= Quadcopter.z s <= 500
  /\ (h <= 127 ->
      (Quadcopter.vz s = - INR n * 9.81 * dt
       /\ Quadcopter.z s = h - 9.81 * (dt * dt) * (INR n * (INR n + 1)) / 2)
      \/ (Quadcopter.z s = 0 /\ Quadcopter.vz s = 0)).

(** Lines 94-95 of [QuadcopterSimulator.step] on the list just appended
    to. *)
Definition evict (log : list (R * VehicleState.t)) : list (R * VehicleState.t) :=
  if (5000 <? Z.of_nat (List.length log))%Z then tl log else log.


(** What [PID.reset] leaves of a controller: the state zeroed, the
    first-call flag set, the configuration as it was. *)
Definition pid_cleared (before after : PID.t) : Prop :=
  PID.integral after = 0
  /\ PID.prev_error after = 0
  /\ PID.filtered_derivative after = 0
  /\ PID.first_call after = true
  /\ PID.kp after = PID.kp before
  /\ PID.ki after = PID.ki before
  /\ PID.kd after = PID.kd before
  /\ PID.integrator_limit after = PID.integrator_limit before
  /\ PID.derivative_filter_tau after = PID.derivative_filter_tau before.

(** *** Quantities of the further properties *)

(** A PID driven by a list of [update(error, dt)] calls; a call that
    raises leaves the object as mutated up to the raise. *)
Definition pid_run (calls : list (R * R)) (self : PID.t) : PID.t :=
  fold_left (fun s c => snd (PID.update (fst c) (snd c) s)) calls self.

(** The filter time constants of the four PIDs. *)
Definition ctrl_taus (c : CascadedController.t) : R * R * R * R :=
  (PID.derivative_filter_tau (CascadedController.alt_pid c),
   PID.derivative_filter_tau (CascadedController.roll_pid c),
   PID.derivative_filter_tau (CascadedController.pitch_pid c),
   PID.derivative_filter_tau (CascadedController.yaw_pid c)).

(** The physical parameters [step] divides by. *)
Definition quad_params (q : Quadcopter.t) : R * R * R * R :=
  (Quadcopter.mass q, Quadcopter.Ix q, Quadcopter.Iy q, Quadcopter.Iz q).

(** A PID with nothing accumulated: zero integral, previous error and
    filtered derivative, and a configuration under which [update] with
    [dt >= 0] neither raises nor clamps zero away. *)
Definition pid_quiet (p : PID.t) : Prop :=
  PID.integral p = 0
  /\ PID.prev_error p = 0
  /\ PID.filtered_derivative p = 0
  /\ 0 <= PID.derivative_filter_tau p
  /\ match PID.integrator_limit p with
     | Some limit => 0 <= limit
     | None => True
     end.

(** A vehicle at rest and level at altitude [z0], above the origin. *)
Definition hovering (z0 : R) (q : Quadcopter.t) : Prop :=
  Quadcopter.x q = 0 /\ Quadcopter.y q = 0 /\ Quadcopter.z q = z0
  /\ Quadcopter.vx q = 0 /\ Quadcopter.vy q = 0 /\ Quadcopter.vz q = 0
  /\ Quadcopter.roll q = 0 /\ Quadcopter.pitch q = 0 /\ Quadcopter.yaw q = 0
  /\ Quadcopter.p q = 0 /\ Quadcopter.q q = 0 /\ Quadcopter.r q = 0
  /\ Quadcopter.g q = 9.81
  /\ Quadcopter.MAX_ANGLE q = 1.57
  /\ Quadcopter.MAX_VEL q = 50
  /\ Quadcopter.MAX_POS q = 500.

(** A simulator holding station: the vehicle hovering at the altitude
    reference, level references, and nothing accumulated in the PIDs. *)
Definition sim_hovering (z0 : R) (s : QuadcopterSimulator.t) : Prop :=
  hovering z0 (QuadcopterSimulator.quad s)
  /\ QuadcopterSimulator.z_ref s = z0
  /\ QuadcopterSimulator.roll_ref s = 0
  /\ QuadcopterSimulator.pitch_ref s = 0
  /\ QuadcopterSimulator.yaw_ref s = 0
  /\ pid_quiet (CascadedController.alt_pid (QuadcopterSimulator.controller s))
  /\ pid_quiet (CascadedController.roll_pid (QuadcopterSimulator.controller s))
  /\ pid_quiet (CascadedController.pitch_pid (QuadcopterSimulator.controller s))
  /\ pid_quiet (CascadedController.yaw_pid (QuadcopterSimulator.controller s)).

(** Transpose, product, identity and determinant of 3x3 matrices. *)
Definition transpose (M : MathUtils.mat3) : MathUtils.mat3 :=
  MathUtils.mk_mat3
    (MathUtils.r00 M) (MathUtils.r10 M) (MathUtils.r20 M)
    (MathUtils.r01 M) (MathUtils.r11 M) (MathUtils.r21 M)
    (MathUtils.r02 M) (MathUtils.r12 M) (MathUtils.r22 M).

(** The product of two 3x3 matrices. *)
Definition matmul (A B : MathUtils.mat3) : MathUtils.mat3 :=
  let a := MathUtils.r00 A in let b := MathUtils.r01 A in
  let c := MathUtils.r02 A in let d := MathUtils.r10 A in
  let e := MathUtils.r11 A in let f := MathUtils.r12 A in
  let g := MathUtils.r20 A in let h := MathUtils.r21 A in
  let i := MathUtils.r22 A in
  MathUtils.mk_mat3
    (a * MathUtils.r00 B + b * MathUtils.r10 B + c * MathUtils.r20 B)
    (a * MathUtils.r01 B + b * MathUtils.r11 B + c * MathUtils.r21 B)
    (a * MathUtils.r02 B + b * MathUtils.r12 B + c * MathUtils.r22 B)
    (d * MathUtils.r00 B + e * MathUtils.r10 B + f * MathUtils.r20 B)
    (d * MathUtils.r01 B + e * MathUtils.r11 B + f * MathUtils.r21 B)
    (d * MathUtils.r02 B + e * MathUtils.r12 B + f * MathUtils.r22 B)
    (g * MathUtils.r00 B + h * MathUtils.r10 B + i * MathUtils.r20 B)
    (g * MathUtils.r01 B + h * MathUtils.r11 B + i * MathUtils.r21 B)
    (g * MathUtils.r02 B + h * MathUtils.r12 B + i * MathUtils.r22 B).

(** The 3x3 identity. *)
Definition identity3 : MathUtils.mat3 :=
  MathUtils.mk_mat3 1 0 0 0 1 0 0 0 1.

(** The determinant, expanded along the first row. *)
Definition det3 (M : MathUtils.mat3) : R :=
  MathUtils.r00 M * (MathUtils.r11 M * MathUtils.r22 M
                     - MathUtils.r12 M * MathUtils.r21 M)
  - MathUtils.r01 M * (MathUtils.r10 M * MathUtils.r22 M
                       - MathUtils.r12 M * MathUtils.r20 M)
  + MathUtils.r02 M * (MathUtils.r10 M * MathUtils.r21 M
                       - MathUtils.r11 M * MathUtils.r20 M).

(** Squared Euclidean norms. *)
Definition norm2_vec (v : MathUtils.vec3) : R :=
  let '(a, b, c) := v in a * a + b * b + c * c.

(** The squared norm of a quaternion. *)
Definition norm2_quat (q : MathUtils.quat) : R :=
  let '(w, x, y, z) := q in w * w + x * x + y * y + z * z.

(** The references [update_from_keyboard] computes when control is
    active: altitude, pitch, roll, and yaw before and after the loops. *)
Definition keyed_z (pressed : ManualController.keys) (s : ManualController.t)
    : R :=
  if ManualController.K_SPACE pressed then
    py_min (ManualController.z_ref s + ManualController.alt_step s * 10)
      (ManualController.MAX_Z s)
  else if ManualController.K_LSHIFT pressed || ManualController.K_RSHIFT pressed
  then
    py_max (ManualController.z_ref s - ManualController.alt_step s * 10)
      (ManualController.MIN_Z s)
  else ManualController.z_ref s.

(** The pitch or roll reference after one frame: stepped up to the
    limit, stepped down to it, or zero with neither key pressed. *)
Definition keyed_angle (more less : bool) (angle : R) (s : ManualController.t)
    : R :=
  if more then
    py_min (angle + ManualController.angle_step s) (ManualController.MAX_ANGLE s)
  else if less then
    py_max (angle - ManualController.angle_step s)
      (- ManualController.MAX_ANGLE s)
  else 0.

(** The yaw reference after one frame, the two loops included. *)
Definition keyed_yaw (pressed : ManualController.keys) (s : ManualController.t)
    : R :=
  normalize_yaw
    (if ManualController.K_q pressed then
       ManualController.yaw_ref s + ManualController.angle_step s
     else if ManualController.K_e pressed then
       ManualController.yaw_ref s - ManualController.angle_step s
     else 0).

(** The object an active [update_from_keyboard] leaves. *)
Definition keyed (pressed : ManualController.keys) (s : ManualController.t)
    : ManualController.t :=
  ManualController.mk
    (keyed_z pressed s)
    (keyed_angle (ManualController.K_a pressed) (ManualController.K_d pressed)
       (ManualController.roll_ref s) s)
    (keyed_angle (ManualController.K_w pressed) (ManualController.K_s pressed)
       (ManualController.pitch_ref s) s)
    (keyed_yaw pressed s)
    (ManualController.alt_step s) (ManualController.angle_step s)
    (ManualController.MAX_ANGLE s) (ManualController.MIN_Z s)
    (ManualController.MAX_Z s) (ManualController.control_active s).

(** The references as the controller holds them, in the order
    [update_from_keyboard] returns them. *)
Definition held_refs (s : ManualController.t) : R * R * R * R :=
  (ManualController.roll_ref s, ManualController.pitch_ref s,
   ManualController.yaw_ref s, ManualController.z_ref s).

(** The calls a client makes on a [ManualController]. *)
Inductive manual_call : Type :=
| MKeys (pressed : ManualController.keys)
| MReset
| MToggle.

(** One call, on the object. *)
Definition manual_apply (self : ManualController.t) (c : manual_call)
    : ManualController.t :=
  match c with
  | MKeys pressed => snd (ManualController.update_from_keyboard pressed self)
  | MReset => ManualController.reset self
  | MToggle => ManualController.toggle_control self
  end.

(** A sequence of calls, in order. *)
Definition manual_run (calls : list manual_call) (self : ManualController.t)
    : ManualController.t :=
  fold_left manual_apply calls self.

(** The configuration of [ManualController.__init__] and the envelope it
    keeps the references in. *)
Definition manual_envelope (s : ManualController.t) : Prop :=
  ManualController.alt_step s = 0.1
  /\ ManualController.angle_step s = 0.08
  /\ ManualController.MAX_ANGLE s = 0.6
  /\ ManualController.MIN_Z s = 0.5
  /\ ManualController.MAX_Z s = 10
  /\ 0.5 <= ManualController.z_ref s <= 10
  /\ - 0.6 <= ManualController.roll_ref s <= 0.6
  /\ - 0.6 <= ManualController.pitch_ref s <= 0.6
  /\ - PI <= ManualController.yaw_ref s <= PI.

(** The events [handle_events] reacts to. *)
Definition is_quit (e : UserInterface.event) : bool :=
  match e with
  | UserInterface.QUIT => true
  | UserInterface.KEYDOWN UserInterface.K_ESCAPE => true
  | _ => false
  end.

(** A press of the key [k], for the keys that toggle or request. *)
Definition is_key (k : UserInterface.key) (e : UserInterface.event) : bool :=
  match e, k with
  | UserInterface.KEYDOWN UserInterface.K_p, UserInterface.K_p => true
  | UserInterface.KEYDOWN UserInterface.K_r, UserInterface.K_r => true
  | UserInterface.KEYDOWN UserInterface.K_F1, UserInterface.K_F1 => true
  | _, _ => false
  end.

(** Whether [events] holds an odd number of presses of [k]. *)
Definition odd_presses (k : UserInterface.key)
    (events : list UserInterface.event) : bool :=
  Nat.odd (List.length (filter (is_key k) events)).

(** A vehicle that is level and not turning, above the origin with no
    horizontal speed and no torque applied. *)
Definition level (q : Quadcopter.t) : Prop :=
  Quadcopter.x q = 0 /\ Quadcopter.y q = 0
  /\ Quadcopter.vx q = 0 /\ Quadcopter.vy q = 0
  /\ Quadcopter.roll q = 0 /\ Quadcopter.pitch q = 0 /\ Quadcopter.yaw q = 0
  /\ Quadcopter.p q = 0 /\ Quadcopter.q q = 0 /\ Quadcopter.r q = 0
  /\ Quadcopter.torque_roll q = 0 /\ Quadcopter.torque_pitch q = 0
  /\ Quadcopter.torque_yaw q = 0
  /\ Quadcopter.MAX_ANGLE q = 1.57
  /\ Quadcopter.MAX_VEL q = 50
  /\ Quadcopter.MAX_POS q = 500.

(** A call that applies no torque. *)
Definition no_torque (c : quad_call) : Prop :=
  match c with
  | QSetControl torque_roll torque_pitch torque_yaw _ =>
      torque_roll = 0 /\ torque_pitch = 0 /\ torque_yaw = 0
  | _ => True
  end.

(** A vehicle at rest with no control applied: no velocity, no angular
    rate, and zero torques and thrust. *)
Definition at_rest (s : Quadcopter.t) : Prop :=
  Quadcopter.vx s = 0 /\ Quadcopter.vy s = 0 /\ Quadcopter.vz s = 0
  /\ Quadcopter.p s = 0 /\ Quadcopter.q s = 0 /\ Quadcopter.r s = 0
  /\ controls s = (0, 0, 0, 0).

(** A level vehicle of mass 1 on the vertical axis, with its altitude,
    vertical speed and thrust. *)
Definition on_axis (z vz thrust : R) (q : Quadcopter.t) : Prop :=
  level q
  /\ quad_params q = (1, 0.01, 0.01, 0.02)
  /\ Quadcopter.g q = 9.81
  /\ Quadcopter.z q = z
  /\ Quadcopter.vz q = vz
  /\ Quadcopter.thrust q = thrust.


(** A call that leaves the heading alone: the yaw reference stays at zero
    and time does not run backwards. *)
Definition yaw_idle (c : sim_call) : Prop :=
  match c with
  | SSetReferences _ _ yaw_ref _ => yaw_ref = 0
  | SStep dt => 0 <= dt
  | SReset => True
  end.

(** A simulator whose vehicle points along the zero heading and does not
    turn about the vertical, with a zero yaw reference and nothing
    accumulated in the yaw PID. *)
Definition heading_still (s : QuadcopterSimulator.t) : Prop :=
  Quadcopter.yaw (QuadcopterSimulator.quad s) = 0
  /\ Quadcopter.r (QuadcopterSimulator.quad s) = 0
  /\ QuadcopterSimulator.yaw_ref s = 0
  /\ pid_quiet (CascadedController.yaw_pid (QuadcopterSimulator.controller s)).

(** The quaternions [quaternion_normalize] is stated for: the zero
    quaternion, and those whose squared norm binary64 holds without
    overflow or underflow of the squares. *)
Definition quat_in_range (q : MathUtils.quat) : Prop :=
  q = (0, 0, 0, 0) \/ 1e-300 <= norm2_quat q <= 1e300.

(** ** Proofs *)

Arguments PID.d_term : simpl never.
Arguments PID.update : simpl never.
Arguments CascadedController.update_altitude : simpl never.
Arguments Quadcopter.step : simpl never.

Ltac py_unfold :=
  unfold bind, get, assign, ret, raise, fdiv, on_attr in *; cbn in *.

Ltac case_dec :=
  match goal with
  | |- context [Req_dec_T ?a ?b] => destruct (Req_dec_T a b)
  | |- context [Rlt_dec ?a ?b] => destruct (Rlt_dec a b)
  end.

Lemma py_max_l a b : a <= py_max a b.
Proof. unfold py_max; case_dec; lra. Qed.
Lemma py_max_r a b : b <= py_max a b.
Proof. unfold py_max; case_dec; lra. Qed.
Lemma py_min_l a b : py_min a b <= a.
Proof. unfold py_min; case_dec; lra. Qed.
Lemma py_min_r a b : py_min a b <= b.
Proof. unfold py_min; case_dec; lra. Qed.
Lemma clamp_bounds lo hi v : lo <= hi -> lo <= py_max lo (py_min hi v) <= hi.
Proof.
  intros H. split; [apply py_max_l|].
  unfold py_max. case_dec; [apply py_min_l | lra].
Qed.
Lemma clamp_inside lo hi v : lo <= v <= hi -> py_max lo (py_min hi v) = v.
Proof.
  intros H; unfold py_max, py_min.
  destruct (Rlt_dec v hi); destruct (Rlt_dec lo _); lra.
Qed.

Lemma d_term_first_call self error dt :
  PID.first_call self = true ->
  PID.d_term error dt self = (Returned 0, PID.set_first_call false self).
Proof. intros H. unfold PID.d_term. py_unfold. rewrite H. reflexivity. Qed.

Lemma d_term_frame self error dt :
  let s := snd (PID.d_term error dt self) in
  PID.integral s = PID.integral self /\ PID.kp s = PID.kp self
  /\ PID.ki s = PID.ki self /\ PID.kd s = PID.kd self
  /\ PID.integrator_limit s = PID.integrator_limit self
  /\ PID.derivative_filter_tau s = PID.derivative_filter_tau self.
Proof.
  unfold PID.d_term. py_unfold.
  destruct (PID.first_call self); cbn; [tauto|].
  repeat (case_dec; cbn); tauto.
Qed.

Lemma update_unfold self error dt :
  PID.update error dt self =
  match PID.d_term error dt (PID.set_integral (accumulate self error dt) self) with
  | (Returned d, s) =>
      (Returned (PID.kp self * error + PID.ki self * accumulate self error dt + d),
       PID.set_prev_error error s)
  | (Raised e, s) => (Raised e, s)
  end.
Proof.
  destruct self as [kp ki kd [limit|] tau i pe fd fc];
    unfold PID.update, accumulate, PID.set_integral; py_unfold;
    match goal with |- context [PID.d_term error dt ?s] =>
      destruct (PID.d_term error dt s) as [[d|e] s'] end; reflexivity.
Qed.

Lemma update_integral self error dt :
  PID.integral (snd (PID.update error dt self)) = accumulate self error dt.
Proof.
  rewrite update_unfold.
  pose proof (d_term_frame (PID.set_integral (accumulate self error dt) self) error dt) as F.
  cbv zeta in F. destruct F as [F _].
  destruct (PID.d_term error dt _) as [[d|e] s]; cbn in *; exact F.
Qed.

(** C4.  Whatever the gains (a nonzero [kd] included), the error and the
    time step, the first [PID.update] after construction, and the first
    after [reset], has a derivative term of exactly 0: it returns
    [kp * error] plus [ki] times the updated integral, and it clears the
    first-call flag. *)
Theorem pid_first_update_has_no_derivative_term :
  forall (kp ki kd : R) (limit : option R) (tau : R) (self0 : PID.t)
         (error dt : R),
    let fresh := PID.init kp ki kd limit tau in
    let rearmed := PID.reset self0 in
    (PID.d_term error dt (PID.set_integral (accumulate fresh error dt) fresh)
       = (Returned 0,
          PID.set_first_call false
            (PID.set_integral (accumulate fresh error dt) fresh))
     /\ fst (PID.update error dt fresh)
          = Returned (kp * error
                      + ki * PID.integral (snd (PID.update error dt fresh)))
     /\ PID.first_call (snd (PID.update error dt fresh)) = false)
    /\
    (PID.d_term error dt (PID.set_integral (accumulate rearmed error dt) rearmed)
       = (Returned 0,
          PID.set_first_call false
            (PID.set_integral (accumulate rearmed error dt) rearmed))
     /\ fst (PID.update error dt rearmed)
          = Returned (PID.kp self0 * error
                      + PID.ki self0
                        * PID.integral (snd (PID.update error dt rearmed)))
     /\ PID.first_call (snd (PID.update error dt rearmed)) = false).
Proof.
  intros kp ki kd limit tau self0 error dt fresh rearmed.
  assert (G : forall self, PID.first_call self = true ->
    PID.d_term error dt (PID.set_integral (accumulate self error dt) self)
      = (Returned 0,
         PID.set_first_call false
           (PID.set_integral (accumulate self error dt) self))
    /\ fst (PID.update error dt self)
         = Returned (PID.kp self * error
                     + PID.ki self * PID.integral (snd (PID.update error dt self)))
    /\ PID.first_call (snd (PID.update error dt self)) = false).
  { intros self Hfc.
    assert (D := d_term_first_call (PID.set_integral (accumulate self error dt) self)
                   error dt Hfc).
    split; [exact D|].
    rewrite update_integral, update_unfold, D. cbn.
    split; [f_equal; ring | reflexivity]. }
  split; [apply (G fresh) | apply (G rearmed)]; reflexivity.
Qed.

(** C5, amended.  For a PID whose [integrator_limit] is not [None] and is
    not negative, every [update] leaves the accumulator between [- limit]
    and [limit]; the clamp is on the accumulator, before the product with
    [ki], so the returned value uses the clamped accumulator; and an
    accumulator at the limit stays there on a call that would grow it
    further in the same direction. *)
Theorem pid_integral_stays_within_limit :
  forall (self : PID.t) (limit error dt : R),
    PID.integrator_limit self = Some limit ->
    0 <= limit ->
    let r := PID.update error dt self in
    - limit <= PID.integral (snd r) <= limit
    /\ PID.integral (snd r)
       = py_max (- limit) (py_min limit (PID.integral self + error * dt))
    /\ match PID.d_term error dt
               (PID.set_integral (PID.integral (snd r)) self) with
       | (Returned d, _) =>
           fst r = Returned (PID.kp self * error
                             + PID.ki self * PID.integral (snd r) + d)
       | (Raised e, _) => fst r = Raised e
       end
    /\ (PID.integral self = limit -> 0 <= error * dt ->
        PID.integral (snd r) = limit)
    /\ (PID.integral self = - limit -> error * dt <= 0 ->
        PID.integral (snd r) = - limit).
Proof.
  intros self limit error dt Hlim Hpos r.
  assert (Hacc : PID.integral (snd r)
                 = py_max (- limit) (py_min limit (PID.integral self + error * dt))).
  { unfold r. rewrite update_integral. unfold accumulate. now rewrite Hlim. }
  split; [rewrite Hacc; apply clamp_bounds; lra|].
  split; [exact Hacc|].
  split.
  { unfold r. rewrite update_integral, update_unfold.
    destruct (PID.d_term error dt _) as [[d|e] s]; reflexivity. }
  rewrite Hacc. unfold py_max, py_min.
  split; intros Hi Hgrow;
    destruct (Rlt_dec (PID.integral self + error * dt) limit);
    destruct (Rlt_dec (- limit) _); lra.
Qed.

(** The altitude PID of [CascadedController], one [update(1, 1)]. *)
Lemma pid_integral_stays_within_limit_witness :
  let self := PID.init 10 2 5 (Some 2.5) 0.02 in
  let r := PID.update 1 1 self in
  PID.integrator_limit self = Some 2.5
  /\ 0 <= 2.5
  /\ - (2.5) <= PID.integral (snd r) <= 2.5.
Proof.
  split; [reflexivity|]. split; [lra|].
  refine (proj1 (pid_integral_stays_within_limit
                   (PID.init 10 2 5 (Some 2.5) 0.02) 2.5 1 1 eq_refl _)).
  lra.
Defined.

(** With [integrator_limit = -1], [update(0, 1)] stores
    [max(1, min(-1, 0)) = 1], which is not between [- limit = 1] and
    [limit = -1]. *)
Lemma pid_negative_limit_escapes :
  ~ (- (-1) <= PID.integral (snd (PID.update 0 1 (PID.init 1 1 1 (Some (-1)) 0)))
     <= -1).
Proof.
  rewrite update_integral. unfold accumulate. cbn.
  unfold py_max, py_min.
  destruct (Rlt_dec (0 + 0 * 1) (-1)); destruct (Rlt_dec (- -1) _); lra.
Qed.

(** C8.  [update_altitude] feeds the altitude PID exactly
    [(z_ref - z) - 0.2 * vz], and returns [mass * g] plus that PID's
    output; if the PID raises, so does the call. *)
Theorem update_altitude_feeds_damped_error :
  forall (self : CascadedController.t) (z_ref z_actual vz_actual mass g dt : R),
    CascadedController.update_altitude z_ref z_actual vz_actual mass g dt self
    = match PID.update ((z_ref - z_actual) - 0.2 * vz_actual) dt
              (CascadedController.alt_pid self) with
      | (Returned alt_cmd, pid) =>
          (Returned (mass * g + alt_cmd),
           CascadedController.set_alt_pid pid self)
      | (Raised e, pid) =>
          (Raised e, CascadedController.set_alt_pid pid self)
      end.
Proof.
  intros. unfold CascadedController.update_altitude. py_unfold.
  destruct (PID.update _ dt _) as [[alt_cmd|e] pid]; reflexivity.
Qed.

Lemma while_yaw fuel cond f (s : Quadcopter.t) :
  while fuel (fun self => cond (Quadcopter.yaw self))
    (assign Quadcopter.set_yaw (fun self => f (Quadcopter.yaw self))) s
  = (Returned tt, Quadcopter.set_yaw (iter_while fuel cond f (Quadcopter.yaw s)) s).
Proof.
  revert s. induction fuel as [|fuel IH]; intros s.
  - destruct s; reflexivity.
  - cbn [while iter_while]. unfold bind at 1, get at 1.
    destruct (cond (Quadcopter.yaw s)).
    + unfold bind, assign. rewrite IH. destruct s; reflexivity.
    + destruct s; reflexivity.
Qed.

Lemma while_yaw_down fuel (s : Quadcopter.t) :
  while fuel (fun self => gtb (Quadcopter.yaw self) PI)
    (assign Quadcopter.set_yaw (fun self => Quadcopter.yaw self - 2 * PI)) s
  = (Returned tt,
     Quadcopter.set_yaw
       (iter_while fuel (fun y => gtb y PI) (fun y => y - 2 * PI)
          (Quadcopter.yaw s)) s).
Proof. exact (while_yaw fuel (fun y => gtb y PI) (fun y => y - 2 * PI) s). Qed.

Lemma while_yaw_up fuel (s : Quadcopter.t) :
  while fuel (fun self => ltb (Quadcopter.yaw self) (- PI))
    (assign Quadcopter.set_yaw (fun self => Quadcopter.yaw self + 2 * PI)) s
  = (Returned tt,
     Quadcopter.set_yaw
       (iter_while fuel (fun y => ltb y (- PI)) (fun y => y + 2 * PI)
          (Quadcopter.yaw s)) s).
Proof. exact (while_yaw fuel (fun y => ltb y (- PI)) (fun y => y + 2 * PI) s). Qed.

Arguments while : simpl never.

Ltac step_run :=
  repeat (cbn;
    first
      [ rewrite while_yaw_down
      | rewrite while_yaw_up
      | match goal with
        | |- context [Req_dec_T ?a 0] =>
            destruct (Req_dec_T a 0); [try contradiction | try contradiction]
        end ]).

Lemma step_returns dt s :
  Quadcopter.Ix s <> 0 -> Quadcopter.Iy s <> 0 -> Quadcopter.Iz s <> 0 ->
  Quadcopter.mass s <> 0 ->
  Quadcopter.step dt s = (Returned tt, after_translation dt (after_attitude dt s)).
Proof.
  intros Hx Hy Hz Hm. destruct s. cbn in Hx, Hy, Hz, Hm.
  unfold Quadcopter.step, bind, get, assign, ret, raise, fdiv.
  step_run.
  unfold after_translation, after_attitude, normalize_yaw, clamp, ltb. cbn.
  match goal with |- context [Rlt_dec ?a 0] => destruct (Rlt_dec a 0) end;
    reflexivity.
Qed.

Lemma step_raises_inertia dt s :
  Quadcopter.Ix s = 0 \/ Quadcopter.Iy s = 0 \/ Quadcopter.Iz s = 0 ->
  Quadcopter.step dt s = (Raised ZeroDivisionError, s).
Proof.
  intros H. destruct s. cbn in H.
  unfold Quadcopter.step, bind, get, assign, ret, raise, fdiv. cbn.
  destruct (Req_dec_T Ix 0); [reflexivity|].
  destruct (Req_dec_T Iy 0); [reflexivity|].
  destruct (Req_dec_T Iz 0); [reflexivity|]. tauto.
Qed.

Lemma step_raises_mass dt s :
  Quadcopter.Ix s <> 0 -> Quadcopter.Iy s <> 0 -> Quadcopter.Iz s <> 0 ->
  Quadcopter.mass s = 0 ->
  Quadcopter.step dt s = (Raised ZeroDivisionError, after_attitude dt s).
Proof.
  intros Hx Hy Hz Hm. destruct s. cbn in Hx, Hy, Hz, Hm.
  unfold Quadcopter.step, bind, get, assign, ret, raise, fdiv.
  step_run. reflexivity.
Qed.

(** The three ways a call of [step] can end. *)
Lemma step_cases dt s :
  Quadcopter.step dt s = (Raised ZeroDivisionError, s)
  \/ Quadcopter.step dt s = (Raised ZeroDivisionError, after_attitude dt s)
  \/ Quadcopter.step dt s
     = (Returned tt, after_translation dt (after_attitude dt s)).
Proof.
  destruct (Req_dec_T (Quadcopter.Ix s) 0) as [|Hx];
    [left; apply step_raises_inertia; tauto|].
  destruct (Req_dec_T (Quadcopter.Iy s) 0) as [|Hy];
    [left; apply step_raises_inertia; tauto|].
  destruct (Req_dec_T (Quadcopter.Iz s) 0) as [|Hz];
    [left; apply step_raises_inertia; tauto|].
  destruct (Req_dec_T (Quadcopter.mass s) 0) as [|Hm].
  - right; left. now apply step_raises_mass.
  - right; right. now apply step_returns.
Qed.

(** *** The yaw loops *)

Lemma gtb_false a b : a <= b -> gtb a b = false.
Proof. intros H; unfold gtb; destruct (Rlt_dec b a); [lra | reflexivity]. Qed.
Lemma ltb_false a b : b <= a -> ltb a b = false.
Proof. intros H; unfold ltb; destruct (Rlt_dec a b); [lra | reflexivity]. Qed.

Lemma gtb_true a b : b < a -> gtb a b = true.
Proof. intros H; unfold gtb; destruct (Rlt_dec b a); [reflexivity | lra]. Qed.
Lemma ltb_true a b : a < b -> ltb a b = true.
Proof. intros H; unfold ltb; destruct (Rlt_dec a b); [reflexivity | lra]. Qed.

Lemma iter_while_stop fuel cond f y :
  cond y = false -> iter_while fuel cond f y = y.
Proof. intros H; destruct fuel; cbn; [|rewrite H]; reflexivity. Qed.

Lemma yaw_fuel_enough y : Rabs y < 2 * PI * INR (Quadcopter.yaw_fuel y).
Proof.
  unfold Quadcopter.yaw_fuel.
  pose proof PI_RGT_0 as Hpi.
  set (x := Rabs y / (2 * PI)).
  assert (Hx : 0 <= x).
  { unfold x. apply Rmult_le_pos; [apply Rabs_pos|].
    apply Rlt_le, Rinv_0_lt_compat; lra. }
  destruct (archimed x) as [Hup _].
  assert (Hz : (0 < up x)%Z) by (apply lt_IZR; lra).
  rewrite INR_IZR_INZ, Z2Nat.id by lia.
  assert (Hy : Rabs y = x * (2 * PI)) by (unfold x; field; lra).
  rewrite Hy. nra.
Qed.

Lemma wrap_down_range fuel y :
  y - 2 * PI * INR fuel <= PI ->
  let y' := iter_while fuel (fun y => gtb y PI) (fun y => y - 2 * PI) y in
  y' <= PI /\ (y' = y \/ - PI < y').
Proof.
  revert y. induction fuel as [|fuel IH]; intros y H.
  - cbn in *. split; [lra | now left].
  - rewrite S_INR in H. cbn [iter_while].
    destruct (Rlt_dec PI y) as [Hgt|Hle].
    + rewrite (gtb_true y PI Hgt).
      destruct (IH (y - 2 * PI)) as [H1 H2]; [lra|].
      cbv zeta in *. split; [exact H1|]. right.
      destruct H2 as [H2|H2]; [rewrite H2|]; lra.
    + rewrite gtb_false by lra. cbv zeta. split; [lra | now left].
Qed.

Lemma wrap_up_range fuel y :
  - PI <= y + 2 * PI * INR fuel -> y <= PI ->
  - PI <= iter_while fuel (fun y => ltb y (- PI)) (fun y => y + 2 * PI) y <= PI.
Proof.
  revert y. induction fuel as [|fuel IH]; intros y H Hle.
  - cbn in *. lra.
  - rewrite S_INR in H. cbn [iter_while].
    destruct (Rlt_dec y (- PI)) as [Hlt|Hge].
    + rewrite (ltb_true y (- PI) Hlt). apply IH; lra.
    + rewrite ltb_false by lra. lra.
Qed.

(** The fuel is enough: both loops are left by their own test, with [yaw]
    in the closed interval from [- PI] to [PI]. *)
Lemma yaw_loops_exit y :
  let y1 := iter_while (Quadcopter.yaw_fuel y)
              (fun y => gtb y PI) (fun y => y - 2 * PI) y in
  gtb y1 PI = false
  /\ ltb (normalize_yaw y) (- PI) = false
  /\ - PI <= normalize_yaw y <= PI.
Proof.
  intros y1. pose proof PI_RGT_0 as Hpi.
  pose proof (yaw_fuel_enough y) as Hf.
  assert (Hy : - Rabs y <= y <= Rabs y).
  { unfold Rabs; destruct (Rcase_abs y); lra. }
  destruct (wrap_down_range (Quadcopter.yaw_fuel y) y) as [H1 H2]; [lra|].
  fold y1 in H1, H2.
  assert (H3 : - PI <= normalize_yaw y <= PI).
  { unfold normalize_yaw. fold y1. cbv zeta.
    destruct H2 as [H2|H2].
    - apply wrap_up_range; [|exact H1].
      pose proof (yaw_fuel_enough y1) as Hf1. rewrite H2 in *. lra.
    - rewrite iter_while_stop by (apply ltb_false; lra). lra. }
  split; [apply gtb_false; exact H1|].
  split; [apply ltb_false; lra | exact H3].
Qed.

Lemma normalize_yaw_inside y : - PI <= y <= PI -> normalize_yaw y = y.
Proof.
  intros H. unfold normalize_yaw.
  rewrite (iter_while_stop _ _ _ y) by (apply gtb_false; lra).
  apply iter_while_stop, ltb_false; lra.
Qed.

Lemma clamp_range limit v : 0 <= limit -> - limit <= clamp limit v <= limit.
Proof. intros H. apply clamp_bounds. lra. Qed.

Lemma init_within_limits mass length Ixx Iyy Izz :
  within_limits (Quadcopter.init mass length Ixx Iyy Izz).
Proof.
  pose proof PI_RGT_0. unfold within_limits. cbn.
  repeat split; lra.
Qed.

Lemma set_control_within_limits a b c d s :
  within_limits s -> within_limits (Quadcopter.set_control a b c d s).
Proof. intros H. exact H. Qed.

Lemma reset_within_limits s :
  within_limits s -> within_limits (Quadcopter.reset s).
Proof.
  pose proof PI_RGT_0. unfold within_limits. destruct s; cbn.
  intros (-> & -> & -> & _). repeat split; lra.
Qed.

Lemma after_attitude_within_limits dt s :
  within_limits s -> within_limits (after_attitude dt s).
Proof.
  unfold within_limits. destruct s; cbn.
  intros (HA & HV & HP & _ & _ & _ & H). subst.
  repeat split; try tauto; try reflexivity;
    try (apply clamp_range; lra); apply yaw_loops_exit.
Qed.

Lemma ground_range limit (b : bool) v :
  0 <= limit -> - limit <= (if b then 0 else clamp limit v) <= limit.
Proof. intros H. destruct b; [lra | now apply clamp_range]. Qed.

Lemma after_translation_within_limits dt s :
  within_limits s -> within_limits (after_translation dt s).
Proof.
  unfold within_limits. destruct s; cbn.
  intros (HA & HV & HP & Hr & Hp & Hy & _). subst.
  repeat split; try tauto; try reflexivity;
    try (apply clamp_range; lra); try (apply ground_range; lra);
    try apply py_max_l.
  unfold py_max. destruct (Rlt_dec 0 _); [apply py_min_l | lra].
Qed.

Lemma step_within_limits dt s :
  within_limits s -> within_limits (snd (Quadcopter.step dt s)).
Proof.
  intros H. destruct (step_cases dt s) as [E|[E|E]]; rewrite E; cbn.
  - exact H.
  - now apply after_attitude_within_limits.
  - now apply after_translation_within_limits, after_attitude_within_limits.
Qed.

Lemma quad_run_within_limits calls s :
  within_limits s -> within_limits (quad_run calls s).
Proof.
  revert s. induction calls as [|c calls IH]; intros s H; [exact H|].
  cbn. apply IH. destruct c; cbn.
  - now apply set_control_within_limits.
  - now apply step_within_limits.
  - now apply reset_within_limits.
Qed.

(** C2, amended.  After any sequence of calls from construction, the roll
    and the pitch read from [get_state] lie between [- MAX_ANGLE] and
    [MAX_ANGLE], and the yaw lies in the closed interval from [- PI] to
    [PI]. *)
Theorem attitude_stays_within_limits :
  forall (mass length Ixx Iyy Izz : R) (calls : list quad_call),
    let self := quad_run calls (Quadcopter.init mass length Ixx Iyy Izz) in
    let state := Quadcopter.get_state self in
    Quadcopter.MAX_ANGLE self = 1.57
    /\ - Quadcopter.MAX_ANGLE self <= VehicleState.roll state
       <= Quadcopter.MAX_ANGLE self
    /\ - Quadcopter.MAX_ANGLE self <= VehicleState.pitch state
       <= Quadcopter.MAX_ANGLE self
    /\ - PI <= VehicleState.yaw state <= PI.
Proof.
  intros mass length Ixx Iyy Izz calls self state.
  pose proof (quad_run_within_limits calls _
                (init_within_limits mass length Ixx Iyy Izz)) as H.
  fold self in H. unfold within_limits in H. unfold state. cbn. tauto.
Qed.

(** With [Izz = 1], [set_control(0, 0, -pi, 0)] and [step(1)] give
    [r = -pi] and [yaw = -pi]; neither loop test holds, so [yaw] stays
    [-pi], outside the half-open interval. *)
Lemma yaw_reaches_minus_pi :
  ~ (- PI < VehicleState.yaw
              (Quadcopter.get_state
                 (quad_run [QSetControl 0 0 (- PI) 0; QStep 1]
                    (Quadcopter.init 1 0.3 0.01 0.01 1)))
     <= PI).
Proof.
  pose proof PI_RGT_0 as Hpi. cbn.
  rewrite step_returns by (cbn; lra). cbn.
  replace (0 + (0 + - PI / 1 * 1) * 1) with (- PI) by field.
  rewrite normalize_yaw_inside by lra. lra.
Qed.

Lemma step_controls dt s : controls (snd (Quadcopter.step dt s)) = controls s.
Proof.
  destruct (step_cases dt s) as [E|[E|E]]; rewrite E; destruct s; reflexivity.
Qed.

Lemma quad_run_controls calls s :
  controls (quad_run calls s) = last_control calls (controls s).
Proof.
  unfold quad_run, last_control.
  revert s. induction calls as [|c calls IH]; intros s; [reflexivity|].
  cbn [fold_left]. rewrite IH. f_equal.
  destruct c; cbn [quad_apply].
  - reflexivity.
  - apply step_controls.
  - destruct s; reflexivity.
Qed.

(** C1, amended.  After any sequence of calls, [reset] followed by
    [get_state] gives position (0, 0, 2.5) and zero velocity, attitude and
    angular rates; the thrust and the three torques are those the last
    [set_control] stored (zero if there was none): [reset] leaves them. *)
Theorem reset_restores_kinematic_state :
  forall (mass length Ixx Iyy Izz : R) (calls : list quad_call),
    let self := quad_run calls (Quadcopter.init mass length Ixx Iyy Izz) in
    let '(torque_roll, torque_pitch, torque_yaw, thrust) :=
      last_control calls (0, 0, 0, 0) in
    Quadcopter.get_state (Quadcopter.reset self)
    = VehicleState.mk 0 0 2.5 0 0 0 0 0 0 0 0 0
        thrust torque_roll torque_pitch torque_yaw.
Proof.
  intros mass length Ixx Iyy Izz calls self.
  pose proof (quad_run_controls calls
                (Quadcopter.init mass length Ixx Iyy Izz)) as H.
  fold self in H. change (controls (Quadcopter.init mass length Ixx Iyy Izz))
    with (0, 0, 0, 0) in H.
  destruct (last_control calls (0, 0, 0, 0)) as [[[a b] c] d].
  unfold controls in H. inversion H. destruct self; reflexivity.
Qed.

(** After [set_control(0, 0, 0, 1)], [reset] leaves [thrust = 1]: the
    state read is not the one read at construction. *)
Lemma reset_keeps_thrust :
  Quadcopter.get_state
    (Quadcopter.reset
       (quad_run [QSetControl 0 0 0 1] (Quadcopter.init 1 0.3 0.01 0.01 0.02)))
  <> Quadcopter.get_state (Quadcopter.init 1 0.3 0.01 0.01 0.02).
Proof.
  cbn. intros H. apply (f_equal VehicleState.thrust) in H. cbn in H.
  unfold py_max in H. destruct (Rlt_dec 0 1); lra.
Qed.

(** *** A zero time step *)

Ltac quad_fields :=
  cbv [Quadcopter.set_x Quadcopter.set_y Quadcopter.set_z
       Quadcopter.set_vx Quadcopter.set_vy Quadcopter.set_vz
       Quadcopter.set_roll Quadcopter.set_pitch Quadcopter.set_yaw
       Quadcopter.set_p Quadcopter.set_q Quadcopter.set_r
       Quadcopter.mass Quadcopter.length Quadcopter.g
       Quadcopter.Ix Quadcopter.Iy Quadcopter.Iz
       Quadcopter.x Quadcopter.y Quadcopter.z
       Quadcopter.vx Quadcopter.vy Quadcopter.vz
       Quadcopter.roll Quadcopter.pitch Quadcopter.yaw
       Quadcopter.p Quadcopter.q Quadcopter.r
       Quadcopter.torque_roll Quadcopter.torque_pitch Quadcopter.torque_yaw
       Quadcopter.thrust Quadcopter.MAX_ANGLE Quadcopter.MAX_VEL
       Quadcopter.MAX_POS Quadcopter.history].

Lemma clamp_zero_step limit v e :
  - limit <= v <= limit -> clamp limit (v + e * 0) = v.
Proof.
  intros H. replace (v + e * 0) with v by ring. now apply clamp_inside.
Qed.

Lemma normalize_yaw_zero_step y e :
  - PI <= y <= PI -> normalize_yaw (y + e * 0) = y.
Proof.
  intros H. replace (y + e * 0) with y by ring. now apply normalize_yaw_inside.
Qed.

Lemma after_attitude_zero s : within_limits s -> after_attitude 0 s = s.
Proof.
  unfold within_limits. destruct s; cbn.
  intros (_ & _ & _ & Hr & Hp & Hy & _).
  unfold after_attitude; cbn.
  rewrite !clamp_zero_step, normalize_yaw_zero_step by assumption.
  quad_fields. f_equal; ring.
Qed.

Lemma after_translation_zero s : within_limits s -> after_translation 0 s = s.
Proof.
  unfold within_limits. destruct s; cbn.
  intros (_ & _ & HP & _ & _ & _ & Hvx & Hvy & Hvz & Hx & Hy & Hz).
  unfold after_translation; cbn.
  rewrite !clamp_zero_step by assumption.
  replace (z + vz * 0) with z by ring.
  rewrite ltb_false by lra.
  assert (Hz' : py_max 0 (py_min MAX_POS z) = z) by (apply clamp_inside; lra).
  rewrite Hz'. reflexivity.
Qed.

Lemma step_zero s : within_limits s -> snd (Quadcopter.step 0 s) = s.
Proof.
  intros H. destruct (step_cases 0 s) as [E|[E|E]]; rewrite E; cbn.
  - reflexivity.
  - now apply after_attitude_zero.
  - rewrite after_attitude_zero by exact H. now apply after_translation_zero.
Qed.

(** With no thrust the one force is gravity: the vertical part of a
    returning [step]. *)
Lemma free_fall_step dt a :
  Quadcopter.thrust a = 0 -> Quadcopter.mass a <> 0 ->
  let w := clamp (Quadcopter.MAX_VEL a)
             (Quadcopter.vz a - Quadcopter.g a * dt) in
  let z1 := Quadcopter.z a + w * dt in
  Quadcopter.vz (after_translation dt a) = (if ltb z1 0 then 0 else w)
  /\ Quadcopter.z (after_translation dt a)
     = py_max 0 (py_min (Quadcopter.MAX_POS a) (if ltb z1 0 then 0 else z1)).
Proof.
  destruct a; cbn. intros -> Hm.
  match goal with |- context [clamp MAX_VEL (vz + ?e * dt)] =>
    replace e with (- g) by (field; exact Hm) end.
  replace (vz + - g * dt) with (vz - g * dt) by ring.
  split; reflexivity.
Qed.

(** From construction [step(-1)] returns; it computes [vz = 9.81] and
    [z = 2.5 - 9.81 < 0], so it leaves [z = 0]: neither rejected nor
    unchanged. *)
Lemma negative_time_step_moves_vehicle :
  let self := Quadcopter.init 1 0.3 0.01 0.01 0.02 in
  let r := Quadcopter.step (-1) self in
  ~ ((exists e, fst r = Raised e)
     \/ Quadcopter.get_state (snd r) = Quadcopter.get_state self).
Proof.
  intros self r. unfold r.
  rewrite step_returns by (cbn; lra). cbn [fst snd].
  intros [[e He]|H]; [discriminate|].
  apply (f_equal VehicleState.z) in H.
  change (Quadcopter.z (after_translation (-1) (after_attitude (-1) self)) = 2.5) in H.
  destruct (free_fall_step (-1) (after_attitude (-1) self)) as [_ Hz];
    [reflexivity | cbn; lra |].
  rewrite Hz in H. cbn in H. clear Hz.
  replace (0 - 9.81 * -1) with 9.81 in H by lra.
  unfold clamp in H. rewrite (clamp_inside _ 50 9.81) in H by lra.
  rewrite ltb_true in H by lra.
  unfold py_max, py_min in H.
  destruct (Rlt_dec 0 500); [|lra]. destruct (Rlt_dec 0 0); lra.
Qed.

(** A negative mass, a zero [Ixx] and a negative [Iyy] are all accepted. *)
Lemma constructor_takes_nonpositive_parameters :
  ~ (exists e, Quadcopter.new (-1) 0.3 0 (-0.01) 0.02 = Raised e).
Proof. intros [e H]. discriminate H. Qed.

(** *** Free fall *)

Lemma after_attitude_frame dt s :
  let a := after_attitude dt s in
  Quadcopter.thrust a = Quadcopter.thrust s
  /\ Quadcopter.mass a = Quadcopter.mass s
  /\ Quadcopter.g a = Quadcopter.g s
  /\ Quadcopter.vz a = Quadcopter.vz s
  /\ Quadcopter.z a = Quadcopter.z s
  /\ Quadcopter.MAX_VEL a = Quadcopter.MAX_VEL s
  /\ Quadcopter.MAX_POS a = Quadcopter.MAX_POS s.
Proof. destruct s; cbn. tauto. Qed.

Lemma after_translation_frame dt a :
  let s := after_translation dt a in
  Quadcopter.thrust s = Quadcopter.thrust a
  /\ Quadcopter.mass s = Quadcopter.mass a
  /\ Quadcopter.g s = Quadcopter.g a
  /\ Quadcopter.Ix s = Quadcopter.Ix a
  /\ Quadcopter.Iy s = Quadcopter.Iy a
  /\ Quadcopter.Iz s = Quadcopter.Iz a
  /\ Quadcopter.MAX_VEL s = Quadcopter.MAX_VEL a
  /\ Quadcopter.MAX_POS s = Quadcopter.MAX_POS a.
Proof. destruct a; cbn. tauto. Qed.

Lemma after_attitude_inertia dt s :
  let a := after_attitude dt s in
  Quadcopter.Ix a = Quadcopter.Ix s
  /\ Quadcopter.Iy a = Quadcopter.Iy s
  /\ Quadcopter.Iz a = Quadcopter.Iz s.
Proof. destruct s; cbn. tauto. Qed.

Lemma clamp_cases limit v :
  0 <= limit ->
  (- limit <= v <= limit /\ clamp limit v = v)
  \/ (v <= - limit /\ clamp limit v = - limit)
  \/ (limit <= v /\ clamp limit v = limit).
Proof.
  intros H. unfold clamp, py_max, py_min.
  destruct (Rlt_dec v limit); destruct (Rlt_dec (- limit) _).
  - left. lra.
  - right; left. lra.
  - right; right. lra.
  - lra.
Qed.

Lemma ground_value : py_max 0 (py_min 500 0) = 0.
Proof. apply clamp_inside with (lo := 0) (hi := 500) (v := 0). lra. Qed.

Lemma quad_run_snoc calls c s :
  quad_run (calls ++ [c]) s = quad_apply (quad_run calls s) c.
Proof. unfold quad_run. now rewrite fold_left_app. Qed.

(** *** The simulator *)

Arguments CascadedController.update_attitude : simpl never.
Arguments Quadcopter.set_control : simpl never.
Arguments Quadcopter.get_state : simpl never.
Arguments QuadcopterSimulator.step : simpl never.

(** The counters and the log after one call of [QuadcopterSimulator.step]. *)
Lemma sim_step_bookkeeping dt s :
  let r := QuadcopterSimulator.step dt s in
  match fst r with
  | Returned state =>
      state = Quadcopter.get_state (QuadcopterSimulator.quad (snd r))
      /\ QuadcopterSimulator.step_count (snd r)
         = (QuadcopterSimulator.step_count s + 1)%Z
      /\ QuadcopterSimulator.sim_time (snd r)
         = QuadcopterSimulator.sim_time s + dt
      /\ QuadcopterSimulator.logged_states (snd r)
         = (if ((QuadcopterSimulator.step_count s + 1) mod 4 =? 0)%Z
            then evict (QuadcopterSimulator.logged_states s
                        ++ [(QuadcopterSimulator.sim_time s + dt, state)])
            else QuadcopterSimulator.logged_states s)
  | Raised _ =>
      QuadcopterSimulator.step_count (snd r) = QuadcopterSimulator.step_count s
      /\ QuadcopterSimulator.sim_time (snd r) = QuadcopterSimulator.sim_time s
      /\ QuadcopterSimulator.logged_states (snd r)
         = QuadcopterSimulator.logged_states s
  end.
Proof.
  destruct s as [quad controller z_ref roll_ref pitch_ref yaw_ref sim_time
                   step_count logged_states].
  unfold QuadcopterSimulator.step, bind, get, assign, ret, on_attr. cbn.
  destruct (CascadedController.update_altitude _ _ _ _ _ _ _)
    as [[thrust|e] c1]; cbn; [|repeat split; reflexivity].
  destruct (CascadedController.update_attitude _ _ _ _ _ _ _ _)
    as [[[[troll tpitch] tyaw]|e] c2]; cbn; [|repeat split; reflexivity].
  destruct (Quadcopter.step dt _) as [[[]|e] q']; cbn; [|repeat split; reflexivity].
  unfold evict.
  destruct ((step_count + 1) mod 4 =? 0)%Z; cbn;
    [|repeat split; reflexivity].
  destruct (5000 <? _)%Z eqn:E; cbn; repeat split; try reflexivity;
    rewrite E; reflexivity.
Qed.

Lemma evict_append log e :
  (Z.of_nat (List.length log) <= 5000)%Z ->
  (Z.of_nat (List.length (evict (log ++ [e]))) <= 5000)%Z
  /\ ((Z.of_nat (List.length log) < 5000)%Z -> evict (log ++ [e]) = log ++ [e])
  /\ ((Z.of_nat (List.length log) = 5000)%Z ->
      evict (log ++ [e]) = tl log ++ [e]).
Proof.
  intros H. unfold evict.
  assert (L : List.length (log ++ [e]) = S (List.length log))
    by (rewrite length_app; cbn; lia).
  rewrite L. destruct (Z.ltb_spec 5000 (Z.of_nat (S (List.length log)))) as [Hgt|Hle].
  - split; [|split; intros; [lia|]].
    + destruct log as [|x log]; cbn in *; [lia|]. rewrite length_app; cbn. lia.
    + destruct log as [|x log]; cbn in *; [lia | reflexivity].
  - split; [lia|]. split; intros; [reflexivity | lia].
Qed.




(** C10.  [reset] after [set_references] leaves the four references as
    that call set them.  It resets the vehicle (position (0, 0, 2.5), the
    rest of the kinematic state zero), clears the state of the four PIDs
    and keeps their configuration, and zeroes the tick count, the elapsed
    time and the history log. *)
Theorem simulator_reset_keeps_references :
  forall (self : QuadcopterSimulator.t) (roll_ref pitch_ref yaw_ref z_ref : R),
    let before :=
      QuadcopterSimulator.set_references roll_ref pitch_ref yaw_ref z_ref self in
    let after := QuadcopterSimulator.reset before in
    QuadcopterSimulator.roll_ref after = roll_ref
    /\ QuadcopterSimulator.pitch_ref after = pitch_ref
    /\ QuadcopterSimulator.yaw_ref after = yaw_ref
    /\ QuadcopterSimulator.z_ref after = z_ref
    /\ QuadcopterSimulator.quad after
       = Quadcopter.reset (QuadcopterSimulator.quad self)
    /\ Quadcopter.get_state (QuadcopterSimulator.quad after)
       = VehicleState.mk 0 0 2.5 0 0 0 0 0 0 0 0 0
           (Quadcopter.thrust (QuadcopterSimulator.quad self))
           (Quadcopter.torque_roll (QuadcopterSimulator.quad self))
           (Quadcopter.torque_pitch (QuadcopterSimulator.quad self))
           (Quadcopter.torque_yaw (QuadcopterSimulator.quad self))
    /\ pid_cleared
         (CascadedController.alt_pid (QuadcopterSimulator.controller self))
         (CascadedController.alt_pid (QuadcopterSimulator.controller after))
    /\ pid_cleared
         (CascadedController.roll_pid (QuadcopterSimulator.controller self))
         (CascadedController.roll_pid (QuadcopterSimulator.controller after))
    /\ pid_cleared
         (CascadedController.pitch_pid (QuadcopterSimulator.controller self))
         (CascadedController.pitch_pid (QuadcopterSimulator.controller after))
    /\ pid_cleared
         (CascadedController.yaw_pid (QuadcopterSimulator.controller self))
         (CascadedController.yaw_pid (QuadcopterSimulator.controller after))
    /\ QuadcopterSimulator.step_count after = 0%Z
    /\ QuadcopterSimulator.sim_time after = 0
    /\ QuadcopterSimulator.logged_states after = [].
Proof.
  intros self roll_ref pitch_ref yaw_ref z_ref before after.
  unfold after, before, pid_cleared. destruct self as [q c ? ? ? ? ? ? ?].
  destruct c as [[] [] [] []]. destruct q. cbn. repeat split; reflexivity.
Qed.

(** ** Further properties of the integrator *)

Lemma last_control_thrust calls start :
  0 <= snd start -> 0 <= snd (last_control calls start).
Proof.
  unfold last_control. revert start.
  induction calls as [|c calls IH]; intros start H; [exact H|].
  cbn [fold_left]. apply IH. destruct c; cbn; [apply py_max_l | exact H ..].
Qed.

(** X1.  After any sequence of calls from construction the state read from
    [get_state] is inside the flight envelope: [z] between 0 and
    [MAX_POS = 500], [x] and [y] within [MAX_POS] of 0, the three
    velocities within [MAX_VEL = 50] of 0, and the thrust not negative. *)
Theorem vehicle_stays_within_envelope :
  forall (mass length Ixx Iyy Izz : R) (calls : list quad_call),
    let state :=
      Quadcopter.get_state
        (quad_run calls (Quadcopter.init mass length Ixx Iyy Izz)) in
    0 <= VehicleState.z state <= 500
    /\ - 500 <= VehicleState.x state <= 500
    /\ - 500 <= VehicleState.y state <= 500
    /\ - 50 <= VehicleState.vx state <= 50
    /\ - 50 <= VehicleState.vy state <= 50
    /\ - 50 <= VehicleState.vz state <= 50
    /\ 0 <= VehicleState.thrust state.
Proof.
  intros mass length Ixx Iyy Izz calls state.
  pose proof (quad_run_within_limits calls _
                (init_within_limits mass length Ixx Iyy Izz)) as H.
  pose proof (quad_run_controls calls
                (Quadcopter.init mass length Ixx Iyy Izz)) as C.
  pose proof (last_control_thrust calls (0, 0, 0, 0)) as T.
  change (controls (Quadcopter.init mass length Ixx Iyy Izz))
    with (0, 0, 0, 0) in C.
  rewrite <- C in T. unfold controls in T. cbn [snd] in T.
  unfold within_limits in H. unfold state, Quadcopter.get_state.
  cbn [VehicleState.x VehicleState.y VehicleState.z VehicleState.vx
       VehicleState.vy VehicleState.vz VehicleState.thrust].
  destruct H as (_ & HV & HP & _ & _ & _ & Hvx & Hvy & Hvz & Hx & Hy & Hz).
  rewrite HV in Hvx, Hvy, Hvz. rewrite HP in Hx, Hy, Hz.
  repeat split; try tauto. apply T. cbn. lra.
Qed.

(** X2.  A returning [step] adds [torque / inertia * dt] to each angular
    rate, axis by axis. *)
Theorem angular_rate_is_linear_in_torque :
  forall (self : Quadcopter.t) (dt : R),
    fst (Quadcopter.step dt self) = Returned tt ->
    let after := snd (Quadcopter.step dt self) in
    Quadcopter.p after
    = Quadcopter.p self + Quadcopter.torque_roll self / Quadcopter.Ix self * dt
    /\ Quadcopter.q after
       = Quadcopter.q self
         + Quadcopter.torque_pitch self / Quadcopter.Iy self * dt
    /\ Quadcopter.r after
       = Quadcopter.r self
         + Quadcopter.torque_yaw self / Quadcopter.Iz self * dt.
Proof.
  intros self dt H after. unfold after.
  destruct (step_cases dt self) as [E|[E|E]]; rewrite E in *;
    try discriminate H.
  destruct self; cbn. repeat split; reflexivity.
Qed.

(** A roll torque of 0.01 on [Ixx = 0.01] for one second: [p = 1]. *)
Lemma angular_rate_is_linear_in_torque_witness :
  let self :=
    Quadcopter.set_control 0.01 0 0 0 (Quadcopter.init 1 0.3 0.01 0.01 0.02) in
  fst (Quadcopter.step 1 self) = Returned tt
  /\ Quadcopter.p (snd (Quadcopter.step 1 self)) = 1.
Proof.
  intros self.
  assert (H : fst (Quadcopter.step 1 self) = Returned tt).
  { unfold self. rewrite step_returns;
      [reflexivity | unfold Quadcopter.set_control; cbn; lra ..]. }
  split; [exact H|].
  destruct (angular_rate_is_linear_in_torque self 1 H) as [Hp _].
  rewrite Hp. unfold self, Quadcopter.set_control. cbn. lra.
Defined.



(** ** Further properties: PID, simulator, math utilities, input *)

Lemma d_term_raises self error dt :
  PID.first_call self = false ->
  0 < PID.derivative_filter_tau self ->
  dt + PID.derivative_filter_tau self = 0 ->
  PID.d_term error dt self = (Raised ZeroDivisionError, self).
Proof.
  intros Hfc Htau Hsum. unfold PID.d_term. py_unfold. rewrite Hfc.
  destruct (Rlt_dec 0 dt); [lra|]. cbn.
  destruct (Rlt_dec 0 (PID.derivative_filter_tau self)); [|lra]. cbn.
  destruct (Req_dec_T (dt + PID.derivative_filter_tau self) 0); [|lra].
  reflexivity.
Qed.

Lemma d_term_returns self error dt :
  ~ (PID.first_call self = false
     /\ 0 < PID.derivative_filter_tau self
     /\ dt + PID.derivative_filter_tau self = 0) ->
  exists d, fst (PID.d_term error dt self) = Returned d.
Proof.
  intros H. unfold PID.d_term. py_unfold.
  destruct (PID.first_call self); cbn; [eauto|].
  destruct (Rlt_dec 0 dt); cbn.
  - destruct (Req_dec_T dt 0); [lra|]. cbn.
    destruct (Rlt_dec 0 (PID.derivative_filter_tau self)); cbn; [|eauto].
    destruct (Req_dec_T (dt + PID.derivative_filter_tau self) 0); [lra|].
    cbn. eauto.
  - destruct (Rlt_dec 0 (PID.derivative_filter_tau self)); cbn; [|eauto].
    destruct (Req_dec_T (dt + PID.derivative_filter_tau self) 0); cbn;
      [exfalso; apply H; tauto | eauto].
Qed.

(** X4.  [PID.update] raises, and then [ZeroDivisionError], exactly when
    it is not the first call, a filter time constant [tau > 0] is
    configured and [dt + tau = 0]; in every other case it returns.  When it
    raises, the accumulator has already been updated, and the previous
    error and the filtered derivative are as before. *)
Theorem pid_update_raises_only_when_filter_step_cancels :
  forall (self : PID.t) (error dt : R),
    let r := PID.update error dt self in
    (fst r = Raised ZeroDivisionError
     <-> PID.first_call self = false
         /\ 0 < PID.derivative_filter_tau self
         /\ dt + PID.derivative_filter_tau self = 0)
    /\ ((exists out, fst r = Returned out)
        <-> ~ (PID.first_call self = false
               /\ 0 < PID.derivative_filter_tau self
               /\ dt + PID.derivative_filter_tau self = 0))
    /\ (fst r = Raised ZeroDivisionError ->
        PID.integral (snd r) = accumulate self error dt
        /\ PID.prev_error (snd r) = PID.prev_error self
        /\ PID.filtered_derivative (snd r) = PID.filtered_derivative self).
Proof.
  intros self error dt r. unfold r. rewrite update_unfold.
  set (s1 := PID.set_integral (accumulate self error dt) self).
  assert (Hcfg : PID.first_call s1 = PID.first_call self
                 /\ PID.derivative_filter_tau s1 = PID.derivative_filter_tau self)
    by (destruct self; split; reflexivity).
  destruct Hcfg as [Hfc Htau].
  set (bad := PID.first_call self = false
              /\ 0 < PID.derivative_filter_tau self
              /\ dt + PID.derivative_filter_tau self = 0).
  assert (Cases : (bad /\ PID.d_term error dt s1 = (Raised ZeroDivisionError, s1))
                  \/ (~ bad /\ exists d, fst (PID.d_term error dt s1) = Returned d)).
  { destruct (bool_dec (PID.first_call self) false) as [F|F];
      [|right; split; [unfold bad; tauto | apply d_term_returns; rewrite Hfc; tauto]].
    destruct (Rlt_dec 0 (PID.derivative_filter_tau self)) as [T|T];
      [|right; split; [unfold bad; tauto | apply d_term_returns; rewrite Htau; tauto]].
    destruct (Req_dec_T (dt + PID.derivative_filter_tau self) 0) as [Z|Z];
      [|right; split; [unfold bad; tauto | apply d_term_returns; rewrite Htau; tauto]].
    left. split; [unfold bad; tauto|].
    apply d_term_raises; [now rewrite Hfc | now rewrite Htau | now rewrite Htau]. }
  destruct Cases as [[Hbad E]|[Hgood [d E]]].
  - rewrite E. cbn [fst snd].
    split; [tauto|]. split.
    + split; [intros [out H]; discriminate H | tauto].
    + intros _. unfold s1. destruct self; repeat split; reflexivity.
  - destruct (PID.d_term error dt s1) as [[d'|e] s2]; cbn in E; [|discriminate].
    cbn [fst snd].
    split; [split; [discriminate | tauto]|].
    split; [split; [tauto | eauto]|]. discriminate.
Qed.

Lemma update_config self error dt :
  let s := snd (PID.update error dt self) in
  PID.kp s = PID.kp self /\ PID.ki s = PID.ki self /\ PID.kd s = PID.kd self
  /\ PID.integrator_limit s = PID.integrator_limit self
  /\ PID.derivative_filter_tau s = PID.derivative_filter_tau self.
Proof.
  cbv zeta. rewrite update_unfold.
  pose proof (d_term_frame (PID.set_integral (accumulate self error dt) self)
                error dt) as F. cbv zeta in F.
  destruct (PID.d_term error dt _) as [[d|e] s]; cbn [snd] in *;
    destruct self; cbn in *; tauto.
Qed.

Lemma pid_run_config calls self :
  let s := pid_run calls self in
  PID.kp s = PID.kp self /\ PID.ki s = PID.ki self /\ PID.kd s = PID.kd self
  /\ PID.integrator_limit s = PID.integrator_limit self
  /\ PID.derivative_filter_tau s = PID.derivative_filter_tau self.
Proof.
  cbv zeta. unfold pid_run. revert self.
  induction calls as [|[e dt] calls IH]; intros self; [tauto|].
  cbn [fold_left fst snd].
  specialize (IH (snd (PID.update e dt self))).
  pose proof (update_config self e dt) as C. cbv zeta in C.
  destruct IH as (-> & -> & -> & -> & ->). exact C.
Qed.

(** X5.  No sequence of [update] calls changes the gains, the integral
    limit or the filter time constant; so [reset] after any such sequence
    gives back the controller as constructed, and the next [update] does
    what it does on a new controller. *)
Theorem pid_reset_gives_back_constructed_controller :
  forall (kp ki kd : R) (limit : option R) (tau : R) (calls : list (R * R)),
    let used := pid_run calls (PID.init kp ki kd limit tau) in
    PID.kp used = kp /\ PID.ki used = ki /\ PID.kd used = kd
    /\ PID.integrator_limit used = limit
    /\ PID.derivative_filter_tau used = tau
    /\ PID.reset used = PID.init kp ki kd limit tau
    /\ forall error dt,
         PID.update error dt (PID.reset used)
         = PID.update error dt (PID.init kp ki kd limit tau).
Proof.
  intros kp ki kd limit tau calls used.
  pose proof (pid_run_config calls (PID.init kp ki kd limit tau)) as C.
  cbv zeta in C. fold used in C. cbn in C.
  destruct C as (C1 & C2 & C3 & C4 & C5).
  assert (E : PID.reset used = PID.init kp ki kd limit tau).
  { destruct used; cbn in *. subst. reflexivity. }
  repeat (split; [assumption|]). intros error dt. now rewrite E.
Qed.

(** X6.  On a call that is not the first, with [dt > 0] and [tau > 0],
    the filtered derivative becomes the weighted mean
    [alpha * raw + (1 - alpha) * old] with [alpha = dt / (dt + tau)]
    strictly between 0 and 1, so it lies between the old value and the raw
    derivative [(error - prev_error) / dt]; the call returns
    [kp * error + ki * integral + kd * filtered] and records the error. *)
Theorem pid_derivative_filter_is_a_weighted_mean :
  forall (self : PID.t) (error dt : R),
    PID.first_call self = false ->
    0 < dt ->
    0 < PID.derivative_filter_tau self ->
    let r := PID.update error dt self in
    let raw := (error - PID.prev_error self) / dt in
    let alpha := dt / (dt + PID.derivative_filter_tau self) in
    let old := PID.filtered_derivative self in
    let new := PID.filtered_derivative (snd r) in
    0 < alpha < 1
    /\ new = alpha * raw + (1 - alpha) * old
    /\ Rmin old raw <= new <= Rmax old raw
    /\ fst r = Returned (PID.kp self * error
                         + PID.ki self * PID.integral (snd r)
                         + PID.kd self * new)
    /\ PID.prev_error (snd r) = error.
Proof.
  intros self error dt Hfc Hdt Htau r raw alpha old new.
  assert (Ha : 0 < alpha < 1).
  { unfold alpha. split.
    - apply Rdiv_lt_0_compat; lra.
    - apply (Rmult_lt_reg_r (dt + PID.derivative_filter_tau self)); [lra|].
      unfold Rdiv. rewrite Rmult_assoc, Rinv_l by lra. lra. }
  assert (E : r = (Returned (PID.kp self * error
                             + PID.ki self * accumulate self error dt
                             + PID.kd self * (alpha * raw + (1 - alpha) * old)),
                   PID.set_prev_error error
                     (PID.set_filtered_derivative
                        (alpha * raw + (1 - alpha) * old)
                        (PID.set_integral (accumulate self error dt) self)))).
  { unfold r. rewrite update_unfold. unfold PID.d_term. py_unfold.
    destruct self as [kp ki kd lim tau i pe fd fc]. cbn in *. subst fc.
    destruct (Rlt_dec 0 dt); [|lra]. cbn.
    destruct (Req_dec_T dt 0); [lra|]. cbn.
    destruct (Rlt_dec 0 tau); [|lra]. cbn.
    destruct (Req_dec_T (dt + tau) 0); [lra|]. cbn. reflexivity. }
  assert (Hnew : new = alpha * raw + (1 - alpha) * old).
  { unfold new. rewrite E. destruct self; reflexivity. }
  split; [exact Ha|]. split; [exact Hnew|]. split.
  - rewrite Hnew. unfold Rmin, Rmax.
    destruct (Rle_dec old raw); split; nra.
  - rewrite Hnew. rewrite E. cbn [fst snd]. destruct self; cbn. split; reflexivity.
Qed.

(** With [tau = dt = 0.02], [alpha] is one half: an error step of 1, a raw
    derivative of 50, is filtered to 25. *)
Lemma pid_derivative_filter_is_a_weighted_mean_witness :
  let self := PID.set_first_call false (PID.init 10 2 5 (Some 2.5) 0.02) in
  let r := PID.update 1 0.02 self in
  PID.first_call self = false
  /\ 0 < 0.02
  /\ PID.filtered_derivative (snd r) = 25.
Proof.
  intros self r.
  split; [reflexivity|]. split; [lra|].
  destruct (pid_derivative_filter_is_a_weighted_mean self 1 0.02)
    as (_ & Hnew & _); [reflexivity | lra | cbn; lra |].
  fold r in Hnew. rewrite Hnew. cbn. lra.
Defined.

(** X7.  [update_attitude] does not touch the altitude PID, and each
    torque is what the PID of that axis returns on its own plain difference
    [ref - actual]: the call returns exactly when the three PIDs return.
    The PIDs run in the order roll, pitch, yaw; if the roll PID raises, the
    pitch and yaw PIDs are not run. *)
Theorem attitude_axes_are_independent :
  forall (self : CascadedController.t)
         (roll_ref pitch_ref yaw_ref roll pitch yaw dt : R),
    let r := CascadedController.update_attitude
               roll_ref pitch_ref yaw_ref roll pitch yaw dt self in
    let on_roll := PID.update (roll_ref - roll) dt
                     (CascadedController.roll_pid self) in
    let on_pitch := PID.update (pitch_ref - pitch) dt
                      (CascadedController.pitch_pid self) in
    let on_yaw := PID.update (yaw_ref - yaw) dt
                    (CascadedController.yaw_pid self) in
    CascadedController.alt_pid (snd r) = CascadedController.alt_pid self
    /\ CascadedController.roll_pid (snd r) = snd on_roll
    /\ (forall torques,
          fst r = Returned torques <->
          fst on_roll = Returned (fst (fst torques))
          /\ fst on_pitch = Returned (snd (fst torques))
          /\ fst on_yaw = Returned (snd torques))
    /\ ((exists torques, fst r = Returned torques) ->
        CascadedController.pitch_pid (snd r) = snd on_pitch
        /\ CascadedController.yaw_pid (snd r) = snd on_yaw)
    /\ (forall e,
          fst on_roll = Raised e ->
          fst r = Raised e
          /\ CascadedController.pitch_pid (snd r)
             = CascadedController.pitch_pid self
          /\ CascadedController.yaw_pid (snd r)
             = CascadedController.yaw_pid self).
Proof.
  intros self roll_ref pitch_ref yaw_ref roll pitch yaw dt r on_roll on_pitch
    on_yaw.
  unfold r, CascadedController.update_attitude, bind, on_attr, ret.
  destruct self as [a rp pp yp]. cbn in *.
  fold on_roll. destruct on_roll as [[tr|e] rp']; cbn;
    [fold on_pitch; destruct on_pitch as [[tp|e] pp']; cbn;
     [fold on_yaw; destruct on_yaw as [[ty|e] yp']; cbn|]|].
  all: repeat split; intros;
    repeat match goal with
      | t : (R * R * R)%type |- _ => destruct t as [[? ?] ?]
      | H : _ /\ _ |- _ => destruct H
      | H : exists _, _ |- _ => destruct H
      | H : Returned _ = Raised _ |- _ => discriminate H
      | H : Raised _ = Returned _ |- _ => discriminate H
      | H : Returned _ = Returned _ |- _ => inversion H; clear H; subst
      | H : Raised _ = Raised _ |- _ => inversion H; clear H; subst
      end; cbn in *; try reflexivity; try congruence.
Qed.

(** One call of [QuadcopterSimulator.step], by the outcome of the three
    calls it makes. *)
Lemma sim_step_unfold dt s :
  QuadcopterSimulator.step dt s =
  let q := QuadcopterSimulator.quad s in
  match CascadedController.update_altitude
          (QuadcopterSimulator.z_ref s) (Quadcopter.z q) (Quadcopter.vz q)
          (Quadcopter.mass q) (Quadcopter.g q) dt
          (QuadcopterSimulator.controller s) with
  | (Raised e, c1) => (Raised e, QuadcopterSimulator.set_controller c1 s)
  | (Returned thrust, c1) =>
      match CascadedController.update_attitude
              (QuadcopterSimulator.roll_ref s)
              (QuadcopterSimulator.pitch_ref s)
              (QuadcopterSimulator.yaw_ref s)
              (Quadcopter.roll q) (Quadcopter.pitch q) (Quadcopter.yaw q)
              dt c1 with
      | (Raised e, c2) => (Raised e, QuadcopterSimulator.set_controller c2 s)
      | (Returned (torque_roll, torque_pitch, torque_yaw), c2) =>
          match Quadcopter.step dt
                  (Quadcopter.set_control torque_roll torque_pitch torque_yaw
                     thrust q) with
          | (Raised e, q') =>
              (Raised e,
               QuadcopterSimulator.set_quad q'
                 (QuadcopterSimulator.set_controller c2 s))
          | (Returned _, q') =>
              (Returned (Quadcopter.get_state q'),
               QuadcopterSimulator.mk q' c2
                 (QuadcopterSimulator.z_ref s)
                 (QuadcopterSimulator.roll_ref s)
                 (QuadcopterSimulator.pitch_ref s)
                 (QuadcopterSimulator.yaw_ref s)
                 (QuadcopterSimulator.sim_time s + dt)
                 (QuadcopterSimulator.step_count s + 1)%Z
                 (if ((QuadcopterSimulator.step_count s + 1) mod 4 =? 0)%Z
                  then evict (QuadcopterSimulator.logged_states s
                              ++ [(QuadcopterSimulator.sim_time s + dt,
                                   Quadcopter.get_state q')])
                  else QuadcopterSimulator.logged_states s))
          end
      end
  end.
Proof.
  destruct s as [quad controller z_ref roll_ref pitch_ref yaw_ref sim_time
                   step_count logged_states].
  unfold QuadcopterSimulator.step, bind, get, assign, ret, on_attr. cbn.
  change (VehicleState.z (Quadcopter.get_state quad)) with (Quadcopter.z quad).
  change (VehicleState.vz (Quadcopter.get_state quad)) with (Quadcopter.vz quad).
  change (VehicleState.roll (Quadcopter.get_state quad)) with (Quadcopter.roll quad).
  change (VehicleState.pitch (Quadcopter.get_state quad)) with (Quadcopter.pitch quad).
  change (VehicleState.yaw (Quadcopter.get_state quad)) with (Quadcopter.yaw quad).
  destruct (CascadedController.update_altitude _ _ _ _ _ _ _)
    as [[thrust|e] c1]; cbn; [|reflexivity].
  destruct (CascadedController.update_attitude _ _ _ _ _ _ _ _)
    as [[[[troll tpitch] tyaw]|e] c2]; cbn; [|reflexivity].
  destruct (Quadcopter.step dt _) as [[[]|e] q']; cbn; [|reflexivity].
  unfold evict.
  destruct ((step_count + 1) mod 4 =? 0)%Z; cbn; [|reflexivity].
  destruct (5000 <? _)%Z eqn:E; cbn; rewrite ?E; reflexivity.
Qed.

Lemma update_tau self error dt :
  PID.derivative_filter_tau (snd (PID.update error dt self))
  = PID.derivative_filter_tau self.
Proof. apply (update_config self error dt). Qed.

Lemma update_returns self error dt :
  0 <= PID.derivative_filter_tau self -> 0 <= dt ->
  exists out, fst (PID.update error dt self) = Returned out.
Proof.
  intros Htau Hdt. rewrite update_unfold.
  destruct (d_term_returns (PID.set_integral (accumulate self error dt) self)
              error dt) as [d Hd].
  { destruct self; cbn in *. lra. }
  destruct (PID.d_term error dt _) as [[d'|e] s]; cbn in *;
    [eauto | discriminate].
Qed.

Lemma update_altitude_outcome z_ref z vz mass g dt c :
  CascadedController.update_altitude z_ref z vz mass g dt c
  = match PID.update (z_ref - z - 0.2 * vz) dt (CascadedController.alt_pid c) with
    | (Returned alt_cmd, pid) =>
        (Returned (mass * g + alt_cmd), CascadedController.set_alt_pid pid c)
    | (Raised e, pid) => (Raised e, CascadedController.set_alt_pid pid c)
    end.
Proof.
  unfold CascadedController.update_altitude. py_unfold.
  destruct (PID.update _ dt _) as [[alt_cmd|e] pid]; reflexivity.
Qed.

Lemma update_altitude_taus z_ref z vz mass g dt c :
  ctrl_taus (snd (CascadedController.update_altitude z_ref z vz mass g dt c))
  = ctrl_taus c.
Proof.
  rewrite update_altitude_outcome.
  pose proof (update_tau (CascadedController.alt_pid c)
                (z_ref - z - 0.2 * vz) dt) as T.
  destruct (PID.update _ dt _) as [[alt_cmd|e] pid]; cbn in *;
    unfold ctrl_taus; destruct c; cbn; now rewrite T.
Qed.

Lemma update_attitude_taus rr pr yr ra pa ya dt c :
  ctrl_taus (snd (CascadedController.update_attitude rr pr yr ra pa ya dt c))
  = ctrl_taus c.
Proof.
  unfold CascadedController.update_attitude, bind, on_attr, ret.
  destruct c as [a rp pp yp]. cbn.
  pose proof (update_tau rp (rr - ra) dt) as T1.
  pose proof (update_tau pp (pr - pa) dt) as T2.
  pose proof (update_tau yp (yr - ya) dt) as T3.
  destruct (PID.update (rr - ra) dt rp) as [[t1|e] rp']; cbn in *;
    [|unfold ctrl_taus; cbn; now rewrite T1].
  destruct (PID.update (pr - pa) dt pp) as [[t2|e] pp']; cbn in *;
    [|unfold ctrl_taus; cbn; now rewrite T1, T2].
  destruct (PID.update (yr - ya) dt yp) as [[t3|e] yp']; cbn in *;
    unfold ctrl_taus; cbn; now rewrite T1, T2, T3.
Qed.

Lemma update_altitude_returns z_ref z vz mass g dt c :
  0 <= PID.derivative_filter_tau (CascadedController.alt_pid c) -> 0 <= dt ->
  exists thrust,
    fst (CascadedController.update_altitude z_ref z vz mass g dt c)
    = Returned thrust.
Proof.
  intros Htau Hdt. rewrite update_altitude_outcome.
  destruct (update_returns (CascadedController.alt_pid c)
              (z_ref - z - 0.2 * vz) dt Htau Hdt) as [out H].
  destruct (PID.update _ dt _) as [[alt_cmd|e] pid]; cbn in *;
    [eauto | discriminate].
Qed.

Lemma update_attitude_returns rr pr yr ra pa ya dt c :
  0 <= PID.derivative_filter_tau (CascadedController.roll_pid c) ->
  0 <= PID.derivative_filter_tau (CascadedController.pitch_pid c) ->
  0 <= PID.derivative_filter_tau (CascadedController.yaw_pid c) ->
  0 <= dt ->
  exists torques,
    fst (CascadedController.update_attitude rr pr yr ra pa ya dt c)
    = Returned torques.
Proof.
  intros H1 H2 H3 Hdt.
  unfold CascadedController.update_attitude, bind, on_attr, ret.
  destruct c as [a rp pp yp]. cbn in *.
  destruct (update_returns rp (rr - ra) dt H1 Hdt) as [t1 E1].
  destruct (update_returns pp (pr - pa) dt H2 Hdt) as [t2 E2].
  destruct (update_returns yp (yr - ya) dt H3 Hdt) as [t3 E3].
  destruct (PID.update (rr - ra) dt rp) as [[t1'|e] rp']; cbn in *;
    [|discriminate].
  destruct (PID.update (pr - pa) dt pp) as [[t2'|e] pp']; cbn in *;
    [|discriminate].
  destruct (PID.update (yr - ya) dt yp) as [[t3'|e] yp']; cbn in *;
    [eauto | discriminate].
Qed.

Lemma step_params dt q :
  quad_params (snd (Quadcopter.step dt q)) = quad_params q.
Proof.
  destruct (step_cases dt q) as [E|[E|E]]; rewrite E; destruct q; reflexivity.
Qed.

Lemma set_control_params a b c d q :
  quad_params (Quadcopter.set_control a b c d q) = quad_params q.
Proof. destruct q; reflexivity. Qed.

Lemma sim_step_frame dt s :
  let s' := snd (QuadcopterSimulator.step dt s) in
  ctrl_taus (QuadcopterSimulator.controller s')
  = ctrl_taus (QuadcopterSimulator.controller s)
  /\ quad_params (QuadcopterSimulator.quad s')
     = quad_params (QuadcopterSimulator.quad s).
Proof.
  cbv zeta. rewrite sim_step_unfold. cbv zeta.
  match goal with |- context [CascadedController.update_altitude ?a ?b ?c ?d ?e ?f ?g] =>
    pose proof (update_altitude_taus a b c d e f g) as T1;
    destruct (CascadedController.update_altitude a b c d e f g)
      as [[thrust|e1] c1] end; cbn [snd] in *;
    [|destruct s; cbn in *; split; [exact T1 | reflexivity]].
  match goal with |- context [CascadedController.update_attitude ?a ?b ?c ?d ?e ?f ?g ?h] =>
    pose proof (update_attitude_taus a b c d e f g h) as T2;
    destruct (CascadedController.update_attitude a b c d e f g h)
      as [[[[tr tp] ty]|e2] c2] end; cbn [snd] in *;
    [|destruct s; cbn [QuadcopterSimulator.controller QuadcopterSimulator.quad QuadcopterSimulator.set_controller] in *; split; [congruence | reflexivity]].
  match goal with |- context [Quadcopter.step dt ?q] =>
    pose proof (step_params dt q) as P;
    destruct (Quadcopter.step dt q) as [[[]|e3] q'] end; cbn [snd] in *;
    rewrite set_control_params in P;
    destruct s; cbn [QuadcopterSimulator.controller QuadcopterSimulator.quad QuadcopterSimulator.set_controller QuadcopterSimulator.set_quad] in *; split; congruence.
Qed.

Lemma sim_run_frame calls s :
  ctrl_taus (QuadcopterSimulator.controller (sim_run calls s))
  = ctrl_taus (QuadcopterSimulator.controller s)
  /\ quad_params (QuadcopterSimulator.quad (sim_run calls s))
     = quad_params (QuadcopterSimulator.quad s).
Proof.
  unfold sim_run. revert s.
  induction calls as [|c calls IH]; intros s; [tauto|].
  cbn [fold_left]. destruct (IH (sim_apply s c)) as [-> ->].
  destruct c; cbn [sim_apply].
  - destruct s; split; reflexivity.
  - apply sim_step_frame.
  - destruct s as [q c ? ? ? ? ? ? ?]. destruct q, c as [[] [] [] []].
    split; reflexivity.
Qed.

Lemma sim_step_returns dt s :
  0 <= dt ->
  (let '(t1, t2, t3, t4) := ctrl_taus (QuadcopterSimulator.controller s) in
   0 <= t1 /\ 0 <= t2 /\ 0 <= t3 /\ 0 <= t4) ->
  (let '(m, ix, iy, iz) := quad_params (QuadcopterSimulator.quad s) in
   m <> 0 /\ ix <> 0 /\ iy <> 0 /\ iz <> 0) ->
  exists state, fst (QuadcopterSimulator.step dt s) = Returned state.
Proof.
  intros Hdt Ht Hp. rewrite sim_step_unfold. cbv zeta.
  unfold ctrl_taus in Ht. unfold quad_params in Hp.
  destruct Ht as (Ht1 & Ht2 & Ht3 & Ht4). destruct Hp as (Hm & Hx & Hy & Hz).
  match goal with |- context [CascadedController.update_altitude ?a ?b ?c ?d ?e ?f ?g] =>
    pose proof (update_altitude_taus a b c d e f g) as T1;
    destruct (update_altitude_returns a b c d e f g Ht1 Hdt) as [thrust E1];
    destruct (CascadedController.update_altitude a b c d e f g)
      as [[thrust'|e1] c1] end; cbn [fst snd] in *; [|discriminate].
  unfold ctrl_taus in T1. inversion T1 as [[A1 A2 A3 A4]].
  match goal with |- context [CascadedController.update_attitude ?a ?b ?c ?d ?e ?f ?g c1] =>
    destruct (update_attitude_returns a b c d e f g c1) as [torques E2];
      try lra;
    destruct (CascadedController.update_attitude a b c d e f g c1)
      as [[[[tr tp] ty]|e2] c2] end; cbn [fst snd] in *; [|discriminate].
  rewrite step_returns by (destruct (QuadcopterSimulator.quad s); assumption).
  eexists. reflexivity.
Qed.

Lemma sim_run_snoc calls c s :
  sim_run (calls ++ [c]) s = sim_apply (sim_run calls s) c.
Proof. unfold sim_run. now rewrite fold_left_app. Qed.

Lemma evict_length log e :
  (Z.of_nat (List.length log) <= 5000)%Z ->
  Z.of_nat (List.length (evict (log ++ [e])))
  = Z.min (Z.of_nat (List.length log) + 1) 5000.
Proof.
  intros H.
  destruct (evict_append log e H) as (_ & Hless & Hfull).
  destruct (Z.eq_dec (Z.of_nat (List.length log)) 5000) as [E|E].
  - rewrite (Hfull E), length_app. cbn [List.length].
    destruct log as [|x log]; cbn [List.length tl] in *; lia.
  - rewrite Hless by lia. rewrite length_app. cbn [List.length]. lia.
Qed.

(** X9.  After [n] calls of [step(dt)] from construction, with
    [dt >= 0] and non-zero mass and inertia, the tick count is [n], the
    elapsed time is [n * dt], and the history log holds [n / 4] entries
    (integer division), at most 5000. *)
Theorem simulator_counts_ticks_time_and_samples :
  forall (mass length Ixx Iyy Izz dt : R) (n : nat),
    0 <= dt -> mass <> 0 -> Ixx <> 0 -> Iyy <> 0 -> Izz <> 0 ->
    let self := sim_run (repeat (SStep dt) n)
                  (QuadcopterSimulator.init mass length Ixx Iyy Izz) in
    QuadcopterSimulator.step_count self = Z.of_nat n
    /\ QuadcopterSimulator.sim_time self = INR n * dt
    /\ Z.of_nat (List.length (QuadcopterSimulator.logged_states self))
       = Z.min (Z.of_nat n / 4) 5000.
Proof.
  intros mass length Ixx Iyy Izz dt n Hdt Hm Hx Hy Hz.
  induction n as [|n IH].
  - cbn. repeat split; try reflexivity. ring.
  - change (repeat (SStep dt) (S n)) with (SStep dt :: repeat (SStep dt) n).
    rewrite repeat_cons, sim_run_snoc. cbn [sim_apply].
    set (s := sim_run (repeat (SStep dt) n)
                (QuadcopterSimulator.init mass length Ixx Iyy Izz)) in *.
    cbv zeta in IH. destruct IH as (Hc & Ht & Hl).
    destruct (sim_run_frame (repeat (SStep dt) n)
                (QuadcopterSimulator.init mass length Ixx Iyy Izz)) as [T P].
    fold s in T, P.
    destruct (sim_step_returns dt s Hdt) as [state E].
    { rewrite T. cbn. repeat split; lra. }
    { rewrite P. cbn. tauto. }
    pose proof (sim_step_bookkeeping dt s) as B. cbv zeta in B.
    rewrite E in B. destruct B as (_ & Bc & Bt & Bl).
    cbv zeta. rewrite Bc, Bt, Bl, Hc, Ht. rewrite S_INR.
    split; [lia|]. split; [ring|].
    replace (Z.of_nat n + 1)%Z with (Z.of_nat (S n)) by lia.
    destruct (Z.eqb_spec (Z.of_nat (S n) mod 4) 0) as [M|M].
    + rewrite evict_length by lia. rewrite Hl.
      assert (Z.of_nat (S n) / 4 = Z.of_nat n / 4 + 1)%Z
        by (Z.div_mod_to_equations; lia).
      lia.
    + rewrite Hl.
      assert (Z.of_nat (S n) / 4 = Z.of_nat n / 4)%Z
        by (Z.div_mod_to_equations; lia).
      lia.
Qed.

(** Eight ticks of [dt = 0.05]: two entries in the log. *)
Lemma simulator_counts_ticks_time_and_samples_witness :
  let self := sim_run (repeat (SStep 0.05) 8)
                (QuadcopterSimulator.init 1 0.3 0.01 0.01 0.02) in
  0 <= 0.05
  /\ QuadcopterSimulator.step_count self = 8%Z
  /\ List.length (QuadcopterSimulator.logged_states self) = 2%nat.
Proof.
  intros self.
  destruct (simulator_counts_ticks_time_and_samples 1 0.3 0.01 0.01 0.02 0.05 8)
    as (Hc & _ & Hl); try lra.
  fold self in Hc, Hl.
  split; [lra|]. split; [exact Hc|].
  change (Z.of_nat 8 / 4)%Z with 2%Z in Hl. lia.
Defined.

Lemma update_quiet p dt :
  pid_quiet p -> 0 <= dt ->
  fst (PID.update 0 dt p) = Returned 0
  /\ pid_quiet (snd (PID.update 0 dt p)).
Proof.
  intros (Hi & Hp & Hf & Htau & Hlim) Hdt.
  destruct p as [kp ki kd lim tau i pe fd fc]. cbn in *. subst i pe fd.
  assert (Hacc : accumulate (PID.mk kp ki kd lim tau 0 0 0 fc) 0 dt = 0).
  { unfold accumulate. cbn.
    replace (0 + 0 * dt) with 0 by ring.
    destruct lim; [apply clamp_inside; lra | reflexivity]. }
  rewrite update_unfold, Hacc. unfold PID.d_term. py_unfold.
  destruct fc; cbn.
  - split; [f_equal; ring|]. unfold pid_quiet; cbn. tauto.
  - destruct (Rlt_dec 0 dt) as [Hpos|Hnpos]; cbn.
    + destruct (Req_dec_T dt 0); [lra|]. cbn.
      destruct (Rlt_dec 0 tau); cbn.
      * destruct (Req_dec_T (dt + tau) 0); [lra|]. cbn.
        assert (E : dt / (dt + tau) * ((0 - 0) / dt)
                    + (1 - dt / (dt + tau)) * 0 = 0)
          by (unfold Rdiv; ring).
        rewrite E. split; [f_equal; ring|]. unfold pid_quiet; cbn. tauto.
      * split; [f_equal; unfold Rdiv; ring|]. unfold pid_quiet; cbn. tauto.
    + destruct (Rlt_dec 0 tau); cbn.
      * destruct (Req_dec_T (dt + tau) 0); [lra|]. cbn.
        assert (E : dt / (dt + tau) * 0 + (1 - dt / (dt + tau)) * 0 = 0)
          by ring.
        rewrite E. split; [f_equal; ring|]. unfold pid_quiet; cbn. tauto.
      * split; [f_equal; ring|]. unfold pid_quiet; cbn. tauto.
Qed.

Lemma clamp_rest limit e dt :
  0 <= limit -> e = 0 -> clamp limit (0 + e * dt) = 0.
Proof.
  intros H ->. replace (0 + 0 * dt) with 0 by ring.
  apply clamp_inside. lra.
Qed.

Lemma normalize_yaw_rest e dt : e = 0 -> normalize_yaw (0 + e * dt) = 0.
Proof.
  intros ->. replace (0 + 0 * dt) with 0 by ring.
  pose proof PI_RGT_0. apply normalize_yaw_inside. lra.
Qed.

(** At hover, with the weight as thrust and no torque, [step] changes
    nothing. *)
Lemma hover_step z0 dt q :
  hovering z0 q ->
  0 <= z0 <= 500 ->
  Quadcopter.mass q <> 0 -> Quadcopter.Ix q <> 0 ->
  Quadcopter.Iy q <> 0 -> Quadcopter.Iz q <> 0 ->
  Quadcopter.torque_roll q = 0 -> Quadcopter.torque_pitch q = 0 ->
  Quadcopter.torque_yaw q = 0 ->
  Quadcopter.thrust q = Quadcopter.mass q * Quadcopter.g q + 0 ->
  Quadcopter.step dt q = (Returned tt, q).
Proof.
  intros H Hz0 Hm Hx Hy Hz Htr Htp Hty Hth.
  rewrite step_returns by assumption. f_equal.
  unfold hovering in H. destruct q. cbn in *.
  destruct H as (? & ? & ? & ? & ? & ? & ? & ? & ? & ? & ? & ? & ? & ? & ? & ?).
  subst.
  assert (A : after_attitude dt
                (Quadcopter.mk mass length 9.81 Ix Iy Iz 0 0 z0 0 0 0 0 0 0
                   0 0 0 0 0 0 (mass * 9.81 + 0) 1.57 50 500 history)
              = Quadcopter.mk mass length 9.81 Ix Iy Iz 0 0 z0 0 0 0 0 0 0
                  0 0 0 0 0 0 (mass * 9.81 + 0) 1.57 50 500 history).
  { unfold after_attitude. cbn.
    assert (Ex : 0 + 0 / Ix * dt = 0) by (unfold Rdiv; ring).
    assert (Ey : 0 + 0 / Iy * dt = 0) by (unfold Rdiv; ring).
    assert (Ez : 0 + 0 / Iz * dt = 0) by (unfold Rdiv; ring).
    rewrite Ex, Ey, Ez.
    rewrite !clamp_rest by (lra || reflexivity).
    rewrite normalize_yaw_rest by reflexivity.
    reflexivity. }
  rewrite A. unfold after_translation. cbn.
  rewrite cos_0, sin_0.
  assert (Eax : (mass * 9.81 + 0) * (1 * 0 * 1 + 0 * 0) / mass = 0)
    by (unfold Rdiv; ring).
  assert (Eay : (mass * 9.81 + 0) * (0 * 0 * 1 - 1 * 0) / mass = 0)
    by (unfold Rdiv; ring).
  assert (Eaz : ((mass * 9.81 + 0) * (1 * 1) - mass * 9.81) / mass = 0)
    by (unfold Rdiv; ring).
  rewrite Eax, Eay, Eaz.
  rewrite !clamp_rest by (lra || reflexivity).
  replace (z0 + 0 * dt) with z0 by ring.
  rewrite ltb_false by lra.
  assert (Ez0 : py_max 0 (py_min 500 z0) = z0) by (apply clamp_inside; lra).
  rewrite Ez0. reflexivity.
Qed.

Lemma update_quiet_eq p dt :
  pid_quiet p -> 0 <= dt ->
  exists p', PID.update 0 dt p = (Returned 0, p') /\ pid_quiet p'.
Proof.
  intros H Hdt. destruct (update_quiet p dt H Hdt) as [E Q].
  destruct (PID.update 0 dt p) as [o p']. cbn in *. subst o. eauto.
Qed.

Lemma set_control_hovering z0 a b c d q :
  hovering z0 q -> hovering z0 (Quadcopter.set_control a b c d q).
Proof. intros H. destruct q. exact H. Qed.

Lemma sim_hover_step z0 dt s :
  sim_hovering z0 s -> 0 <= dt -> 0 <= z0 <= 500 ->
  0 < Quadcopter.mass (QuadcopterSimulator.quad s) ->
  Quadcopter.Ix (QuadcopterSimulator.quad s) <> 0 ->
  Quadcopter.Iy (QuadcopterSimulator.quad s) <> 0 ->
  Quadcopter.Iz (QuadcopterSimulator.quad s) <> 0 ->
  let s' := snd (QuadcopterSimulator.step dt s) in
  fst (QuadcopterSimulator.step dt s)
  = Returned (Quadcopter.get_state (QuadcopterSimulator.quad s'))
  /\ sim_hovering z0 s'
  /\ quad_params (QuadcopterSimulator.quad s')
     = quad_params (QuadcopterSimulator.quad s)
  /\ controls (QuadcopterSimulator.quad s')
     = (0, 0, 0, Quadcopter.mass (QuadcopterSimulator.quad s) * 9.81 + 0).
Proof.
  intros (Hq & Hzr & Hrr & Hpr & Hyr & Qa & Qr & Qp & Qy) Hdt Hz0 Hm Hx Hy Hz.
  cbv zeta. rewrite sim_step_unfold. cbv zeta.
  destruct s as [q c z_ref roll_ref pitch_ref yaw_ref t n log].
  cbn [QuadcopterSimulator.quad QuadcopterSimulator.controller
       QuadcopterSimulator.z_ref QuadcopterSimulator.roll_ref
       QuadcopterSimulator.pitch_ref QuadcopterSimulator.yaw_ref
       QuadcopterSimulator.sim_time QuadcopterSimulator.step_count
       QuadcopterSimulator.logged_states] in *.
  subst z_ref roll_ref pitch_ref yaw_ref.
  pose proof Hq as Hq'. unfold hovering in Hq'.
  destruct Hq' as (Ex & Ey & Ez & Evx & Evy & Evz & Er & Ep & Eyw & Epp & Eqq
                   & Err & Eg & EA & EV & EP).
  rewrite Ez, Evz, Er, Ep, Eyw, Eg.
  rewrite update_altitude_outcome.
  replace (z0 - z0 - 0.2 * 0) with 0 by ring.
  destruct (update_quiet_eq _ dt Qa Hdt) as (pa & Ea & Qa'). rewrite Ea.
  unfold CascadedController.update_attitude, bind, on_attr, ret.
  destruct c as [ca cr cp cy].
  cbn [CascadedController.alt_pid CascadedController.roll_pid
       CascadedController.pitch_pid CascadedController.yaw_pid
       CascadedController.set_alt_pid CascadedController.set_roll_pid
       CascadedController.set_pitch_pid CascadedController.set_yaw_pid] in *.
  replace (0 - 0) with 0 by ring.
  destruct (update_quiet_eq _ dt Qr Hdt) as (pr & Er' & Qr').
  destruct (update_quiet_eq _ dt Qp Hdt) as (pp & Ep' & Qp').
  destruct (update_quiet_eq _ dt Qy Hdt) as (py & Ey' & Qy').
  rewrite Er'. cbn. rewrite Ep'. cbn. rewrite Ey'. cbn.
  cbn [CascadedController.alt_pid CascadedController.roll_pid
       CascadedController.pitch_pid CascadedController.yaw_pid
       CascadedController.set_alt_pid CascadedController.set_roll_pid
       CascadedController.set_pitch_pid CascadedController.set_yaw_pid].
  set (q1 := Quadcopter.set_control 0 0 0 (Quadcopter.mass q * 9.81 + 0) q).
  assert (Hthrust : py_max 0 (Quadcopter.mass q * 9.81 + 0)
                    = Quadcopter.mass q * 9.81 + 0).
  { unfold py_max. destruct (Rlt_dec 0 _); [reflexivity | nra]. }
  assert (Hq1 : Quadcopter.step dt q1 = (Returned tt, q1)).
  { apply (hover_step z0).
    - now apply set_control_hovering.
    - exact Hz0.
    - unfold q1, Quadcopter.set_control; destruct q; cbn in *; lra.
    - unfold q1, Quadcopter.set_control; destruct q; exact Hx.
    - unfold q1, Quadcopter.set_control; destruct q; exact Hy.
    - unfold q1, Quadcopter.set_control; destruct q; exact Hz.
    - unfold q1, Quadcopter.set_control; destruct q; reflexivity.
    - unfold q1, Quadcopter.set_control; destruct q; reflexivity.
    - unfold q1, Quadcopter.set_control; destruct q; reflexivity.
    - unfold q1, Quadcopter.set_control; destruct q; cbn in *.
      rewrite Hthrust, Eg. reflexivity. }
  rewrite Hq1. cbn [fst snd QuadcopterSimulator.quad QuadcopterSimulator.controller].
  split; [reflexivity|]. split; [|split].
  - unfold sim_hovering. cbn.
    split; [now apply set_control_hovering|].
    repeat (split; [assumption || reflexivity|]). assumption.
  - unfold q1, Quadcopter.set_control; destruct q; reflexivity.
  - unfold q1, Quadcopter.set_control, controls; destruct q; cbn in *.
    now rewrite Hthrust.
Qed.

Lemma sim_hover_run mass length Ixx Iyy Izz z0 dt n :
  0 <= dt -> 0 <= z0 <= 500 -> 0 < mass ->
  Ixx <> 0 -> Iyy <> 0 -> Izz <> 0 ->
  let start :=
    QuadcopterSimulator.set_z_ref z0
      (QuadcopterSimulator.set_quad
         (Quadcopter.set_z z0
            (QuadcopterSimulator.quad
               (QuadcopterSimulator.init mass length Ixx Iyy Izz)))
         (QuadcopterSimulator.init mass length Ixx Iyy Izz)) in
  let self := sim_run (repeat (SStep dt) n) start in
  sim_hovering z0 self
  /\ quad_params (QuadcopterSimulator.quad self) = (mass, Ixx, Iyy, Izz)
  /\ controls (QuadcopterSimulator.quad self)
     = (0, 0, 0, match n with O => 0 | S _ => mass * 9.81 + 0 end).
Proof.
  intros Hdt Hz0 Hm Hx Hy Hz start.
  induction n as [|n IH].
  - cbn. split; [|split; reflexivity].
    unfold sim_hovering, hovering, pid_quiet. cbn.
    repeat split; try reflexivity; lra.
  - change (repeat (SStep dt) (S n)) with (SStep dt :: repeat (SStep dt) n).
    rewrite repeat_cons, sim_run_snoc. cbn [sim_apply].
    cbv zeta in IH. destruct IH as (Hh & Hp & _).
    set (s := sim_run (repeat (SStep dt) n) start) in *.
    unfold quad_params in Hp. inversion Hp as [[Pm Px Py Pz]].
    destruct (sim_hover_step z0 dt s Hh Hdt Hz0) as (_ & Hh' & Hp' & Hc');
      try congruence; try lra.
    cbv zeta. split; [exact Hh'|]. split.
    + rewrite Hp'. unfold quad_params. congruence.
    + rewrite Hc'. congruence.
Qed.

(** X10.  A vehicle of positive mass and non-zero inertia placed at
    rest at an altitude [z0] between 0 and 500, with the altitude reference
    set to [z0] as the warm-up of [main] does, holds station: after any
    number of steps with [dt >= 0] its position is [(0, 0, z0)], its
    velocity, attitude and rates are zero, and from the first step on the
    thrust applied is the weight [mass * 9.81] and the torques are zero. *)
Theorem simulator_holds_hover :
  forall (mass length Ixx Iyy Izz z0 dt : R) (n : nat),
    0 <= dt -> 0 <= z0 <= 500 -> 0 < mass ->
    Ixx <> 0 -> Iyy <> 0 -> Izz <> 0 ->
    let start :=
      QuadcopterSimulator.set_z_ref z0
        (QuadcopterSimulator.set_quad
           (Quadcopter.set_z z0
              (QuadcopterSimulator.quad
                 (QuadcopterSimulator.init mass length Ixx Iyy Izz)))
           (QuadcopterSimulator.init mass length Ixx Iyy Izz)) in
    let self := sim_run (repeat (SStep dt) n) start in
    Quadcopter.get_state (QuadcopterSimulator.quad self)
    = VehicleState.mk 0 0 z0 0 0 0 0 0 0 0 0 0
        (match n with O => 0 | S _ => mass * 9.81 end) 0 0 0.
Proof.
  intros mass length Ixx Iyy Izz z0 dt n Hdt Hz0 Hm Hx Hy Hz start self.
  destruct (sim_hover_run mass length Ixx Iyy Izz z0 dt n Hdt Hz0 Hm Hx Hy Hz)
    as ((Hq & _) & _ & Hc).
  fold start in Hq, Hc. fold self in Hq, Hc.
  unfold hovering in Hq. unfold controls in Hc.
  destruct (QuadcopterSimulator.quad self). cbn in *.
  destruct Hq as (-> & -> & -> & -> & -> & -> & -> & -> & -> & -> & -> & -> & _).
  inversion Hc as [[C1 C2 C3 C4]]. unfold Quadcopter.get_state. cbn.
  f_equal. destruct n; [reflexivity | ring].
Qed.

(** The warm-up of [main]: fifty steps at [z0 = 3.5]. *)
Lemma simulator_holds_hover_witness :
  let start :=
    QuadcopterSimulator.set_z_ref 3.5
      (QuadcopterSimulator.set_quad
         (Quadcopter.set_z 3.5
            (QuadcopterSimulator.quad
               (QuadcopterSimulator.init 1 0.3 0.01 0.01 0.02)))
         (QuadcopterSimulator.init 1 0.3 0.01 0.01 0.02)) in
  0 <= 0.05
  /\ 0 <= 3.5 <= 500
  /\ VehicleState.z
       (Quadcopter.get_state
          (QuadcopterSimulator.quad (sim_run (repeat (SStep 0.05) 50) start)))
     = 3.5.
Proof.
  intros start. split; [lra|]. split; [lra|].
  unfold start.
  rewrite (simulator_holds_hover 1 0.3 0.01 0.01 0.02 3.5 0.05 50); try lra.
  reflexivity.
Defined.

(** X11.  [get_log_entries(n)] with [n > 0] returns the newest
    [min(n, len)] entries, a suffix of the log; with [n = 0] it returns the
    whole log, not an empty list; with [n < 0] it drops the oldest [- n]
    entries. *)
Theorem get_log_entries_returns_the_newest_entries :
  forall (self : QuadcopterSimulator.t) (n : Z),
    let log := QuadcopterSimulator.logged_states self in
    let len := Z.of_nat (List.length log) in
    let entries := QuadcopterSimulator.get_log_entries n self in
    ((0 < n)%Z ->
     entries = skipn (Z.to_nat (len - n)) log
     /\ Z.of_nat (List.length entries) = Z.min n len
     /\ exists older, log = older ++ entries)
    /\ (n = 0%Z -> entries = log)
    /\ ((n < 0)%Z ->
        entries = skipn (Z.to_nat (Z.min (- n) len)) log
        /\ Z.of_nat (List.length entries) = Z.max (len + n) 0).
Proof.
  intros self n log len entries.
  unfold entries, QuadcopterSimulator.get_log_entries,
    QuadcopterSimulator.py_slice_from.
  fold log. fold len. cbv zeta.
  assert (Hlen : (0 <= len)%Z) by (unfold len; lia).
  split; [|split].
  - intros Hn. destruct (Z.ltb_spec (- n) 0); [|lia].
    assert (E : Z.to_nat (Z.max (- n + len) 0) = Z.to_nat (len - n)) by lia.
    rewrite E. split; [reflexivity|]. split.
    + rewrite length_skipn. fold len. unfold len. lia.
    + exists (firstn (Z.to_nat (len - n)) log). now rewrite firstn_skipn.
  - intros ->. cbn [Z.opp Z.ltb Z.compare].
    replace (Z.to_nat (Z.min 0 len)) with 0%nat by lia. reflexivity.
  - intros Hn. destruct (Z.ltb_spec (- n) 0); [lia|].
    split; [reflexivity|].
    rewrite length_skipn. unfold len. lia.
Qed.

Lemma sin_cos_square a : sin a * sin a + cos a * cos a = 1.
Proof. pose proof (sin2_cos2 a) as H. unfold Rsqr in H. exact H. Qed.

(** X12.  The matrix of [euler_to_rotation_matrix] is a rotation for all
    angles: its product with its transpose is the identity, on both sides,
    and its determinant is 1. *)
Theorem euler_matrix_is_a_rotation :
  forall roll pitch yaw : R,
    let M := MathUtils.euler_to_rotation_matrix roll pitch yaw in
    matmul M (transpose M) = identity3
    /\ matmul (transpose M) M = identity3
    /\ det3 M = 1.
Proof.
  intros roll pitch yaw M.
  pose proof (sin_cos_square roll) as Hr.
  pose proof (sin_cos_square pitch) as Hp.
  pose proof (sin_cos_square yaw) as Hy.
  unfold M, MathUtils.euler_to_rotation_matrix, matmul, transpose, identity3,
    det3. cbn.
  generalize dependent (sin roll). generalize dependent (cos roll).
  generalize dependent (sin pitch). generalize dependent (cos pitch).
  generalize dependent (sin yaw). generalize dependent (cos yaw).
  intros cy sy Hy cp sp Hp cr sr Hr.
  repeat split; [f_equal; nsatz | f_equal; nsatz | nsatz].
Qed.

(** X13.  [body_to_world_frame] keeps the length of the vector, for all
    angles. *)
Theorem body_to_world_frame_keeps_length :
  forall (v : MathUtils.vec3) (roll pitch yaw : R),
    norm2_vec (MathUtils.body_to_world_frame v roll pitch yaw) = norm2_vec v.
Proof.
  intros [[a b] c] roll pitch yaw.
  pose proof (sin_cos_square roll) as Hr.
  pose proof (sin_cos_square pitch) as Hp.
  pose proof (sin_cos_square yaw) as Hy.
  unfold MathUtils.body_to_world_frame, MathUtils.matvec,
    MathUtils.euler_to_rotation_matrix, norm2_vec. cbn.
  generalize dependent (sin roll). generalize dependent (cos roll).
  generalize dependent (sin pitch). generalize dependent (cos pitch).
  generalize dependent (sin yaw). generalize dependent (cos yaw).
  intros cy sy Hy cp sp Hp cr sr Hr. nsatz.
Qed.

(** X14.  The force a returning [Quadcopter.step] integrates is
    [body_to_world_frame] of the body-frame thrust [(0, 0, thrust)] at the
    clamped attitude, less the weight on the vertical axis: the rotation
    written out in [step] is the one of [math_utils]. *)
Theorem step_thrust_is_body_to_world_of_vertical :
  forall (self : Quadcopter.t) (dt : R),
    fst (Quadcopter.step dt self) = Returned tt ->
    let a := after_attitude dt self in
    let after := snd (Quadcopter.step dt self) in
    let '(fx, fy, fz) :=
      MathUtils.body_to_world_frame (0, 0, Quadcopter.thrust a)
        (Quadcopter.roll after) (Quadcopter.pitch after)
        (Quadcopter.yaw after) in
    let limit := Quadcopter.MAX_VEL self in
    let w := clamp limit
               (Quadcopter.vz self
                + (fz - Quadcopter.mass self * Quadcopter.g self)
                  / Quadcopter.mass self * dt) in
    Quadcopter.vx after
    = clamp limit (Quadcopter.vx self + fx / Quadcopter.mass self * dt)
    /\ Quadcopter.vy after
       = clamp limit (Quadcopter.vy self + fy / Quadcopter.mass self * dt)
    /\ Quadcopter.vz after
       = (if ltb (Quadcopter.z self + w * dt) 0 then 0 else w).
Proof.
  intros self dt H a after. unfold after, a.
  destruct (step_cases dt self) as [E|[E|E]]; rewrite E in *;
    try discriminate H.
  cbn [snd]. destruct self. 
  unfold MathUtils.body_to_world_frame, MathUtils.matvec,
    MathUtils.euler_to_rotation_matrix. cbn.
  match goal with
  | |- context [normalize_yaw ?y] => generalize (normalize_yaw y)
  end.
  intros yw.
  match goal with
  | |- context [clamp MAX_ANGLE ?r] =>
      generalize (clamp MAX_ANGLE r)
  end.
  intros pt.
  match goal with
  | |- context [clamp MAX_ANGLE ?r] =>
      generalize (clamp MAX_ANGLE r)
  end.
  intros rl.
  replace (cos yw * cos pt * 0 + (cos yw * sin pt * sin rl - sin yw * cos rl) * 0
           + (cos yw * sin pt * cos rl + sin yw * sin rl) * thrust)
    with (thrust * (cos yw * sin pt * cos rl + sin yw * sin rl)) by ring.
  replace (sin yw * cos pt * 0 + (sin yw * sin pt * sin rl + cos yw * cos rl) * 0
           + (sin yw * sin pt * cos rl - cos yw * sin rl) * thrust)
    with (thrust * (sin yw * sin pt * cos rl - cos yw * sin rl)) by ring.
  replace (- sin pt * 0 + cos pt * sin rl * 0 + cos pt * cos rl * thrust)
    with (thrust * (cos pt * cos rl)) by ring.
  repeat split; reflexivity.
Qed.

(** A level vehicle of mass 1 under a thrust of 9.81. *)
Lemma step_thrust_is_body_to_world_of_vertical_witness :
  let self :=
    Quadcopter.set_control 0 0 0 9.81 (Quadcopter.init 1 0.3 0.01 0.01 0.02) in
  let after := snd (Quadcopter.step 0.05 self) in
  let f :=
    MathUtils.body_to_world_frame
      (0, 0, Quadcopter.thrust (after_attitude 0.05 self))
      (Quadcopter.roll after) (Quadcopter.pitch after) (Quadcopter.yaw after) in
  fst (Quadcopter.step 0.05 self) = Returned tt
  /\ Quadcopter.vx after
     = clamp (Quadcopter.MAX_VEL self)
         (Quadcopter.vx self + fst (fst f) / Quadcopter.mass self * 0.05).
Proof.
  intros self after f.
  assert (H : fst (Quadcopter.step 0.05 self) = Returned tt).
  { unfold self. rewrite step_returns;
      [reflexivity | unfold Quadcopter.set_control; cbn; lra ..]. }
  split; [exact H|].
  pose proof (step_thrust_is_body_to_world_of_vertical self 0.05 H) as T.
  cbv zeta in T. fold after in T. fold f in T.
  destruct f as [[fx fy] fz]. exact (proj1 T).
Defined.

Lemma math_asin_inside x :
  -1 <= x <= 1 -> MathUtils.math_asin x = Some (asin x).
Proof.
  intros H. unfold MathUtils.math_asin.
  destruct (Rlt_dec x (-1)); [lra|]. destruct (Rlt_dec 1 x); [lra|].
  reflexivity.
Qed.

Lemma unit_clamp_cases g :
  py_max (-1) (py_min 1 g)
  = (if Rlt_dec g (-1) then -1 else if Rlt_dec 1 g then 1 else g).
Proof.
  unfold py_max, py_min.
  destruct (Rlt_dec g 1) as [L|L].
  - destruct (Rlt_dec (-1) g); destruct (Rlt_dec g (-1));
      destruct (Rlt_dec 1 g); lra.
  - destruct (Rlt_dec (-1) 1); [|lra].
    destruct (Rlt_dec g (-1)); [lra|]. destruct (Rlt_dec 1 g); lra.
Qed.

(** X15.  [rotation_matrix_to_euler] never raises: it clamps the entry
    [R[2, 0]] to between -1 and 1, in the caller's array and nowhere else,
    before it takes the arcsine, and the pitch it returns lies between
    [- PI / 2] and [PI / 2]. *)
Theorem rotation_matrix_to_euler_never_raises :
  forall (atan2 : R -> R -> R) (M : MathUtils.mat3),
    let r := MathUtils.rotation_matrix_to_euler atan2 M in
    let M' := snd r in
    -1 <= MathUtils.r20 M' <= 1
    /\ MathUtils.r20 M' = py_max (-1) (py_min 1 (MathUtils.r20 M))
    /\ M' = MathUtils.set_r20 (MathUtils.r20 M') M
    /\ fst r = Some (atan2 (MathUtils.r21 M) (MathUtils.r22 M),
                     - asin (MathUtils.r20 M'),
                     atan2 (MathUtils.r10 M) (MathUtils.r00 M))
    /\ - (PI / 2) <= - asin (MathUtils.r20 M') <= PI / 2.
Proof.
  intros atan2 M r M'. unfold M', r, MathUtils.rotation_matrix_to_euler.
  rewrite unit_clamp_cases.
  assert (B : forall x, - (PI / 2) <= - asin x <= PI / 2).
  { intros x. pose proof (asin_bound x). lra. }
  destruct M as [a b c d e f g h i].
  cbn [MathUtils.r00 MathUtils.r10 MathUtils.r20 MathUtils.r21 MathUtils.r22].
  destruct (Rlt_dec g (-1)) as [Lo|Lo]; [|destruct (Rlt_dec 1 g) as [Hi|Hi]];
    cbn [MathUtils.set_r20 MathUtils.r00 MathUtils.r01 MathUtils.r02
         MathUtils.r10 MathUtils.r11 MathUtils.r12 MathUtils.r20
         MathUtils.r21 MathUtils.r22];
    rewrite math_asin_inside by lra; cbn;
    repeat split; try reflexivity; try lra; apply B.
Qed.

(** X16.  For a pitch between [- PI / 2] and [PI / 2],
    [rotation_matrix_to_euler] on the matrix of [euler_to_rotation_matrix]
    returns that pitch and leaves the matrix as it is; roll and yaw are
    [atan2] of the entries that hold [cos pitch] times their sine and
    cosine. *)
Theorem euler_matrix_gives_back_the_pitch :
  forall (atan2 : R -> R -> R) (roll pitch yaw : R),
    - (PI / 2) <= pitch <= PI / 2 ->
    let M := MathUtils.euler_to_rotation_matrix roll pitch yaw in
    MathUtils.rotation_matrix_to_euler atan2 M
    = (Some (atan2 (cos pitch * sin roll) (cos pitch * cos roll),
             pitch,
             atan2 (sin yaw * cos pitch) (cos yaw * cos pitch)),
       M).
Proof.
  intros atan2 roll pitch yaw Hp M.
  unfold M, MathUtils.rotation_matrix_to_euler, MathUtils.math_asin,
    MathUtils.euler_to_rotation_matrix. cbn.
  pose proof (SIN_bound pitch) as [S1 S2].
  destruct (Rlt_dec (- sin pitch) (-1)); [lra|].
  destruct (Rlt_dec 1 (- sin pitch)); [lra|]. cbn.
  destruct (Rlt_dec (- sin pitch) (-1)); [lra|].
  destruct (Rlt_dec 1 (- sin pitch)); [lra|].
  rewrite asin_opp, asin_sin by lra. rewrite Ropp_involutive. reflexivity.
Qed.

(** The identity matrix gives a pitch of zero. *)
Lemma euler_matrix_gives_back_the_pitch_witness :
  - (PI / 2) <= 0 <= PI / 2
  /\ fst (MathUtils.rotation_matrix_to_euler (fun _ _ => 0)
            (MathUtils.euler_to_rotation_matrix 0 0 0))
     = Some (0, 0, 0).
Proof.
  pose proof PI_RGT_0 as Hpi.
  assert (H : - (PI / 2) <= 0 <= PI / 2) by lra.
  split; [exact H|].
  rewrite (euler_matrix_gives_back_the_pitch (fun _ _ => 0) 0 0 0 H).
  reflexivity.
Defined.

(** X17.  [quaternion_multiply] multiplies the squared norms, is
    associative, and has [(1, 0, 0, 0)] as identity on both sides. *)
Theorem quaternion_product_laws :
  forall p q r : MathUtils.quat,
    norm2_quat (MathUtils.quaternion_multiply p q)
    = norm2_quat p * norm2_quat q
    /\ MathUtils.quaternion_multiply (MathUtils.quaternion_multiply p q) r
       = MathUtils.quaternion_multiply p (MathUtils.quaternion_multiply q r)
    /\ MathUtils.quaternion_multiply (1, 0, 0, 0) p = p
    /\ MathUtils.quaternion_multiply p (1, 0, 0, 0) = p.
Proof.
  intros [[[pw px] py] pz] [[[qw qx] qy] qz] [[[rw rx] ry] rz].
  unfold MathUtils.quaternion_multiply, norm2_quat. cbn.
  split; [ring|].
  repeat split; (f_equal; [f_equal; [f_equal|]|]; ring).
Qed.

Lemma quaternion_normalize_outcome w x y z :
  let norm := sqrt (w ^ 2 + x ^ 2 + y ^ 2 + z ^ 2) in
  MathUtils.quaternion_normalize (w, x, y, z)
  = if Req_dec_T norm 0 then Raised ZeroDivisionError
    else Returned (w / norm, x / norm, y / norm, z / norm).
Proof.
  cbv zeta. unfold MathUtils.quaternion_normalize, bind, fdiv, ret, raise.
  destruct (Req_dec_T (sqrt (w ^ 2 + x ^ 2 + y ^ 2 + z ^ 2)) 0); reflexivity.
Qed.

Lemma sum_squares_zero w x y z :
  w ^ 2 + x ^ 2 + y ^ 2 + z ^ 2 = 0 -> w = 0 /\ x = 0 /\ y = 0 /\ z = 0.
Proof. intros H. repeat split; nra. Qed.

Lemma norm_zero_iff w x y z :
  sqrt (w ^ 2 + x ^ 2 + y ^ 2 + z ^ 2) = 0 <-> (w, x, y, z) = (0, 0, 0, 0).
Proof.
  split.
  - intros H. apply sqrt_eq_0 in H; [|nra].
    destruct (sum_squares_zero w x y z H) as (-> & -> & -> & ->). reflexivity.
  - intros H. inversion H. subst.
    replace (0 ^ 2 + 0 ^ 2 + 0 ^ 2 + 0 ^ 2) with 0 by ring. apply sqrt_0.
Qed.

Lemma while_yaw_ref fuel cond f (s : ManualController.t) :
  while fuel (fun self => cond (ManualController.yaw_ref self))
    (assign ManualController.set_yaw_ref
       (fun self => f (ManualController.yaw_ref self))) s
  = (Returned tt,
     ManualController.set_yaw_ref
       (iter_while fuel cond f (ManualController.yaw_ref s)) s).
Proof.
  revert s. induction fuel as [|fuel IH]; intros s.
  - destruct s; reflexivity.
  - unfold while; fold (@while ManualController.t).
    cbn [iter_while]. unfold bind at 1, get at 1.
    destruct (cond (ManualController.yaw_ref s)).
    + unfold bind, assign. rewrite IH. destruct s; reflexivity.
    + destruct s; reflexivity.
Qed.

Lemma while_yaw_ref_down fuel (s : ManualController.t) :
  while fuel (fun self => gtb (ManualController.yaw_ref self) PI)
    (assign ManualController.set_yaw_ref
       (fun self => ManualController.yaw_ref self - 2 * PI)) s
  = (Returned tt,
     ManualController.set_yaw_ref
       (iter_while fuel (fun y => gtb y PI) (fun y => y - 2 * PI)
          (ManualController.yaw_ref s)) s).
Proof.
  exact (while_yaw_ref fuel (fun y => gtb y PI) (fun y => y - 2 * PI) s).
Qed.

Lemma while_yaw_ref_up fuel (s : ManualController.t) :
  while fuel (fun self => ltb (ManualController.yaw_ref self) (- PI))
    (assign ManualController.set_yaw_ref
       (fun self => ManualController.yaw_ref self + 2 * PI)) s
  = (Returned tt,
     ManualController.set_yaw_ref
       (iter_while fuel (fun y => ltb y (- PI)) (fun y => y + 2 * PI)
          (ManualController.yaw_ref s)) s).
Proof.
  exact (while_yaw_ref fuel (fun y => ltb y (- PI)) (fun y => y + 2 * PI) s).
Qed.

Lemma update_from_keyboard_inactive pressed s :
  ManualController.control_active s = false ->
  ManualController.update_from_keyboard pressed s = (Returned (held_refs s), s).
Proof.
  intros H. unfold ManualController.update_from_keyboard, bind, get, ret.
  rewrite H. reflexivity.
Qed.

Lemma update_from_keyboard_active pressed s :
  ManualController.control_active s = true ->
  ManualController.update_from_keyboard pressed s
  = (Returned (held_refs (keyed pressed s)), keyed pressed s).
Proof.
  intros H. destruct s as [z rl pt yw astep gstep maxa minz maxz act].
  cbn in H. subst act.
  unfold ManualController.update_from_keyboard, keyed, keyed_z, keyed_angle,
    keyed_yaw, normalize_yaw, held_refs.
  unfold bind at 1, get at 1.
  cbn [ManualController.control_active negb].
  destruct (ManualController.K_SPACE pressed);
    [|destruct (ManualController.K_LSHIFT pressed
                || ManualController.K_RSHIFT pressed)];
    (destruct (ManualController.K_w pressed);
       [|destruct (ManualController.K_s pressed)]);
    (destruct (ManualController.K_a pressed);
       [|destruct (ManualController.K_d pressed)]);
    (destruct (ManualController.K_q pressed);
       [|destruct (ManualController.K_e pressed)]);
    unfold bind, get, assign, ret; cbn;
    rewrite while_yaw_ref_down; cbn;
    rewrite while_yaw_ref_up; cbn; reflexivity.
Qed.

Lemma py_min_cases a b : (py_min a b = a /\ a <= b) \/ (py_min a b = b /\ b < a).
Proof. unfold py_min. destruct (Rlt_dec b a); [right | left]; lra. Qed.

Lemma py_max_cases a b : (py_max a b = a /\ b <= a) \/ (py_max a b = b /\ a < b).
Proof. unfold py_max. destruct (Rlt_dec a b); [right | left]; lra. Qed.

Lemma keyed_angle_range more less angle s :
  ManualController.angle_step s = 0.08 ->
  ManualController.MAX_ANGLE s = 0.6 ->
  - 0.6 <= angle <= 0.6 ->
  - 0.6 <= keyed_angle more less angle s <= 0.6.
Proof.
  intros Hs Hm Ha. unfold keyed_angle. rewrite Hs, Hm.
  destruct more; [|destruct less].
  - destruct (py_min_cases (angle + 0.08) 0.6) as [[-> ?]|[-> ?]]; lra.
  - destruct (py_max_cases (angle - 0.08) (Ropp 0.6)) as [[-> ?]|[-> ?]]; lra.
  - lra.
Qed.

Lemma keyed_z_range pressed s :
  ManualController.alt_step s = 0.1 ->
  ManualController.MIN_Z s = 0.5 ->
  ManualController.MAX_Z s = 10 ->
  0.5 <= ManualController.z_ref s <= 10 ->
  0.5 <= keyed_z pressed s <= 10.
Proof.
  intros Hs Hlo Hhi Hz. unfold keyed_z. rewrite Hs, Hlo, Hhi.
  destruct (ManualController.K_SPACE pressed);
    [|destruct (ManualController.K_LSHIFT pressed
                || ManualController.K_RSHIFT pressed)].
  - destruct (py_min_cases (ManualController.z_ref s + 0.1 * 10) 10)
      as [[-> ?]|[-> ?]]; lra.
  - destruct (py_max_cases (ManualController.z_ref s - 0.1 * 10) 0.5)
      as [[-> ?]|[-> ?]]; lra.
  - lra.
Qed.

Lemma keyed_envelope pressed s :
  manual_envelope s -> manual_envelope (keyed pressed s).
Proof.
  intros (H1 & H2 & H3 & H4 & H5 & Hz & Hr & Hp & Hy).
  unfold manual_envelope, keyed. cbn.
  repeat (split; [assumption|]).
  split; [now apply keyed_z_range|].
  split; [now apply keyed_angle_range|].
  split; [now apply keyed_angle_range|].
  apply yaw_loops_exit.
Qed.

Lemma update_from_keyboard_envelope pressed s :
  manual_envelope s ->
  manual_envelope (snd (ManualController.update_from_keyboard pressed s))
  /\ fst (ManualController.update_from_keyboard pressed s)
     = Returned
         (held_refs (snd (ManualController.update_from_keyboard pressed s))).
Proof.
  intros H. destruct (ManualController.control_active s) eqn:A.
  - rewrite update_from_keyboard_active by exact A. cbn [fst snd].
    split; [now apply keyed_envelope | reflexivity].
  - rewrite update_from_keyboard_inactive by exact A. cbn [fst snd].
    split; [exact H | reflexivity].
Qed.

Lemma manual_run_envelope calls s :
  manual_envelope s -> manual_envelope (manual_run calls s).
Proof.
  unfold manual_run. revert s.
  induction calls as [|c calls IH]; intros s H; [exact H|].
  cbn [fold_left]. apply IH. destruct c; cbn [manual_apply].
  - now apply update_from_keyboard_envelope.
  - pose proof PI_RGT_0. destruct H as (H1 & H2 & H3 & H4 & H5 & _).
    unfold manual_envelope. destruct s; cbn in *. repeat split; try assumption; lra.
  - destruct s; exact H.
Qed.

Lemma init_envelope : manual_envelope ManualController.init.
Proof.
  pose proof PI_RGT_0. unfold manual_envelope. cbn. repeat split; lra.
Qed.

(** X19.  After any sequence of [update_from_keyboard], [reset] and
    [toggle_control] calls, [update_from_keyboard] returns the references
    it holds, with roll and pitch between -0.6 and 0.6, yaw between [- PI]
    and [PI], and altitude between 0.5 and 10, whatever keys are
    pressed. *)
Theorem keyboard_references_stay_in_envelope :
  forall (calls : list manual_call) (pressed : ManualController.keys),
    let self := manual_run calls ManualController.init in
    let r := ManualController.update_from_keyboard pressed self in
    exists roll_ref pitch_ref yaw_ref z_ref,
      fst r = Returned (roll_ref, pitch_ref, yaw_ref, z_ref)
      /\ held_refs (snd r) = (roll_ref, pitch_ref, yaw_ref, z_ref)
      /\ - 0.6 <= roll_ref <= 0.6
      /\ - 0.6 <= pitch_ref <= 0.6
      /\ - PI <= yaw_ref <= PI
      /\ 0.5 <= z_ref <= 10.
Proof.
  intros calls pressed self r.
  destruct (update_from_keyboard_envelope pressed self) as [E F].
  { apply manual_run_envelope, init_envelope. }
  fold r in E, F.
  destruct E as (_ & _ & _ & _ & _ & Hz & Hr & Hp & Hy).
  exists (ManualController.roll_ref (snd r)), (ManualController.pitch_ref (snd r)),
    (ManualController.yaw_ref (snd r)), (ManualController.z_ref (snd r)).
  repeat split; try assumption; try tauto.
Qed.

(** X20.  With control inactive, [update_from_keyboard] returns the
    held references and changes nothing, whatever keys are pressed.  With
    control active and no key pressed, roll, pitch and yaw references go to
    zero at once and the altitude reference is kept. *)
Theorem keyboard_idle_behaviour :
  forall (self : ManualController.t) (pressed : ManualController.keys),
    let released :=
      ManualController.mk_keys false false false false false false false
        false false in
    (ManualController.control_active self = false ->
     ManualController.update_from_keyboard pressed self
     = (Returned (held_refs self), self))
    /\ (ManualController.control_active self = true ->
        let r := ManualController.update_from_keyboard released self in
        fst r = Returned (0, 0, 0, ManualController.z_ref self)
        /\ held_refs (snd r) = (0, 0, 0, ManualController.z_ref self)).
Proof.
  intros self pressed released. split.
  - apply update_from_keyboard_inactive.
  - intros A. cbv zeta. rewrite update_from_keyboard_active by exact A.
    cbn [fst snd]. unfold held_refs, keyed, keyed_z, keyed_angle, keyed_yaw,
      released. cbn.
    pose proof PI_RGT_0.
    rewrite normalize_yaw_inside by lra. split; reflexivity.
Qed.

(** X21.  Holding SPACE and W for [n] frames from construction raises
    the altitude reference by 1 per frame ([alt_step * 10]) up to 10, and
    the pitch reference by 0.08 per frame up to 0.6:
    [z_ref = min(2.5 + n, 10)] and [pitch_ref = min(0.08 * n, 0.6)], with
    roll and yaw references at 0. *)
Theorem held_keys_ramp_and_saturate :
  forall n : nat,
    let climb :=
      ManualController.mk_keys true false false true false false false
        false false in
    let self := manual_run (repeat (MKeys climb) n) ManualController.init in
    ManualController.z_ref self = Rmin (2.5 + INR n) 10
    /\ ManualController.pitch_ref self = Rmin (INR n * 0.08) 0.6
    /\ ManualController.roll_ref self = 0
    /\ ManualController.yaw_ref self = 0.
Proof.
  intros n climb.
  assert (G : forall n,
    let self := manual_run (repeat (MKeys climb) n) ManualController.init in
    ManualController.control_active self = true
    /\ ManualController.alt_step self = 0.1
    /\ ManualController.angle_step self = 0.08
    /\ ManualController.MAX_ANGLE self = 0.6
    /\ ManualController.MAX_Z self = 10
    /\ ManualController.z_ref self = Rmin (2.5 + INR n) 10
    /\ ManualController.pitch_ref self = Rmin (INR n * 0.08) 0.6
    /\ ManualController.roll_ref self = 0
    /\ ManualController.yaw_ref self = 0).
  { clear n. induction n as [|n IH].
    - cbn. unfold Rmin.
      destruct (Rle_dec (2.5 + 0) 10); [|lra].
      destruct (Rle_dec (0 * 0.08) 0.6); [|lra].
      repeat split; try reflexivity; lra.
    - cbv zeta. rewrite S_INR.
      change (repeat (MKeys climb) (S n))
        with (MKeys climb :: repeat (MKeys climb) n).
      rewrite repeat_cons. unfold manual_run. rewrite fold_left_app.
      fold (manual_run (repeat (MKeys climb) n) ManualController.init).
      cbv zeta in IH.
      set (s := manual_run (repeat (MKeys climb) n) ManualController.init) in *.
      destruct IH as (A & H1 & H2 & H3 & H5 & Hz & Hp & Hr & Hy).
      cbn [fold_left manual_apply].
      rewrite update_from_keyboard_active by exact A. cbn [snd].
      unfold keyed, keyed_z, keyed_angle, keyed_yaw, climb. cbn.
      rewrite H1, H2, H3, H5, Hz, Hp.
      pose proof (pos_INR n) as HN. pose proof PI_RGT_0.
      rewrite normalize_yaw_inside by lra.
      repeat (split; [assumption || reflexivity|]).
      split; [|split; [|split; reflexivity]].
      + unfold Rmin.
        destruct (Rle_dec (2.5 + INR n) 10);
          destruct (Rle_dec (2.5 + (INR n + 1)) 10);
          match goal with |- py_min ?a ?b = _ =>
            destruct (py_min_cases a b) as [[-> ?]|[-> ?]] end; lra.
      + unfold Rmin.
        destruct (Rle_dec (INR n * 0.08) 0.6);
          destruct (Rle_dec ((INR n + 1) * 0.08) 0.6);
          match goal with |- py_min ?a ?b = _ =>
            destruct (py_min_cases a b) as [[-> ?]|[-> ?]] end; lra. }
  destruct (G n) as (_ & _ & _ & _ & _ & Hz & Hp & Hr & Hy).
  cbv zeta. tauto.
Qed.

Lemma odd_S n : Nat.odd (S n) = negb (Nat.odd n).
Proof. rewrite Nat.odd_succ. now rewrite <- Nat.negb_odd. Qed.

Lemma handle_events_fold events ch s :
  fold_left UserInterface.handle_event events (ch, s)
  = (UserInterface.mk_changes
       (UserInterface.pause_toggle ch
        || existsb (is_key UserInterface.K_p) events)
       (UserInterface.reset ch || existsb (is_key UserInterface.K_r) events)
       (UserInterface.quit ch || existsb is_quit events)
       (UserInterface.debug_toggle ch
        || existsb (is_key UserInterface.K_F1) events),
     UserInterface.mk
       (UserInterface.running s && negb (existsb is_quit events))
       (xorb (UserInterface.show_debug_info s)
          (odd_presses UserInterface.K_F1 events))
       (xorb (UserInterface.paused s) (odd_presses UserInterface.K_p events))
       (UserInterface.reset_requested s)).
Proof.
  unfold odd_presses. revert ch s.
  induction events as [|e events IH]; intros [pt rs qt dt] [run dbg psd rr].
  - cbn. now rewrite !orb_false_r, andb_true_r, !xorb_false_r.
  - cbn [fold_left]. destruct e as [|[]|]; cbn [UserInterface.handle_event];
      rewrite IH; cbn [filter is_key is_quit existsb List.length
                       UserInterface.pause_toggle UserInterface.reset
                       UserInterface.quit UserInterface.debug_toggle
                       UserInterface.running UserInterface.show_debug_info
                       UserInterface.paused UserInterface.reset_requested];
      rewrite ?odd_S;
      destruct pt, rs, qt, dt, run, dbg, psd;
      repeat match goal with
        | |- context [existsb ?f ?l] => destruct (existsb f l)
        | |- context [Nat.odd ?n] => destruct (Nat.odd n)
        end; reflexivity.
Qed.

(** X22.  [handle_events] reports a flag for each kind of event that
    occurs at least once, and toggles [paused] and [show_debug_info] once
    per press: an even number of P presses in one batch reports
    [pause_toggle] and leaves [paused] as it was.  [running] is cleared by
    a quit event (window close or ESCAPE) and never set, and
    [reset_requested] is never written: a press of R is only reported. *)
Theorem handle_events_flags_and_parity :
  forall (events : list UserInterface.event) (self : UserInterface.t),
    let r := UserInterface.handle_events events self in
    let changes := fst r in
    let after := snd r in
    UserInterface.pause_toggle changes
    = existsb (is_key UserInterface.K_p) events
    /\ UserInterface.reset changes = existsb (is_key UserInterface.K_r) events
    /\ UserInterface.quit changes = existsb is_quit events
    /\ UserInterface.debug_toggle changes
       = existsb (is_key UserInterface.K_F1) events
    /\ UserInterface.is_running after
       = UserInterface.is_running self && negb (existsb is_quit events)
    /\ UserInterface.is_paused after
       = xorb (UserInterface.is_paused self)
           (odd_presses UserInterface.K_p events)
    /\ UserInterface.show_debug_info after
       = xorb (UserInterface.show_debug_info self)
           (odd_presses UserInterface.K_F1 events)
    /\ UserInterface.reset_requested after
       = UserInterface.reset_requested self.
Proof.
  intros events self r changes after.
  unfold changes, after, r, UserInterface.handle_events.
  rewrite handle_events_fold. cbn. repeat split; reflexivity.
Qed.

Lemma level_after_attitude dt q : level q -> after_attitude dt q = q.
Proof.
  unfold level. destruct q; cbn.
  intros (? & ? & ? & ? & ? & ? & ? & ? & ? & ? & ? & ? & ? & ? & ? & ?). subst.
  unfold after_attitude. cbn.
  assert (Ex : 0 + 0 / Ix * dt = 0) by (unfold Rdiv; ring).
  assert (Ey : 0 + 0 / Iy * dt = 0) by (unfold Rdiv; ring).
  assert (Ez : 0 + 0 / Iz * dt = 0) by (unfold Rdiv; ring).
  rewrite Ex, Ey, Ez.
  rewrite !clamp_rest by (lra || reflexivity).
  rewrite normalize_yaw_rest by reflexivity.
  reflexivity.
Qed.

Lemma level_after_translation dt q : level q -> level (after_translation dt q).
Proof.
  unfold level. destruct q; cbn.
  intros (? & ? & ? & ? & ? & ? & ? & ? & ? & ? & ? & ? & ? & ? & ? & ?). subst.
  rewrite cos_0, sin_0.
  assert (Eax : thrust * (1 * 0 * 1 + 0 * 0) / mass = 0)
    by (unfold Rdiv; ring).
  assert (Eay : thrust * (0 * 0 * 1 - 1 * 0) / mass = 0)
    by (unfold Rdiv; ring).
  rewrite Eax, Eay.
  rewrite (clamp_rest 50 0 dt) by (lra || reflexivity).
  rewrite (clamp_rest 500 0 dt) by (lra || reflexivity).
  repeat split; reflexivity.
Qed.

Lemma level_step dt q : level q -> level (snd (Quadcopter.step dt q)).
Proof.
  intros H. destruct (step_cases dt q) as [E|[E|E]]; rewrite E; cbn [snd].
  - exact H.
  - now rewrite level_after_attitude.
  - rewrite level_after_attitude by exact H. now apply level_after_translation.
Qed.

Lemma level_run calls q :
  Forall no_torque calls -> level q -> level (quad_run calls q).
Proof.
  unfold quad_run. intros F. revert q.
  induction F as [|c calls Hc F IH]; intros q H; [exact H|].
  cbn [fold_left]. apply IH. destruct c; cbn [quad_apply].
  - cbn in Hc. destruct Hc as (-> & -> & ->).
    unfold level, Quadcopter.set_control in *. destruct q; cbn in *. tauto.
  - now apply level_step.
  - unfold level in *. destruct q; cbn in *. tauto.
Qed.

(** X23.  A vehicle that is only ever given thrust, never a torque,
    stays level and on the vertical axis: after any such sequence of calls
    from construction, [x], [y], [vx], [vy], the three angles and the three
    rates are all zero. *)
Theorem thrust_alone_keeps_the_vehicle_level_and_on_axis :
  forall (mass length Ixx Iyy Izz : R) (calls : list quad_call),
    Forall no_torque calls ->
    let state :=
      Quadcopter.get_state
        (quad_run calls (Quadcopter.init mass length Ixx Iyy Izz)) in
    VehicleState.x state = 0 /\ VehicleState.y state = 0
    /\ VehicleState.vx state = 0 /\ VehicleState.vy state = 0
    /\ VehicleState.roll state = 0 /\ VehicleState.pitch state = 0
    /\ VehicleState.yaw state = 0
    /\ VehicleState.p state = 0 /\ VehicleState.q state = 0
    /\ VehicleState.r state = 0.
Proof.
  intros mass length Ixx Iyy Izz calls F state.
  assert (L : level (quad_run calls (Quadcopter.init mass length Ixx Iyy Izz))).
  { apply level_run; [exact F|]. unfold level. cbn. repeat split; reflexivity. }
  unfold level in L. unfold state, Quadcopter.get_state. cbn. tauto.
Qed.

(** A thrust of 20 and two steps. *)
Lemma thrust_alone_keeps_the_vehicle_level_and_on_axis_witness :
  let calls := [QSetControl 0 0 0 20; QStep 0.05; QStep 0.05] in
  Forall no_torque calls
  /\ VehicleState.x
       (Quadcopter.get_state
          (quad_run calls (Quadcopter.init 1 0.3 0.01 0.01 0.02))) = 0.
Proof.
  intros calls.
  assert (F : Forall no_torque calls).
  { unfold calls. repeat constructor. }
  split; [exact F|].
  apply (thrust_alone_keeps_the_vehicle_level_and_on_axis
           1 0.3 0.01 0.01 0.02 calls F).
Defined.

(** ** Time steps, construction parameters and free fall; the yaw
    loops and the quaternion norm within the range of binary64 *)

Lemma reset_params q : quad_params (Quadcopter.reset q) = quad_params q.
Proof. destruct q; reflexivity. Qed.

Lemma quad_run_params calls s : quad_params (quad_run calls s) = quad_params s.
Proof.
  unfold quad_run. revert s.
  induction calls as [|c calls IH]; intros s; [reflexivity|].
  cbn [fold_left]. rewrite IH.
  destruct c; cbn [quad_apply].
  - apply set_control_params.
  - apply step_params.
  - apply reset_params.
Qed.

Lemma quad_run_gravity calls s :
  Quadcopter.g (quad_run calls s) = Quadcopter.g s.
Proof.
  unfold quad_run. revert s.
  induction calls as [|c calls IH]; intros s; [reflexivity|].
  cbn [fold_left]. rewrite IH.
  destruct c; cbn [quad_apply].
  - destruct s; reflexivity.
  - destruct (step_cases dt s) as [E|[E|E]]; rewrite E; destruct s; reflexivity.
  - destruct s; reflexivity.
Qed.

(** From construction a negative time step is integrated like any other:
    the vehicle gains upward speed and is moved downward. *)
Lemma negative_step_from_construction mass length Ixx Iyy Izz dt :
  dt < 0 -> mass <> 0 -> Ixx <> 0 -> Iyy <> 0 -> Izz <> 0 ->
  let new := Quadcopter.init mass length Ixx Iyy Izz in
  fst (Quadcopter.step dt new) = Returned tt
  /\ Quadcopter.z (snd (Quadcopter.step dt new)) < 2.5.
Proof.
  intros Hdt Hm Hx Hy Hz new.
  rewrite step_returns by assumption. cbn [fst snd]. split; [reflexivity|].
  set (a := after_attitude dt new).
  destruct (after_attitude_frame dt new) as (At & Am & Ag & Avz & Az & AV & AP).
  fold a in At, Am, Ag, Avz, Az, AV, AP.
  destruct (free_fall_step dt a) as [_ Ez].
  { rewrite At. reflexivity. }
  { rewrite Am. exact Hm. }
  rewrite Ez, Avz, Az, Ag, AV, AP.
  change (Quadcopter.vz new) with 0. change (Quadcopter.z new) with 2.5.
  change (Quadcopter.g new) with 9.81.
  change (Quadcopter.MAX_VEL new) with 50.
  change (Quadcopter.MAX_POS new) with 500.
  set (w := clamp 50 (0 - 9.81 * dt)).
  assert (Hw : 0 < w <= 50).
  { unfold w.
    destruct (clamp_cases 50 (0 - 9.81 * dt)) as [[? E]|[[? E]|[? E]]];
      try lra; rewrite E; lra. }
  assert (Hz1 : 2.5 + w * dt < 2.5) by nra.
  destruct (Rlt_dec (2.5 + w * dt) 0) as [Hg|Ha].
  - rewrite ltb_true by exact Hg. rewrite ground_value. lra.
  - rewrite ltb_false by lra.
    rewrite (clamp_inside 0 500 (2.5 + w * dt)) by lra. exact Hz1.
Qed.

(** C6, amended.  With [dt = 0], [step] leaves the whole object, and so
    the whole vehicle state, unchanged, whether it returns or raises, on
    every state a call sequence reaches from construction.  A negative
    [dt] is not guarded against: on the vehicle as constructed, with
    non-zero mass and inertia, [step(dt)] with [dt < 0] returns and leaves
    another vehicle state. *)
Theorem zero_time_step_changes_nothing :
  forall (mass length Ixx Iyy Izz : R) (calls : list quad_call),
    let new := Quadcopter.init mass length Ixx Iyy Izz in
    let self := quad_run calls new in
    let r := Quadcopter.step 0 self in
    snd r = self
    /\ Quadcopter.get_state (snd r) = Quadcopter.get_state self
    /\ (forall dt : R,
          dt < 0 -> mass <> 0 -> Ixx <> 0 -> Iyy <> 0 -> Izz <> 0 ->
          fst (Quadcopter.step dt new) = Returned tt
          /\ Quadcopter.get_state (snd (Quadcopter.step dt new))
             <> Quadcopter.get_state new).
Proof.
  intros mass length Ixx Iyy Izz calls new self r.
  assert (E : snd r = self).
  { apply step_zero, quad_run_within_limits, init_within_limits. }
  split; [exact E|]. split; [now rewrite E|].
  intros dt Hdt Hm Hx Hy Hz.
  destruct (negative_step_from_construction mass length Ixx Iyy Izz dt
              Hdt Hm Hx Hy Hz) as [Hret Hlow].
  split; [exact Hret|].
  intros H. apply (f_equal VehicleState.z) in H.
  unfold Quadcopter.get_state in H. cbn [VehicleState.z] in H.
  fold new in Hlow. rewrite H in Hlow. unfold new in Hlow. cbn in Hlow. lra.
Qed.

(** C7, amended.  Construction succeeds for every mass and every moment
    of inertia and stores them as given.  The fault shows at [step]: with a
    zero moment of inertia [step] raises [ZeroDivisionError] after any
    sequence of calls; with a zero mass it raises [ZeroDivisionError] on
    the vehicle as constructed and returns after no sequence of calls.
    Any other value, negative ones included, is never rejected: [step]
    returns on the vehicle as constructed and raises after no sequence of
    calls. *)
Theorem constructor_accepts_any_parameters :
  forall (mass length Ixx Iyy Izz : R) (calls : list quad_call),
    let new := Quadcopter.init mass length Ixx Iyy Izz in
    let self := quad_run calls new in
    Quadcopter.new mass length Ixx Iyy Izz = Returned new
    /\ Quadcopter.mass self = mass
    /\ Quadcopter.Ix self = Ixx
    /\ Quadcopter.Iy self = Iyy
    /\ Quadcopter.Iz self = Izz
    /\ (forall dt : R,
          Ixx = 0 \/ Iyy = 0 \/ Izz = 0 ->
          fst (Quadcopter.step dt self) = Raised ZeroDivisionError)
    /\ (forall dt : R,
          mass = 0 ->
          fst (Quadcopter.step dt new) = Raised ZeroDivisionError
          /\ fst (Quadcopter.step dt self) <> Returned tt)
    /\ (forall dt : R,
          mass <> 0 -> Ixx <> 0 -> Iyy <> 0 -> Izz <> 0 ->
          fst (Quadcopter.step dt new) = Returned tt
          /\ forall e, fst (Quadcopter.step dt self) <> Raised e).
Proof.
  intros mass length Ixx Iyy Izz calls new self.
  pose proof (quad_run_params calls new) as P. fold self in P.
  unfold quad_params in P. change (Quadcopter.mass new) with mass in P.
  change (Quadcopter.Ix new) with Ixx in P.
  change (Quadcopter.Iy new) with Iyy in P.
  change (Quadcopter.Iz new) with Izz in P.
  injection P as Pm Px Py Pz.
  split; [reflexivity|]. repeat (split; [assumption|]).
  assert (Hraise : forall dt s,
            Quadcopter.mass s = 0 \/ Quadcopter.Ix s = 0
            \/ Quadcopter.Iy s = 0 \/ Quadcopter.Iz s = 0 ->
            fst (Quadcopter.step dt s) = Raised ZeroDivisionError).
  { intros dt s H.
    destruct (Req_dec_T (Quadcopter.Ix s) 0) as [|Hx];
      [rewrite step_raises_inertia; [reflexivity | tauto]|].
    destruct (Req_dec_T (Quadcopter.Iy s) 0) as [|Hy];
      [rewrite step_raises_inertia; [reflexivity | tauto]|].
    destruct (Req_dec_T (Quadcopter.Iz s) 0) as [|Hz];
      [rewrite step_raises_inertia; [reflexivity | tauto]|].
    rewrite step_raises_mass; [reflexivity | assumption ..| tauto]. }
  split; [|split].
  - intros dt H. apply Hraise. rewrite Px, Py, Pz. tauto.
  - intros dt H. split.
    + apply Hraise. left. exact H.
    + rewrite (Hraise dt self); [discriminate | left; congruence].
  - intros dt Hm Hx Hy Hz. split.
    + now rewrite step_returns.
    + intros e. rewrite step_returns by congruence. discriminate.
Qed.

(** Falling from rest at up to 127 m, the speed limit is not reached
    before the ground: [2500 / (2 * 9.81)] is 127.42. *)
Lemma no_clamp_below_terminal_height (N dt h z : R) :
  0 <= N -> 0 < dt -> h <= 127 ->
  z = h - 9.81 * (dt * dt) * (N * (N + 1)) / 2 ->
  - N * 9.81 * dt - 9.81 * dt < - 50 ->
  0 <= z - 50 * dt ->
  False.
Proof.
  intros HN Hdt Hh Hz Hw Hair.
  set (a := N * dt). set (b := (N + 1) * dt).
  assert (Hb : 50 < 9.81 * b) by (unfold b; lra).
  assert (Ha : 0 <= a) by (unfold a; nra).
  assert (Hba : b = a + dt) by (unfold a, b; ring).
  assert (Hab : 9.81 * (a * b) / 2 + 50 * dt <= 127).
  { replace (a * b) with ((dt * dt) * (N * (N + 1))) by (unfold a, b; ring).
    lra. }
  destruct (Rle_dec (9.81 * b) 100) as [Hlow|Hhigh].
  - assert (H1 : 0 <= dt * (50 - 9.81 * b / 2)) by nra.
    assert (H2 : 2500 < (9.81 * b) * (9.81 * b)) by nra.
    assert (H3 : 9.81 * (a * b) / 2 + 50 * dt
                 = 9.81 * (b * b) / 2 + dt * (50 - 9.81 * b / 2))
      by (rewrite Hba; field).
    nra.
  - assert (H1 : 0 <= a * (9.81 * b / 2 - 50)) by nra.
    assert (H3 : 9.81 * (a * b) / 2 + 50 * dt
                 = a * (9.81 * b / 2 - 50) + 50 * b)
      by (rewrite Hba; field).
    nra.
Qed.

Lemma fall_step mass Ixx Iyy Izz dt h n s :
  0 < dt -> mass <> 0 -> Ixx <> 0 -> Iyy <> 0 -> Izz <> 0 ->
  falling mass Ixx Iyy Izz dt h n s ->
  let r := Quadcopter.step dt s in
  let w := Quadcopter.vz s - Quadcopter.g s * dt in
  let v := clamp (Quadcopter.MAX_VEL s) w in
  fst r = Returned tt
  /\ falling mass Ixx Iyy Izz dt h (S n) (snd r)
  /\ (0 <= Quadcopter.z s + v * dt ->
      Quadcopter.vz (snd r) = v
      /\ Quadcopter.z (snd r) = Quadcopter.z s + Quadcopter.vz (snd r) * dt)
  /\ (Quadcopter.z s + v * dt < 0 ->
      Quadcopter.z (snd r) = 0 /\ Quadcopter.vz (snd r) = 0)
  /\ (Quadcopter.z s = 0 -> Quadcopter.z (snd r) = 0)
  /\ (- 50 <= w -> v = w)
  /\ (w < - 50 -> v = - 50)
  /\ (h <= 127 -> 0 <= Quadcopter.z s + v * dt -> v = w).
Proof.
  intros Hdt Hm Hx Hy Hz
    (Ht & Hmass & Hg & HIx & HIy & HIz & HV & HP & Hvz & Hzr & Hvert) r w v.
  unfold r. rewrite step_returns by congruence. cbn [fst snd].
  set (a := after_attitude dt s).
  destruct (after_attitude_frame dt s) as (At & Am & Ag & Avz & Az & AV & AP).
  destruct (after_attitude_inertia dt s) as (AIx & AIy & AIz).
  destruct (after_translation_frame dt a) as (Tt & Tm & Tg & TIx & TIy & TIz & TV & TP).
  fold a in At, Am, Ag, Avz, Az, AV, AP, AIx, AIy, AIz.
  destruct (free_fall_step dt a) as [Evz Ez]; [congruence | congruence |].
  rewrite Avz, Az, Ag, AV in Evz, Ez. rewrite AP in Ez.
  fold w in Evz, Ez. fold v in Evz, Ez.
  unfold falling. rewrite S_INR. rewrite Evz, Ez. clear Evz Ez.
  rewrite HP. subst v w. rewrite HV, Hg in *.
  pose proof (pos_INR n) as HN.
  set (z := Quadcopter.z s) in *. set (vz := Quadcopter.vz s) in *.
  assert (Hw : vz - 9.81 * dt < 0) by nra.
  assert (Hv : - 50 <= clamp 50 (vz - 9.81 * dt) < 0
               /\ (- 50 <= vz - 9.81 * dt ->
                   clamp 50 (vz - 9.81 * dt) = vz - 9.81 * dt)
               /\ (vz - 9.81 * dt < - 50 ->
                   clamp 50 (vz - 9.81 * dt) = - 50)).
  { destruct (clamp_cases 50 (vz - 9.81 * dt)) as [[? E]|[[? E]|[? E]]];
      try lra; rewrite E; repeat split; intros; lra. }
  destruct Hv as (Hvr & Hv1 & Hv2).
  set (v := clamp 50 (vz - 9.81 * dt)) in *.
  assert (Hfr : Quadcopter.thrust (after_translation dt a) = 0
                /\ Quadcopter.mass (after_translation dt a) = mass
                /\ Quadcopter.g (after_translation dt a) = 9.81
                /\ Quadcopter.Ix (after_translation dt a) = Ixx
                /\ Quadcopter.Iy (after_translation dt a) = Iyy
                /\ Quadcopter.Iz (after_translation dt a) = Izz
                /\ Quadcopter.MAX_VEL (after_translation dt a) = 50
                /\ Quadcopter.MAX_POS (after_translation dt a) = 500).
  { repeat split; congruence. }
  assert (Hnc : h <= 127 -> 0 <= z + v * dt ->
                ((vz = - INR n * 9.81 * dt
                  /\ z = h - 9.81 * (dt * dt) * (INR n * (INR n + 1)) / 2)
                 \/ (z = 0 /\ vz = 0)) ->
                v = vz - 9.81 * dt).
  { intros Hh Hair [(Hvn & Hzn)|(Hz0 & Hv0)].
    - apply Hv1.
      destruct (Rle_dec (- 50) (vz - 9.81 * dt)) as [|Hlt]; [assumption|].
      exfalso.
      apply (no_clamp_below_terminal_height (INR n) dt h z HN Hdt Hh Hzn).
      + lra.
      + rewrite Hv2 in Hair by lra. lra.
    - exfalso. nra. }
  split; [reflexivity|].
  destruct (Rlt_dec (z + v * dt) 0) as [Hground|Hair].
  - (* the position update goes below the ground *)
    rewrite ltb_true by exact Hground. rewrite ground_value.
    split; [|repeat split; intros; try lra; auto].
    repeat (split; [tauto|]). split; [lra|]. split; [lra|].
    intros _. right. split; reflexivity.
  - rewrite ltb_false by lra.
    assert (Hin : py_max 0 (py_min 500 (z + v * dt)) = z + v * dt).
    { apply clamp_inside. nra. }
    rewrite Hin.
    split; [|repeat split; intros; try nra; auto; apply Hnc; auto; lra].
    repeat (split; [tauto|]). split; [lra|]. split; [nra|].
    intros Hh. left.
    assert (E : v = vz - 9.81 * dt) by (apply Hnc; auto; lra).
    destruct (Hvert Hh) as [(Hvn & Hzn)|(Hz0 & Hv0)]; [|exfalso; nra].
    rewrite E. split; [rewrite Hvn; ring | rewrite Hzn, Hvn; field].
Qed.

Lemma falling_run mass Ixx Iyy Izz dt n start :
  0 < dt -> mass <> 0 -> Ixx <> 0 -> Iyy <> 0 -> Izz <> 0 ->
  falling mass Ixx Iyy Izz dt (Quadcopter.z start) 0 start ->
  falling mass Ixx Iyy Izz dt (Quadcopter.z start) n
    (quad_run (repeat (QStep dt) n) start).
Proof.
  intros Hdt Hm Hx Hy Hz H0. induction n as [|n IH]; [exact H0|].
  change (repeat (QStep dt) (S n)) with (QStep dt :: repeat (QStep dt) n).
  rewrite repeat_cons, quad_run_snoc. cbn [quad_apply].
  now apply (fall_step mass Ixx Iyy Izz dt (Quadcopter.z start) n).
Qed.

Lemma fall_stays_grounded mass Ixx Iyy Izz dt h k :
  0 < dt -> mass <> 0 -> Ixx <> 0 -> Iyy <> 0 -> Izz <> 0 ->
  forall n s,
    falling mass Ixx Iyy Izz dt h n s ->
    Quadcopter.z s = 0 ->
    Quadcopter.z (quad_run (repeat (QStep dt) k) s) = 0.
Proof.
  intros Hdt Hm Hx Hy Hz.
  induction k as [|k IH]; intros n s F Hz0; [exact Hz0|].
  change (quad_run (repeat (QStep dt) (S k)) s)
    with (quad_run (repeat (QStep dt) k) (snd (Quadcopter.step dt s))).
  destruct (fall_step mass Ixx Iyy Izz dt h n s Hdt Hm Hx Hy Hz F)
    as (_ & F' & _ & _ & Hnext & _).
  apply (IH (S n)); [exact F' | now apply Hnext].
Qed.

(** A vehicle at rest with no thrust, in a state reached from
    construction, is at the start of a fall. *)
Lemma rest_is_start_of_fall mass length Ixx Iyy Izz dt calls :
  let start := quad_run calls (Quadcopter.init mass length Ixx Iyy Izz) in
  Quadcopter.thrust start = 0 -> Quadcopter.vz start = 0 ->
  falling mass Ixx Iyy Izz dt (Quadcopter.z start) 0 start.
Proof.
  intros start Ht Hv.
  pose proof (quad_run_params calls (Quadcopter.init mass length Ixx Iyy Izz)) as P.
  pose proof (quad_run_gravity calls (Quadcopter.init mass length Ixx Iyy Izz)) as G.
  pose proof (quad_run_within_limits calls _
                (init_within_limits mass length Ixx Iyy Izz)) as W.
  fold start in P, G, W. unfold quad_params in P. cbn in P, G.
  injection P as Pm Px Py Pz.
  destruct W as (_ & WV & WP & _ & _ & _ & _ & _ & _ & _ & _ & Wz).
  rewrite WP in Wz.
  unfold falling. repeat (split; [assumption|]).
  split; [rewrite Hv; lra|]. split; [exact Wz|].
  intros _. left. rewrite Hv. cbn. split; [ring | field].
Qed.

(** C3, amended.  A vehicle at rest with no torque and no thrust, in any
    state reached from construction, falls under [step] with [dt > 0] as
    follows.  Every [step] returns.  While the position update keeps [z] at
    or above 0, the vertical velocity becomes [vz - g * dt] clamped to
    [- MAX_VEL], with [g = 9.81] and [MAX_VEL = 50]: it changes by exactly
    [- g * dt] as long as that stays within the limit, and is [- 50]
    beyond.  Starting from an altitude of up to 127 m, the construction
    altitude 2.5 m included, the limit is never reached in the air.  On a
    step whose position update takes [z] below 0, [z] and [vz] are set to
    0; and once [z] is 0 it is 0 after any number of further steps. *)
Theorem free_fall_then_rest_on_ground :
  forall (mass length Ixx Iyy Izz dt : R) (calls : list quad_call) (n : nat),
    0 < dt -> mass <> 0 -> Ixx <> 0 -> Iyy <> 0 -> Izz <> 0 ->
    let start := quad_run calls (Quadcopter.init mass length Ixx Iyy Izz) in
    at_rest start ->
    let self := quad_run (repeat (QStep dt) n) start in
    let r := Quadcopter.step dt self in
    let w := Quadcopter.vz self - Quadcopter.g self * dt in
    let v := clamp (Quadcopter.MAX_VEL self) w in
    fst r = Returned tt
    /\ Quadcopter.g self = 9.81
    /\ Quadcopter.MAX_VEL self = 50
    /\ (0 <= Quadcopter.z self + v * dt ->
        Quadcopter.vz (snd r) = v
        /\ Quadcopter.z (snd r)
           = Quadcopter.z self + Quadcopter.vz (snd r) * dt)
    /\ (- 50 <= w -> v = w)
    /\ (w < - 50 -> v = - 50)
    /\ (Quadcopter.z start <= 127 ->
        0 <= Quadcopter.z self + v * dt ->
        Quadcopter.vz (snd r) = Quadcopter.vz self - Quadcopter.g self * dt)
    /\ (Quadcopter.z self + v * dt < 0 ->
        Quadcopter.z (snd r) = 0 /\ Quadcopter.vz (snd r) = 0)
    /\ (Quadcopter.z self = 0 ->
        forall k : nat,
          Quadcopter.z (quad_run (repeat (QStep dt) k) self) = 0).
Proof.
  intros mass length Ixx Iyy Izz dt calls n Hdt Hm Hx Hy Hz start Hrest
    self r w v.
  destruct Hrest as (_ & _ & Hv & _ & _ & _ & Hc).
  assert (Ht : Quadcopter.thrust start = 0).
  { unfold controls in Hc. now injection Hc. }
  pose proof (rest_is_start_of_fall mass length Ixx Iyy Izz dt calls Ht Hv)
    as F0. fold start in F0.
  pose proof (falling_run mass Ixx Iyy Izz dt n start Hdt Hm Hx Hy Hz F0) as F.
  fold self in F.
  destruct (fall_step mass Ixx Iyy Izz dt (Quadcopter.z start) n self
              Hdt Hm Hx Hy Hz F)
    as (H1 & _ & H2 & H3 & _ & H5 & H6 & H7).
  fold r in H1, H2, H3. fold w in H2, H3, H5, H6, H7. fold v in H2, H3, H5, H6, H7.
  split; [exact H1|]. split; [apply F|]. split; [apply F|].
  split; [exact H2|]. split; [exact H5|]. split; [exact H6|].
  split.
  { intros Hh Hair. destruct (H2 Hair) as [E _]. rewrite E.
    now apply H7. }
  split; [exact H3|].
  intros Hz0 k.
  now apply (fall_stays_grounded mass Ixx Iyy Izz dt (Quadcopter.z start) k
               Hdt Hm Hx Hy Hz n).
Qed.

(** The first step of a fall from construction with [dt = 0.1]: airborne,
    [vz = - g * dt]. *)
Lemma free_fall_then_rest_on_ground_witness :
  let new := Quadcopter.init 1 0.3 0.01 0.01 0.02 in
  let r := Quadcopter.step 0.1 new in
  0 < 0.1
  /\ at_rest new
  /\ fst r = Returned tt
  /\ Quadcopter.vz (snd r) = - 0.981
  /\ Quadcopter.z (snd r) = 2.5 - 0.0981.
Proof.
  intros new r.
  assert (Hrest : at_rest new).
  { unfold at_rest, controls. cbn. repeat split; reflexivity. }
  destruct (free_fall_then_rest_on_ground 1 0.3 0.01 0.01 0.02 0.1 [] 0)
    as (Hret & _ & _ & Hair & Hin & _); try lra; try exact Hrest.
  cbn in Hret, Hair, Hin.
  rewrite Hin in Hair by lra.
  destruct Hair as [Hvz Hz]; [lra|].
  fold new in Hret, Hvz, Hz. fold r in Hret, Hvz, Hz.
  rewrite Hz, Hvz.
  repeat split; try apply Hrest; try lra. exact Hret.
Defined.

(** The vertical part of a returning [step] on a level vehicle. *)
Lemma level_vertical dt a :
  level a ->
  let w := clamp 50
             (Quadcopter.vz a
              + (Quadcopter.thrust a - Quadcopter.mass a * Quadcopter.g a)
                / Quadcopter.mass a * dt) in
  let z1 := Quadcopter.z a + w * dt in
  Quadcopter.vz (after_translation dt a) = (if ltb z1 0 then 0 else w)
  /\ Quadcopter.z (after_translation dt a)
     = py_max 0 (py_min 500 (if ltb z1 0 then 0 else z1)).
Proof.
  unfold level. destruct a; cbn.
  intros (? & ? & ? & ? & ? & ? & ? & ? & ? & ? & ? & ? & ? & ? & ? & ?). subst.
  rewrite cos_0.
  replace (thrust * (1 * 1)) with thrust by ring.
  split; reflexivity.
Qed.

Lemma on_axis_outcome dt z vz T q :
  on_axis z vz T q ->
  let w := clamp 50 (vz + (T - 9.81) * dt) in
  let z1 := z + w * dt in
  fst (Quadcopter.step dt q) = Returned tt
  /\ on_axis (py_max 0 (py_min 500 (if ltb z1 0 then 0 else z1)))
       (if ltb z1 0 then 0 else w) T (snd (Quadcopter.step dt q)).
Proof.
  intros (L & P & G & Hz & Hv & Ht) w z1.
  unfold quad_params in P. injection P as Pm Px Py Pz.
  rewrite step_returns by lra. cbn [fst snd]. split; [reflexivity|].
  rewrite level_after_attitude by exact L.
  destruct (level_vertical dt q L) as [Evz Ez].
  destruct (after_translation_frame dt q) as (Tt & Tm & Tg & TIx & TIy & TIz & _).
  rewrite Pm, G, Ht, Hv, Hz in Evz, Ez.
  replace ((T - 1 * 9.81) / 1 * dt) with ((T - 9.81) * dt) in Evz, Ez by field.
  fold w in Evz, Ez. fold z1 in Evz, Ez.
  unfold on_axis. split; [now apply level_after_translation|].
  split; [unfold quad_params; congruence|].
  split; [congruence|]. split; [exact Ez|]. split; [exact Evz | congruence].
Qed.

(** A step that stays in the air and within the speed limit. *)
Lemma on_axis_step dt z vz T z' vz' q :
  on_axis z vz T q ->
  vz' = vz + (T - 9.81) * dt -> - 50 <= vz' <= 50 ->
  z' = z + vz' * dt -> 0 <= z' <= 500 ->
  fst (Quadcopter.step dt q) = Returned tt
  /\ on_axis z' vz' T (snd (Quadcopter.step dt q)).
Proof.
  intros H Ev Hv Ez Hz.
  destruct (on_axis_outcome dt z vz T q H) as [R O]. split; [exact R|].
  cbv zeta in O. rewrite <- Ev in O.
  unfold clamp in O. rewrite (clamp_inside _ 50 vz') in O by lra.
  rewrite <- Ez in O. rewrite ltb_false in O by lra.
  rewrite (clamp_inside 0 500 z') in O by lra. exact O.
Qed.

(** A step that stays in the air and meets the speed limit on the way
    down. *)
Lemma on_axis_step_limited dt z vz T z' q :
  on_axis z vz T q ->
  vz + (T - 9.81) * dt <= - 50 ->
  z' = z + - 50 * dt -> 0 <= z' <= 500 ->
  fst (Quadcopter.step dt q) = Returned tt
  /\ on_axis z' (- 50) T (snd (Quadcopter.step dt q)).
Proof.
  intros H Hv Ez Hz.
  destruct (on_axis_outcome dt z vz T q H) as [R O]. split; [exact R|].
  cbv zeta in O.
  assert (E : clamp 50 (vz + (T - 9.81) * dt) = - 50).
  { destruct (clamp_cases 50 (vz + (T - 9.81) * dt)) as [[? E]|[[? E]|[? E]]];
      lra. }
  rewrite E in O. rewrite <- Ez in O. rewrite ltb_false in O by lra.
  rewrite (clamp_inside 0 500 z') in O by lra. exact O.
Qed.

Lemma on_axis_set_control z vz T T' q :
  on_axis z vz T q -> 0 <= T' ->
  on_axis z vz T' (Quadcopter.set_control 0 0 0 T' q).
Proof.
  intros (L & P & G & Hz & Hv & Ht) HT.
  assert (E : py_max 0 T' = T').
  { unfold py_max. destruct (Rlt_dec 0 T'); lra. }
  unfold on_axis, level, quad_params, Quadcopter.set_control in *.
  destruct q; cbn in *. rewrite E. tauto.
Qed.

(** The vehicle climbs for five seconds under twice its weight and stops
    under no thrust after five more: it is at rest at 247.75 m with no
    control applied.  From there it falls in steps of one second; the
    sixth step keeps it in the air, from 100.6 m to 50.6 m, and changes the
    vertical velocity from -49.05 to -50, by -0.95 and not by
    [- g * dt = - 9.81]. *)
Lemma fall_from_height_meets_speed_limit :
  let start :=
    quad_run [QSetControl 0 0 0 19.62; QStep 5; QSetControl 0 0 0 0; QStep 5]
      (Quadcopter.init 1 0.3 0.01 0.01 0.02) in
  let self := quad_run (repeat (QStep 1) 5) start in
  let r := Quadcopter.step 1 self in
  Quadcopter.get_state start
  = VehicleState.mk 0 0 247.75 0 0 0 0 0 0 0 0 0 0 0 0 0
  /\ at_rest start
  /\ fst r = Returned tt
  /\ Quadcopter.z self = 100.6 /\ Quadcopter.z (snd r) = 50.6
  /\ Quadcopter.vz self = - 49.05 /\ Quadcopter.vz (snd r) = - 50
  /\ Quadcopter.vz (snd r) <> Quadcopter.vz self - Quadcopter.g self * 1.
Proof.
  intros start self r.
  assert (A0 : on_axis 2.5 0 0 (Quadcopter.init 1 0.3 0.01 0.01 0.02)).
  { unfold on_axis, level, quad_params. cbn. repeat split; reflexivity. }
  pose proof (on_axis_set_control _ _ _ 19.62 _ A0 ltac:(lra)) as A1.
  destruct (on_axis_step 5 _ _ _ 247.75 49.05 _ A1) as [_ A2]; try lra.
  pose proof (on_axis_set_control _ _ _ 0 _ A2 ltac:(lra)) as A3.
  destruct (on_axis_step 5 _ _ _ 247.75 0 _ A3) as [_ A4]; try lra.
  change (on_axis 247.75 0 0 start) in A4.
  destruct (on_axis_step 1 _ _ _ 237.94 (- 9.81) _ A4) as [_ B1]; try lra.
  destruct (on_axis_step 1 _ _ _ 218.32 (- 19.62) _ B1) as [_ B2]; try lra.
  destruct (on_axis_step 1 _ _ _ 188.89 (- 29.43) _ B2) as [_ B3]; try lra.
  destruct (on_axis_step 1 _ _ _ 149.65 (- 39.24) _ B3) as [_ B4]; try lra.
  destruct (on_axis_step 1 _ _ _ 100.6 (- 49.05) _ B4) as [_ B5]; try lra.
  change (on_axis 100.6 (- 49.05) 0 self) in B5.
  destruct (on_axis_step_limited 1 _ _ _ 50.6 _ B5) as [R B6]; try lra.
  fold r in R, B6.
  destruct A4 as (L & _ & _ & Sz & Sv & St).
  destruct B5 as (_ & _ & Bg & Bz & Bv & _).
  destruct B6 as (_ & _ & _ & Cz & Cv & _).
  split.
  { unfold level in L. unfold Quadcopter.get_state.
    destruct L as (-> & -> & -> & -> & -> & -> & -> & -> & -> & -> & -> & ->
                   & -> & _).
    rewrite Sz, Sv, St. reflexivity. }
  split.
  { unfold level in L. unfold at_rest, controls.
    destruct L as (_ & _ & -> & -> & _ & _ & _ & -> & -> & -> & -> & ->
                   & -> & _).
    rewrite Sv, St. repeat split; reflexivity. }
  split; [exact R|]. split; [exact Bz|]. split; [exact Cz|].
  split; [exact Bv|]. split; [exact Cv|].
  rewrite Cv, Bv, Bg. lra.
Qed.



Lemma after_translation_heading dt a :
  Quadcopter.yaw (after_translation dt a) = Quadcopter.yaw a
  /\ Quadcopter.r (after_translation dt a) = Quadcopter.r a.
Proof. destruct a; cbn. tauto. Qed.

Lemma after_attitude_heading dt q :
  Quadcopter.yaw q = 0 -> Quadcopter.r q = 0 -> Quadcopter.torque_yaw q = 0 ->
  Quadcopter.yaw (after_attitude dt q) = 0
  /\ Quadcopter.r (after_attitude dt q) = 0.
Proof.
  destruct q; cbn. intros -> -> ->.
  assert (E : 0 + 0 / Iz * dt = 0) by (unfold Rdiv; ring).
  rewrite E. split; [|reflexivity].
  now apply normalize_yaw_rest.
Qed.

Lemma reset_quiet p : pid_quiet p -> pid_quiet (PID.reset p).
Proof. unfold pid_quiet. destruct p; cbn. tauto. Qed.

Lemma update_returns_eq p error dt :
  0 <= PID.derivative_filter_tau p -> 0 <= dt ->
  exists out p', PID.update error dt p = (Returned out, p').
Proof.
  intros Htau Hdt. destruct (update_returns p error dt Htau Hdt) as [out E].
  destruct (PID.update error dt p) as [o p']. cbn in E. subst o. eauto.
Qed.

Lemma update_altitude_heading z_ref z vz mass g dt c :
  0 <= PID.derivative_filter_tau (CascadedController.alt_pid c) -> 0 <= dt ->
  exists thrust c1,
    CascadedController.update_altitude z_ref z vz mass g dt c
    = (Returned thrust, c1)
    /\ CascadedController.roll_pid c1 = CascadedController.roll_pid c
    /\ CascadedController.pitch_pid c1 = CascadedController.pitch_pid c
    /\ CascadedController.yaw_pid c1 = CascadedController.yaw_pid c.
Proof.
  intros Htau Hdt. rewrite update_altitude_outcome.
  destruct (update_returns_eq (CascadedController.alt_pid c)
              (z_ref - z - 0.2 * vz) dt Htau Hdt) as (out & p' & E).
  rewrite E. do 2 eexists. split; [reflexivity|].
  destruct c; cbn. tauto.
Qed.

Lemma update_attitude_heading roll_ref pitch_ref roll pitch dt c :
  0 <= PID.derivative_filter_tau (CascadedController.roll_pid c) ->
  0 <= PID.derivative_filter_tau (CascadedController.pitch_pid c) ->
  pid_quiet (CascadedController.yaw_pid c) -> 0 <= dt ->
  exists torque_roll torque_pitch c2,
    CascadedController.update_attitude roll_ref pitch_ref 0 roll pitch 0 dt c
    = (Returned (torque_roll, torque_pitch, 0), c2)
    /\ pid_quiet (CascadedController.yaw_pid c2).
Proof.
  intros H1 H2 Q Hdt.
  unfold CascadedController.update_attitude, bind, on_attr, ret.
  destruct c as [ca cr cp cy]. cbn in *.
  destruct (update_returns_eq cr (roll_ref - roll) dt H1 Hdt)
    as (troll & pr & Er).
  destruct (update_returns_eq cp (pitch_ref - pitch) dt H2 Hdt)
    as (tpitch & pp & Ep).
  destruct (update_quiet_eq cy dt Q Hdt) as (py & Ey & Qy).
  replace (0 - 0) with 0 by ring.
  rewrite Er. cbn. rewrite Ep. cbn. rewrite Ey. cbn.
  do 3 eexists. split; [reflexivity | exact Qy].
Qed.

Lemma sim_step_result dt s thrust c1 torque_roll torque_pitch torque_yaw c2 q' :
  let q := QuadcopterSimulator.quad s in
  CascadedController.update_altitude
    (QuadcopterSimulator.z_ref s) (Quadcopter.z q) (Quadcopter.vz q)
    (Quadcopter.mass q) (Quadcopter.g q) dt (QuadcopterSimulator.controller s)
  = (Returned thrust, c1) ->
  CascadedController.update_attitude
    (QuadcopterSimulator.roll_ref s) (QuadcopterSimulator.pitch_ref s)
    (QuadcopterSimulator.yaw_ref s)
    (Quadcopter.roll q) (Quadcopter.pitch q) (Quadcopter.yaw q) dt c1
  = (Returned (torque_roll, torque_pitch, torque_yaw), c2) ->
  Quadcopter.step dt
    (Quadcopter.set_control torque_roll torque_pitch torque_yaw thrust q)
  = (Returned tt, q') ->
  let s' := snd (QuadcopterSimulator.step dt s) in
  QuadcopterSimulator.quad s' = q'
  /\ QuadcopterSimulator.controller s' = c2
  /\ QuadcopterSimulator.yaw_ref s' = QuadcopterSimulator.yaw_ref s.
Proof.
  intros q E1 E2 E3. cbv zeta. rewrite sim_step_unfold. cbv zeta.
  fold q. rewrite E1, E2, E3. cbn. tauto.
Qed.

Lemma set_control_heading a b d q :
  let q1 := Quadcopter.set_control a b 0 d q in
  quad_params q1 = quad_params q
  /\ Quadcopter.yaw q1 = Quadcopter.yaw q
  /\ Quadcopter.r q1 = Quadcopter.r q
  /\ Quadcopter.torque_yaw q1 = 0.
Proof. unfold Quadcopter.set_control. destruct q; cbn. tauto. Qed.

Lemma heading_step dt s :
  heading_still s -> 0 <= dt ->
  (let '(t1, t2, t3, t4) := ctrl_taus (QuadcopterSimulator.controller s) in
   0 <= t1 /\ 0 <= t2 /\ 0 <= t3 /\ 0 <= t4) ->
  (let '(m, ix, iy, iz) := quad_params (QuadcopterSimulator.quad s) in
   m <> 0 /\ ix <> 0 /\ iy <> 0 /\ iz <> 0) ->
  heading_still (snd (QuadcopterSimulator.step dt s)).
Proof.
  intros (Hy & Hr & Hyr & Q) Hdt Ht Hp.
  unfold ctrl_taus in Ht. unfold quad_params in Hp.
  destruct Ht as (Ht1 & Ht2 & Ht3 & Ht4). destruct Hp as (Hm & Hx & Hyy & Hz).
  set (q := QuadcopterSimulator.quad s) in *.
  set (c := QuadcopterSimulator.controller s) in *.
  destruct (update_altitude_heading (QuadcopterSimulator.z_ref s)
              (Quadcopter.z q) (Quadcopter.vz q) (Quadcopter.mass q)
              (Quadcopter.g q) dt c Ht1 Hdt)
    as (thrust & c1 & E1 & C1r & C1p & C1y).
  assert (H1 : 0 <= PID.derivative_filter_tau (CascadedController.roll_pid c1))
    by (rewrite C1r; exact Ht2).
  assert (H2 : 0 <= PID.derivative_filter_tau (CascadedController.pitch_pid c1))
    by (rewrite C1p; exact Ht3).
  assert (Q1 : pid_quiet (CascadedController.yaw_pid c1))
    by (rewrite C1y; exact Q).
  destruct (update_attitude_heading (QuadcopterSimulator.roll_ref s)
              (QuadcopterSimulator.pitch_ref s)
              (Quadcopter.roll q) (Quadcopter.pitch q) dt c1 H1 H2 Q1 Hdt)
    as (troll & tpitch & c2 & E2 & Qy).
  destruct (set_control_heading troll tpitch thrust q) as (P1 & Y1 & R1 & T1).
  set (q1 := Quadcopter.set_control troll tpitch 0 thrust q) in *.
  unfold quad_params in P1. 
  assert (Fm : Quadcopter.mass q1 <> 0) by (intros F; apply Hm; congruence).
  assert (Fx : Quadcopter.Ix q1 <> 0) by (intros F; apply Hx; congruence).
  assert (Fy : Quadcopter.Iy q1 <> 0) by (intros F; apply Hyy; congruence).
  assert (Fz : Quadcopter.Iz q1 <> 0) by (intros F; apply Hz; congruence).
  pose proof (step_returns dt q1 Fx Fy Fz Fm) as E3.
  destruct (sim_step_result dt s thrust c1 troll tpitch 0 c2
              (after_translation dt (after_attitude dt q1)))
    as (S1 & S2 & S3).
  { exact E1. }
  { fold q. rewrite Hyr, Hy. exact E2. }
  { exact E3. }
  destruct (after_translation_heading dt (after_attitude dt q1)) as [A1 A2].
  destruct (after_attitude_heading dt q1) as [B1 B2];
    [congruence | congruence | exact T1 |].
  unfold heading_still. rewrite S1, S2, S3.
  split; [rewrite A1; exact B1|]. split; [rewrite A2; exact B2|].
  split; [exact Hyr | exact Qy].
Qed.

Lemma heading_run calls s :
  Forall yaw_idle calls ->
  heading_still s ->
  (let '(t1, t2, t3, t4) := ctrl_taus (QuadcopterSimulator.controller s) in
   0 <= t1 /\ 0 <= t2 /\ 0 <= t3 /\ 0 <= t4) ->
  (let '(m, ix, iy, iz) := quad_params (QuadcopterSimulator.quad s) in
   m <> 0 /\ ix <> 0 /\ iy <> 0 /\ iz <> 0) ->
  heading_still (sim_run calls s).
Proof.
  unfold sim_run. intros F. revert s.
  induction F as [|c calls Hc F IH]; intros s H Ht Hp; [exact H|].
  cbn [fold_left].
  destruct (sim_run_frame [c] s) as [T P]. cbn [sim_run fold_left] in T, P.
  apply IH; [|rewrite T; exact Ht | rewrite P; exact Hp].
  destruct c; cbn [sim_apply].
  - cbn in Hc. subst. destruct H as (H1 & H2 & _ & H4).
    destruct s; cbn in *. unfold heading_still; cbn. tauto.
  - now apply heading_step.
  - destruct H as (H1 & H2 & H3 & H4).
    destruct s as [q c ? ? ? ? ? ? ?]. cbn in *.
    unfold heading_still; cbn.
    split; [destruct q; reflexivity|]. split; [destruct q; reflexivity|].
    split; [exact H3|]. destruct c; cbn in *. now apply reset_quiet.
Qed.

(** X8.  With non-zero mass and moments of inertia, the yaw reference
    kept at zero and no negative time step, [QuadcopterSimulator.step]
    with [dt >= 0] returns in every state such a sequence of
    [set_references], [step] and [reset] calls reaches from construction;
    it returns the vehicle state it leaves and counts one tick, and the yaw
    it leaves is zero: the loops of [Quadcopter.step] are not entered. *)
Theorem simulator_step_returns_for_nonnegative_dt :
  forall (mass length Ixx Iyy Izz : R) (calls : list sim_call) (dt : R),
    0 <= dt -> mass <> 0 -> Ixx <> 0 -> Iyy <> 0 -> Izz <> 0 ->
    Forall yaw_idle calls ->
    let self := sim_run calls (QuadcopterSimulator.init mass length Ixx Iyy Izz) in
    let r := QuadcopterSimulator.step dt self in
    fst r = Returned (Quadcopter.get_state (QuadcopterSimulator.quad (snd r)))
    /\ QuadcopterSimulator.step_count (snd r)
       = (QuadcopterSimulator.step_count self + 1)%Z
    /\ Quadcopter.yaw (QuadcopterSimulator.quad self) = 0
    /\ Quadcopter.yaw (QuadcopterSimulator.quad (snd r)) = 0.
Proof.
  intros mass length Ixx Iyy Izz calls dt Hdt Hm Hx Hy Hz F self r.
  destruct (sim_run_frame calls
              (QuadcopterSimulator.init mass length Ixx Iyy Izz)) as [T P].
  fold self in T, P.
  assert (Ht : let '(t1, t2, t3, t4) :=
                 ctrl_taus (QuadcopterSimulator.controller self) in
               0 <= t1 /\ 0 <= t2 /\ 0 <= t3 /\ 0 <= t4).
  { rewrite T. cbn. repeat split; lra. }
  assert (Hp : let '(m, ix, iy, iz) :=
                 quad_params (QuadcopterSimulator.quad self) in
               m <> 0 /\ ix <> 0 /\ iy <> 0 /\ iz <> 0).
  { rewrite P. cbn. tauto. }
  assert (H0 : heading_still
                 (QuadcopterSimulator.init mass length Ixx Iyy Izz)).
  { unfold heading_still, pid_quiet. cbn. repeat split; try reflexivity; lra. }
  assert (Hs : heading_still self).
  { apply heading_run; [exact F | exact H0 | cbn; repeat split; lra
                        | cbn; tauto]. }
  pose proof (heading_step dt self Hs Hdt Ht Hp) as Hs'. fold r in Hs'.
  destruct (sim_step_returns dt self Hdt Ht Hp) as [state E].
  fold r in E. pose proof (sim_step_bookkeeping dt self) as B.
  cbv zeta in B. fold r in B. rewrite E in B.
  destruct B as (B1 & B2 & _). rewrite E, <- B1.
  split; [reflexivity|]. split; [exact B2|].
  split; [apply Hs | apply Hs'].
Qed.

(** A step of [dt = 0.05] after new roll, pitch and altitude references. *)
Lemma simulator_step_returns_for_nonnegative_dt_witness :
  let calls := [SSetReferences 0.1 (- 0.2) 0 5; SStep 0.05] in
  let self := sim_run calls (QuadcopterSimulator.init 1 0.3 0.01 0.01 0.02) in
  let r := QuadcopterSimulator.step 0.05 self in
  0 <= 0.05
  /\ Forall yaw_idle calls
  /\ fst r = Returned (Quadcopter.get_state (QuadcopterSimulator.quad (snd r))).
Proof.
  intros calls self r.
  assert (F : Forall yaw_idle calls).
  { unfold calls. repeat constructor. cbn. lra. }
  split; [lra|]. split; [exact F|].
  apply (simulator_step_returns_for_nonnegative_dt 1 0.3 0.01 0.01 0.02
           calls 0.05); (lra || exact F).
Defined.

(** X18.  On the zero quaternion [quaternion_normalize] raises
    [ZeroDivisionError].  On a quaternion whose squared norm lies between
    [1e-300] and [1e300] it returns a quaternion of norm 1, which it then
    leaves unchanged; within this range it raises on no other input. *)
Theorem quaternion_normalize_unit_or_zero_division :
  forall q : MathUtils.quat,
    quat_in_range q ->
    (MathUtils.quaternion_normalize q = Raised ZeroDivisionError
     <-> q = (0, 0, 0, 0))
    /\ (q <> (0, 0, 0, 0) ->
        exists n, MathUtils.quaternion_normalize q = Returned n)
    /\ (forall n,
          MathUtils.quaternion_normalize q = Returned n ->
          norm2_quat n = 1
          /\ MathUtils.quaternion_normalize n = Returned n).
Proof.
  intros [[[w x] y] z] _.
  pose proof (quaternion_normalize_outcome w x y z) as E. cbv zeta in E.
  set (N := sqrt (w ^ 2 + x ^ 2 + y ^ 2 + z ^ 2)) in *.
  pose proof (norm_zero_iff w x y z) as Z. fold N in Z.
  rewrite E. destruct (Req_dec_T N 0) as [H0|Hn].
  - split; [tauto|]. split; [intros H; exfalso; tauto|].
    intros n H. discriminate H.
  - split; [split; [discriminate | intros H; apply Z in H; contradiction]|].
    split; [intros _; eexists; reflexivity|].
    intros n H. inversion H as [Hq]. clear H.
    assert (HN : N * N = w * w + x * x + y * y + z * z).
    { unfold N. rewrite sqrt_sqrt by nra. ring. }
    assert (U : w / N * (w / N) + x / N * (x / N) + y / N * (y / N)
                + z / N * (z / N) = 1).
    { replace (w / N * (w / N) + x / N * (x / N) + y / N * (y / N)
               + z / N * (z / N))
        with ((w * w + x * x + y * y + z * z) * (/ N * / N))
        by (unfold Rdiv; ring).
      rewrite <- HN. field. exact Hn. }
    split; [exact U|].
    rewrite quaternion_normalize_outcome. cbv zeta.
    replace ((w / N) ^ 2 + (x / N) ^ 2 + (y / N) ^ 2 + (z / N) ^ 2) with 1
      by (rewrite <- U; ring).
    rewrite sqrt_1.
    destruct (Req_dec_T 1 0); [lra|].
    now rewrite !Rdiv_1_r.
Qed.

(** The quaternion [(1, 2, 2, 0)], of squared norm 9, is normalised. *)
Lemma quaternion_normalize_unit_or_zero_division_witness :
  quat_in_range (1, 2, 2, 0)
  /\ exists n, MathUtils.quaternion_normalize (1, 2, 2, 0) = Returned n
               /\ norm2_quat n = 1.
Proof.
  assert (H : quat_in_range (1, 2, 2, 0)).
  { right. unfold norm2_quat. lra. }
  split; [exact H|].
  destruct (quaternion_normalize_unit_or_zero_division (1, 2, 2, 0) H)
    as (_ & Hex & Hunit).
  destruct Hex as [n Hn].
  { intros E. inversion E. lra. }
  exists n. split; [exact Hn|]. now apply Hunit.
Defined.
